(** * Workflow debug tool: log normalisation and correlation

    A shallow embedding of [debug_tool.py] (the [LogEntry] dataclass with its
    signal detection, the two log adapters of [WorkflowDebugger], the
    timeline, the session index, the conversation summary, the export, the
    flow-diagram extraction, the block lookup and the loading of the
    infrastructure files) and of the session registry of [app.py], followed
    by the properties stated for them.

    Conventions of the embedding.
    - A Python value that comes out of [json.load] is a [pyval]: [None], a
      [bool], an [int], a [str], a [list] or a [dict].  A [dict] is an
      association list with distinct keys in insertion order, which is the
      order Python iterates in.  JSON numbers with a fraction or an exponent
      (Python [float]) are outside the model.
    - A Python [str] is a [string]; case mapping, white space and digits are
      the ASCII ones.
    - A call that can raise returns a [res]: [Ok v] or [Raise e].
    - The library calls [re.search], [re.findall], [json.loads] and
      [datetime.strptime] are modelled by executable definitions
      ([Re], [Json], [Strptime]); where a function of the program only
      passes the result of [json.loads] or [json.dumps] on, the library
      function is a variable of the enclosing section. *)

From Stdlib Require Import String Ascii List ZArith Lia Bool Arith.
From Stdlib Require Import Permutation Sorted DecimalString.
Import ListNotations.
Local Open Scope list_scope.
Local Open Scope string_scope.

(* ================================================================= *)
(** ** Python values and the operations the program applies to them *)

Module Py.

(** Exceptions the program can meet. *)
Inductive exn : Type :=
| TypeError
| AttributeError
| ValueError
| KeyError.

Inductive res (A : Type) : Type :=
| Ok (a : A)
| Raise (e : exn).
Arguments Ok {A} a.
Arguments Raise {A} e.

Definition bind {A B} (m : res A) (f : A -> res B) : res B :=
  match m with
  | Ok a => f a
  | Raise e => Raise e
  end.

(** [mapM f l]: a [for] loop that collects, stopping at the first raise. *)
Fixpoint mapM {A B} (f : A -> res B) (l : list A) : res (list B) :=
  match l with
  | [] => Ok []
  | a :: t =>
      bind (f a) (fun b => bind (mapM f t) (fun bs => Ok (b :: bs)))
  end.

Unset Elimination Schemes.
Inductive pyval : Type :=
| PNone
| PBool (b : bool)
| PInt (z : Z)
| PStr (s : string)
| PList (items : list pyval)
| PDict (kvs : list (string * pyval)).
Set Elimination Schemes.

(** Induction over nested values: the hypothesis holds for every element of a
    list and for every value of a dict. *)
Fixpoint pyval_ind (P : pyval -> Prop)
    (HNone : P PNone)
    (HBool : forall b, P (PBool b))
    (HInt : forall z, P (PInt z))
    (HStr : forall s, P (PStr s))
    (HList : forall items, Forall P items -> P (PList items))
    (HDict : forall kvs, Forall (fun kv => P (snd kv)) kvs -> P (PDict kvs))
    (v : pyval) {struct v} : P v :=
  let rec := pyval_ind P HNone HBool HInt HStr HList HDict in
  match v with
  | PNone => HNone
  | PBool b => HBool b
  | PInt z => HInt z
  | PStr s => HStr s
  | PList items =>
      HList items
        ((fix go (l : list pyval) : Forall P l :=
            match l with
            | [] => Forall_nil P
            | x :: t => Forall_cons x (rec x) (go t)
            end) items)
  | PDict kvs =>
      HDict kvs
        ((fix go (l : list (string * pyval)) : Forall (fun kv => P (snd kv)) l :=
            match l with
            | [] => Forall_nil _
            | kv :: t => Forall_cons kv (rec (snd kv)) (go t)
            end) kvs)
  end.

(** *** Characters and strings *)

Definition dq : ascii := ascii_of_nat 34.   (* the double quote *)
Definition sq : ascii := ascii_of_nat 39.   (* the single quote *)
Definition bsl : ascii := ascii_of_nat 92.  (* the backslash *)

(** [qq s] is [s] with every single quote turned into a double quote: texts
    that hold double quotes are written with single quotes below. *)
Fixpoint qq (s : string) : string :=
  match s with
  | EmptyString => EmptyString
  | String c t => String (if Ascii.eqb c sq then dq else c) (qq t)
  end.

Definition in_range (lo hi : nat) (c : ascii) : bool :=
  (lo <=? nat_of_ascii c)%nat && (nat_of_ascii c <=? hi)%nat.

Definition is_upper : ascii -> bool := in_range 65 90.
Definition is_lower : ascii -> bool := in_range 97 122.
Definition is_digit : ascii -> bool := in_range 48 57.

(** [str.isspace] on ASCII: tab to carriage return, the four separators
    0x1c-0x1f and the blank. *)
Definition is_space (c : ascii) : bool :=
  in_range 9 13 c || in_range 28 31 c || Ascii.eqb c " ".

Definition lower_ascii (c : ascii) : ascii :=
  if is_upper c then ascii_of_nat (nat_of_ascii c + 32) else c.

(** [s.lower()] *)
Fixpoint lower (s : string) : string :=
  match s with
  | EmptyString => EmptyString
  | String c t => String (lower_ascii c) (lower t)
  end.

(** [s.startswith(p)] *)
Definition startswith (s p : string) : bool := String.prefix p s.

(** [sub in s] for two strings *)
Fixpoint contains (s sub : string) : bool :=
  String.prefix sub s ||
  match s with
  | EmptyString => false
  | String _ t => contains t sub
  end.

Fixpoint mem_ascii (c : ascii) (l : list ascii) : bool :=
  match l with
  | [] => false
  | x :: t => Ascii.eqb c x || mem_ascii c t
  end.

Fixpoint lstrip_by (p : ascii -> bool) (s : string) : string :=
  match s with
  | EmptyString => EmptyString
  | String c t => if p c then lstrip_by p t else s
  end.

Fixpoint rstrip_by (p : ascii -> bool) (s : string) : string :=
  match s with
  | EmptyString => EmptyString
  | String c t =>
      match rstrip_by p t with
      | EmptyString => if p c then EmptyString else String c EmptyString
      | t' => String c t'
      end
  end.

(** [s.strip()] and [s.strip(chars)] *)
Definition strip (s : string) : string := rstrip_by is_space (lstrip_by is_space s).
Definition strip_chars (chars : list ascii) (s : string) : string :=
  rstrip_by (fun c => mem_ascii c chars) (lstrip_by (fun c => mem_ascii c chars) s).

Fixpoint drop (n : nat) (s : string) : string :=
  match n, s with
  | O, _ => s
  | S n', String _ t => drop n' t
  | S _, EmptyString => EmptyString
  end.

(** [s[:n]] *)
Fixpoint take (n : nat) (s : string) : string :=
  match n, s with
  | S n', String c t => String c (take n' t)
  | _, _ => EmptyString
  end.

(** [s.replace(old, new)] for a non-empty [old]: occurrences are replaced
    from the left and do not overlap ([skip] counts the characters of the
    occurrence being dropped). *)
Fixpoint replace_from (old new s : string) (skip : nat) : string :=
  match s with
  | EmptyString => EmptyString
  | String c t =>
      match skip with
      | S k => replace_from old new t k
      | O =>
          if String.prefix old s
          then new ++ replace_from old new t (String.length old - 1)
          else String c (replace_from old new t 0)
      end
  end.
Definition replace (s old new : string) : string := replace_from old new s 0.

(** [sep.join(l)] *)
Fixpoint join (sep : string) (l : list string) : string :=
  match l with
  | [] => ""
  | [x] => x
  | x :: t => x ++ sep ++ join sep t
  end.

(** *** Truth value, [repr] and [str] *)

(** [bool(v)] *)
Definition truthy (v : pyval) : bool :=
  match v with
  | PNone => false
  | PBool b => b
  | PInt z => negb (z =? 0)%Z
  | PStr s => negb (s =? "")
  | PList l => match l with [] => false | _ => true end
  | PDict d => match d with [] => false | _ => true end
  end.

Definition str_of_Z (z : Z) : string := NilZero.string_of_int (Z.to_int z).

Definition hex_digit (n : nat) : ascii :=
  if (n <? 10)%nat then ascii_of_nat (48 + n) else ascii_of_nat (87 + n).

(** One character inside [repr] of a string quoted with [q]. *)
Definition repr_char (q : ascii) (c : ascii) : string :=
  let n := nat_of_ascii c in
  if Ascii.eqb c bsl then String bsl (String bsl "")
  else if Ascii.eqb c q then String bsl (String q "")
  else if (n =? 9)%nat then String bsl "t"
  else if (n =? 10)%nat then String bsl "n"
  else if (n =? 13)%nat then String bsl "r"
  else if (n <? 32)%nat || (n =? 127)%nat
       then String bsl (String "x" (String (hex_digit (n / 16)) (String (hex_digit (n mod 16)) "")))
  else String c "".

Fixpoint repr_chars (q : ascii) (s : string) : string :=
  match s with
  | EmptyString => EmptyString
  | String c t => repr_char q c ++ repr_chars q t
  end.

Fixpoint has_char (c : ascii) (s : string) : bool :=
  match s with
  | EmptyString => false
  | String x t => Ascii.eqb x c || has_char c t
  end.

(** [repr(s)]: single quotes, unless [s] holds a single quote and no double
    quote. *)
Definition repr_str (s : string) : string :=
  let q := if has_char sq s && negb (has_char dq s) then dq else sq in
  String q (repr_chars q s ++ String q "").

(** [repr(v)] *)
Fixpoint repr (v : pyval) : string :=
  match v with
  | PNone => "None"
  | PBool true => "True"
  | PBool false => "False"
  | PInt z => str_of_Z z
  | PStr s => repr_str s
  | PList l => "[" ++ join ", " (map repr l) ++ "]"
  | PDict d =>
      "{" ++ join ", " (map (fun kv => repr_str (fst kv) ++ ": " ++ repr (snd kv)) d) ++ "}"
  end.

(** [str(v)] *)
Definition str (v : pyval) : string :=
  match v with
  | PStr s => s
  | _ => repr v
  end.

(** *** Dictionaries *)

Definition dict := list (string * pyval).

Fixpoint dict_lookup (d : dict) (k : string) : option pyval :=
  match d with
  | [] => None
  | (k', v) :: t => if k' =? k then Some v else dict_lookup t k
  end.

(** [k in d] *)
Definition dict_has (d : dict) (k : string) : bool :=
  match dict_lookup d k with Some _ => true | None => false end.

(** [d.get(k, default)] *)
Definition dict_get (d : dict) (k : string) (default : pyval) : pyval :=
  match dict_lookup d k with Some v => v | None => default end.

(** [d[k] = v]: an existing key keeps its place. *)
Fixpoint dict_set (d : dict) (k : string) (v : pyval) : dict :=
  match d with
  | [] => [(k, v)]
  | (k', v') :: t => if k' =? k then (k', v) :: t else (k', v') :: dict_set t k v
  end.

(** [d.pop(k, None)] on a copy *)
Fixpoint dict_pop (d : dict) (k : string) : dict :=
  match d with
  | [] => []
  | (k', v') :: t => if k' =? k then t else (k', v') :: dict_pop t k
  end.

(** [v.get(k, default)] on a value of unknown type: only a dict has [get]. *)
Definition get (v : pyval) (k : string) (default : pyval) : res pyval :=
  match v with
  | PDict d => Ok (dict_get d k default)
  | _ => Raise AttributeError
  end.

(** [v == s] for a string literal [s] *)
Definition eq_str (v : pyval) (s : string) : bool :=
  match v with
  | PStr t => t =? s
  | _ => false
  end.

(** [isinstance(v, (dict, list))] *)
Definition is_dict_or_list (v : pyval) : bool :=
  match v with PDict _ | PList _ => true | _ => false end.

(** [k in v] for a string key [k] and a value of unknown type: key
    membership in a dict, element membership in a list, substring in a
    string; anything else is not iterable. *)
Definition has_key (v : pyval) (k : string) : res bool :=
  match v with
  | PDict d => Ok (dict_has d k)
  | PList l => Ok (existsb (fun x => eq_str x k) l)
  | PStr s => Ok (contains s k)
  | _ => Raise TypeError
  end.

(** [v[k]] for a string key [k] *)
Definition getitem (v : pyval) (k : string) : res pyval :=
  match v with
  | PDict d => match dict_lookup d k with Some x => Ok x | None => Raise KeyError end
  | _ => Raise TypeError
  end.

(** [for x in v]: the items a loop over [v] visits. *)
Definition iter (v : pyval) : res (list pyval) :=
  match v with
  | PList l => Ok l
  | PDict d => Ok (map (fun kv => PStr (fst kv)) d)
  | PStr s => Ok (map (fun c => PStr (String c "")) (list_ascii_of_string s))
  | _ => Raise TypeError
  end.

(** *** [int(s)] *)

Fixpoint digits_value (acc : Z) (s : string) (after_digit : bool) : option Z :=
  match s with
  | EmptyString => if after_digit then Some acc else None
  | String c t =>
      if is_digit c
      then digits_value (10 * acc + Z.of_nat (nat_of_ascii c - 48)) t true
      else if Ascii.eqb c "_" && after_digit
           then match t with
                | String c' _ => if is_digit c' then digits_value acc t false else None
                | EmptyString => None
                end
           else None
  end.

Fixpoint count_digits (s : string) : nat :=
  match s with
  | EmptyString => O
  | String c t => if is_digit c then S (count_digits t) else count_digits t
  end.

(** [int(s)] for a string: surrounding white space, an optional sign, decimal
    digits with single underscores between them, at most 4300 digits (the
    default limit of the conversion); [None] is [ValueError]. *)
Definition int_of_str (s : string) : option Z :=
  if (4300 <? count_digits s)%nat then None
  else
    match strip s with
    | String "-" t => option_map Z.opp (digits_value 0 t false)
    | String "+" t => digits_value 0 t false
    | t => digits_value 0 t false
    end.

(** [int(v)] for [v] an [int] (a [bool] is one) or a [str] *)
Definition int_of (v : pyval) : option Z :=
  match v with
  | PInt z => Some z
  | PBool b => Some (if b then 1 else 0)%Z
  | PStr s => int_of_str s
  | _ => None
  end.

End Py.

Import Py.

Declare Scope res_scope.
Notation "x <- m ;; k" := (Py.bind m (fun x => k))
  (at level 61, m at next level, right associativity) : res_scope.
Local Open Scope res_scope.

(* ================================================================= *)
(** ** Regular expressions ([re.search], [re.findall])

    A backtracking matcher with Python's priorities: alternatives are tried
    from the left, a repetition takes as many rounds as it can and gives them
    back one by one, and the first start position that matches wins. *)

Module Re.

Inductive regex : Type :=
| Eps
| Chr (p : ascii -> bool)          (* one character out of a class *)
| Seq (a b : regex)
| Alt (a b : regex)
| Star (a : regex)                 (* greedy [a*] *)
| Group (n : nat) (a : regex).     (* capturing group number [n] *)

(** Captured groups, the most recent first. *)
Definition caps := list (nat * string).

(** What was consumed between [s] and its suffix [s']. *)
Definition consumed (s s' : string) : string :=
  take (String.length s - String.length s') s.

(** [m r s c k]: match [r] at the head of [s], then hand the rest to [k];
    [None] makes the matcher backtrack. *)
Fixpoint m {A} (r : regex) (s : string) (c : caps)
    (k : string -> caps -> option A) {struct r} : option A :=
  match r with
  | Eps => k s c
  | Chr p =>
      match s with
      | String a t => if p a then k t c else None
      | EmptyString => None
      end
  | Seq a b => m a s c (fun s' c' => m b s' c' k)
  | Alt a b =>
      match m a s c k with
      | Some x => Some x
      | None => m b s c k
      end
  | Star a =>
      (fix rounds (n : nat) (s : string) (c : caps) {struct n} : option A :=
         match n with
         | O => k s c
         | S n' =>
             match m a s c (fun s' c' =>
                     if (String.length s' <? String.length s)%nat
                     then rounds n' s' c' else None) with
             | Some x => Some x
             | None => k s c
             end
         end) (String.length s) s c
  | Group n a => m a s c (fun s' c' => k s' ((n, consumed s s') :: c'))
  end.

(** A match object: where it starts, the text it spans, its groups and what
    follows it. *)
Record mobj : Type := {
  m_start : nat;
  m_text : string;
  m_caps : caps;
  m_rest : string
}.

(** [m.group(n)] for [n >= 1] *)
Fixpoint lookup_group (c : caps) (n : nat) : option string :=
  match c with
  | [] => None
  | (i, t) :: rest => if (i =? n)%nat then Some t else lookup_group rest n
  end.
Definition group (mo : mobj) (n : nat) : string :=
  match lookup_group (m_caps mo) n with Some t => t | None => "" end.

(** [re.match(r, s)]: a match at the start of [s]. *)
Definition match_here (r : regex) (s : string) (pos : nat) : option mobj :=
  m r s [] (fun s' c =>
    Some {| m_start := pos; m_text := consumed s s'; m_caps := c; m_rest := s' |}).

(** [re.search(r, s)] *)
Fixpoint search_from (r : regex) (s : string) (pos : nat) : option mobj :=
  match match_here r s pos with
  | Some mo => Some mo
  | None =>
      match s with
      | EmptyString => None
      | String _ t => search_from r t (S pos)
      end
  end.
Definition search (r : regex) (s : string) : option mobj := search_from r s 0.

(** [re.findall(r, s)]: the groups of the successive matches, each search
    resuming where the previous match ended (one character further after an
    empty match). *)
Fixpoint findall_fuel (fuel : nat) (r : regex) (s : string) : list mobj :=
  match fuel with
  | O => []
  | S f =>
      match search r s with
      | None => []
      | Some mo =>
          mo :: match m_text mo, m_rest mo with
                | EmptyString, EmptyString => []
                | EmptyString, String _ t => findall_fuel f r t
                | _, rest => findall_fuel f r rest
                end
      end
  end.
Definition findall (r : regex) (s : string) : list mobj :=
  findall_fuel (S (String.length s)) r s.

(** *** Building patterns *)

Definition chr (c : ascii) : regex := Chr (Ascii.eqb c).
(** a letter under [re.IGNORECASE] *)
Definition ci (c : ascii) : regex :=
  Chr (fun a => Ascii.eqb (lower_ascii a) (lower_ascii c)).
Definition digit : regex := Chr is_digit.                     (* \d *)
Definition space : regex := Chr is_space.                     (* \s *)
Definition none_of (l : list ascii) : regex :=                (* [^...] *)
  Chr (fun a => negb (mem_ascii a l)).
Definition between (lo hi : ascii) : regex :=                 (* [lo-hi] *)
  Chr (in_range (nat_of_ascii lo) (nat_of_ascii hi)).
Definition opt (r : regex) : regex := Alt r Eps.              (* r? *)
Definition plus (r : regex) : regex := Seq r (Star r).        (* r+ *)

Fixpoint rep (n : nat) (r : regex) : regex :=                 (* r{n} *)
  match n with
  | O => Eps
  | S n' => Seq r (rep n' r)
  end.

(** [r{1,n}] for [n >= 1], greedy *)
Fixpoint upto (n : nat) (r : regex) : regex :=
  match n with
  | O => Eps
  | S O => r
  | S n' => Seq r (opt (upto n' r))
  end.

Fixpoint lit (s : string) : regex :=                          (* literal text *)
  match s with
  | EmptyString => Eps
  | String c t => Seq (chr c) (lit t)
  end.

Fixpoint lit_ci (s : string) : regex :=          (* literal text, IGNORECASE *)
  match s with
  | EmptyString => Eps
  | String c t => Seq (ci c) (lit_ci t)
  end.

Fixpoint seq (l : list regex) : regex :=
  match l with
  | [] => Eps
  | r :: t => Seq r (seq t)
  end.

Fixpoint alt (l : list regex) : regex :=
  match l with
  | [] => Chr (fun _ => false)
  | [r] => r
  | r :: t => Alt r (alt t)
  end.

End Re.

(* ================================================================= *)
(** ** [json.loads]

    The decoder for JSON texts whose numbers are integers and whose strings
    are ASCII; [None] stands for [json.JSONDecodeError].  As in Python, a
    repeated key keeps its first place and its last value. *)

Module Json.

(** JSON white space: blank, tab, line feed, carriage return. *)
Definition is_ws (c : ascii) : bool :=
  let n := nat_of_ascii c in
  (n =? 32)%nat || (n =? 9)%nat || (n =? 10)%nat || (n =? 13)%nat.

Definition skip_ws : string -> string := lstrip_by is_ws.

Definition hex_val (c : ascii) : option nat :=
  let n := nat_of_ascii c in
  if is_digit c then Some (n - 48)
  else if in_range 97 102 c then Some (n - 87)
  else if in_range 65 70 c then Some (n - 55)
  else None.

(** The character a one-letter escape stands for. *)
Definition unescape (e : ascii) : option ascii :=
  if Ascii.eqb e dq then Some dq
  else if Ascii.eqb e bsl then Some bsl
  else if Ascii.eqb e "/" then Some "/"%char
  else if Ascii.eqb e "b" then Some (ascii_of_nat 8)
  else if Ascii.eqb e "f" then Some (ascii_of_nat 12)
  else if Ascii.eqb e "n" then Some (ascii_of_nat 10)
  else if Ascii.eqb e "r" then Some (ascii_of_nat 13)
  else if Ascii.eqb e "t" then Some (ascii_of_nat 9)
  else None.

Definition cons_char (c : ascii) (r : option (string * string)) : option (string * string) :=
  match r with
  | Some (body, rest) => Some (String c body, rest)
  | None => None
  end.

(** The body of a string after its opening quote, up to the closing one. *)
Fixpoint scanstring (s : string) : option (string * string) :=
  match s with
  | EmptyString => None
  | String c t =>
      if Ascii.eqb c dq then Some ("", t)
      else if Ascii.eqb c bsl then
        match t with
        | String "u" (String h1 (String h2 (String h3 (String h4 t')))) =>
            match hex_val h1, hex_val h2, hex_val h3, hex_val h4 with
            | Some a, Some b, Some c', Some d =>
                let code := (((a * 16 + b) * 16 + c') * 16 + d)%nat in
                if (code <? 128)%nat then cons_char (ascii_of_nat code) (scanstring t')
                else None
            | _, _, _, _ => None
            end
        | String e t' =>
            match unescape e with
            | Some ch => cons_char ch (scanstring t')
            | None => None
            end
        | EmptyString => None
        end
      else if (nat_of_ascii c <? 32)%nat then None
      else cons_char c (scanstring t)
  end.

Fixpoint span_digits (s : string) : string * string :=
  match s with
  | String c t =>
      if is_digit c then let (ds, r) := span_digits t in (String c ds, r)
      else ("", s)
  | EmptyString => ("", "")
  end.

Fixpoint digits_to_Z (acc : Z) (s : string) : Z :=
  match s with
  | EmptyString => acc
  | String c t => digits_to_Z (10 * acc + Z.of_nat (nat_of_ascii c - 48)) t
  end.

(** What follows the integer part makes the number a float. *)
Definition float_tail (s : string) : bool :=
  match s with
  | String "." (String d _) => is_digit d
  | String e (String d r) =>
      (Ascii.eqb e "e" || Ascii.eqb e "E") &&
      (is_digit d ||
       ((Ascii.eqb d "+" || Ascii.eqb d "-") &&
        match r with String d' _ => is_digit d' | EmptyString => false end))
  | _ => false
  end.

(** An integer: an optional minus sign, then [0] or a digit [1-9] followed
    by digits, at most 4300 of them ([int] refuses more). *)
Definition number (s : string) : option (pyval * string) :=
  let (neg, body) :=
    match s with
    | String "-" t => (true, t)
    | _ => (false, s)
    end in
  match body with
  | String c _ =>
      if is_digit c then
        let (ds, rest) :=
          if Ascii.eqb c "0" then (String c "", drop 1 body) else span_digits body in
        if float_tail rest || (4300 <? String.length ds)%nat then None
        else let z := digits_to_Z 0 ds in
             Some (PInt (if neg then (- z)%Z else z), rest)
      else None
  | EmptyString => None
  end.

Fixpoint value (fuel : nat) (s : string) {struct fuel} : option (pyval * string) :=
  match fuel with
  | O => None
  | S f =>
      match s with
      | EmptyString => None
      | String c t =>
          if Ascii.eqb c dq then
            match scanstring t with
            | Some (body, rest) => Some (PStr body, rest)
            | None => None
            end
          else if Ascii.eqb c "[" then
            match skip_ws t with
            | String "]" rest => Some (PList [], rest)
            | t1 =>
                (fix elems (n : nat) (acc : list pyval) (s : string) {struct n} :=
                   match n with
                   | O => None
                   | S n' =>
                       match value f s with
                       | None => None
                       | Some (v, r) =>
                           match skip_ws r with
                           | String "]" r' => Some (PList (rev (v :: acc)), r')
                           | String "," r' => elems n' (v :: acc) (skip_ws r')
                           | _ => None
                           end
                       end
                   end) (String.length t1) [] t1
            end
          else if Ascii.eqb c "{" then
            match skip_ws t with
            | String "}" rest => Some (PDict [], rest)
            | t1 =>
                (fix members (n : nat) (acc : dict) (s : string) {struct n} :=
                   match n with
                   | O => None
                   | S n' =>
                       match s with
                       | String q s1 =>
                           if Ascii.eqb q dq then
                             match scanstring s1 with
                             | None => None
                             | Some (key, r0) =>
                                 match skip_ws r0 with
                                 | String ":" r1 =>
                                     match value f (skip_ws r1) with
                                     | None => None
                                     | Some (v, r) =>
                                         match skip_ws r with
                                         | String "}" r' => Some (PDict (dict_set acc key v), r')
                                         | String "," r' =>
                                             members n' (dict_set acc key v) (skip_ws r')
                                         | _ => None
                                         end
                                     end
                                 | _ => None
                                 end
                             end
                           else None
                       | EmptyString => None
                       end
                   end) (String.length t1) [] t1
            end
          else if String.prefix "null" s then Some (PNone, drop 4 s)
          else if String.prefix "true" s then Some (PBool true, drop 4 s)
          else if String.prefix "false" s then Some (PBool false, drop 5 s)
          else number s
      end
  end.

(** [json.loads(s)] *)
Definition loads (s : string) : option pyval :=
  match value (S (String.length s)) (skip_ws s) with
  | Some (v, rest) =>
      match skip_ws rest with
      | EmptyString => Some v
      | _ => None
      end
  | None => None
  end.

End Json.

(* ================================================================= *)
(** ** The patterns of the program

    Each pattern is given with its source text in which the single quote
    stands for the double quote. *)

Module Pat.
Import Re.

(** ['?wait_on'?\s*:\s*'([^']+)'], IGNORECASE *)
Definition wait_on_quoted : regex :=
  seq [opt (chr dq); lit_ci "wait_on"; opt (chr dq); Star space; chr ":";
       Star space; chr dq; Group 1 (plus (none_of [dq])); chr dq].

(** [\$[^']+\.wait_on'\s*:\s*'([^']+)'], IGNORECASE *)
Definition wait_on_dotted : regex :=
  seq [chr "$"; plus (none_of [dq]); chr "."; lit_ci "wait_on"; chr dq;
       Star space; chr ":"; Star space; chr dq; Group 1 (plus (none_of [dq])); chr dq].

(** [wait_on[=:]\s*([^\s,}\]]+)], IGNORECASE *)
Definition wait_on_bare : regex :=
  seq [lit_ci "wait_on"; Chr (fun a => mem_ascii a ["="; ":"]%char); Star space;
       Group 1 (plus (Chr (fun a => negb (is_space a || mem_ascii a [","; "}"; "]"]%char))))].

(** ['?statuscode'?\s*:\s*(\d+)], IGNORECASE *)
Definition statuscode_quoted : regex :=
  seq [opt (chr dq); lit_ci "statuscode"; opt (chr dq); Star space; chr ":";
       Star space; Group 1 (plus digit)].

(** [status[_\s]code\s*[:=]\s*(\d+)], IGNORECASE *)
Definition status_code_sep : regex :=
  seq [lit_ci "status"; Chr (fun a => Ascii.eqb a "_" || is_space a); lit_ci "code";
       Star space; Chr (fun a => mem_ascii a [":"; "="]%char); Star space;
       Group 1 (plus digit)].

(** [status[:\s]+([4-5]\d{2})], IGNORECASE *)
Definition status_bare : regex :=
  seq [lit_ci "status"; plus (Chr (fun a => Ascii.eqb a ":" || is_space a));
       Group 1 (Seq (between "4" "5") (rep 2 digit))].

(** [\d{10}-\d+-SR-\d+-\d+[A-Z0-9]+-[A-Z0-9]+] *)
Definition session_id : regex :=
  let alnum := Chr (fun a => is_upper a || is_digit a) in
  seq [rep 10 digit; chr "-"; plus digit; lit "-SR-"; plus digit; chr "-";
       plus digit; plus alnum; chr "-"; plus alnum].

(** [<plugin\s+name='([^']+)'[^>]*label='(V)'[^>]*type='(V)'], where [V] is
    the class [[^']] repeated zero or more times *)
Definition plugin_pattern : regex :=
  seq [lit "<plugin"; plus space; lit "name="; chr dq; Group 1 (plus (none_of [dq])); chr dq;
       Star (none_of [">"%char]); lit "label="; chr dq; Group 2 (Star (none_of [dq])); chr dq;
       Star (none_of [">"%char]); lit "type="; chr dq; Group 3 (Star (none_of [dq])); chr dq].

(** [<chain[^>]*left='(V)'[^>]*right='(V)'], with the same [V] *)
Definition chain_pattern : regex :=
  seq [lit "<chain"; Star (none_of [">"%char]); lit "left="; chr dq;
       Group 1 (Star (none_of [dq])); chr dq;
       Star (none_of [">"%char]); lit "right="; chr dq; Group 2 (Star (none_of [dq])); chr dq].

End Pat.

(* ================================================================= *)
(** ** [LogEntry] and its signal detection *)

Inductive Source : Type := smartflow | blockagent.

Definition Source_eqb (a b : Source) : bool :=
  match a, b with
  | smartflow, smartflow | blockagent, blockagent => true
  | _, _ => false
  end.

(** The unified log entry.  The adapters fill the fields from JSON values
    without checking their types, hence [pyval]. *)
Record LogEntry : Type := {
  timestamp : pyval;
  source : Source;
  session_id : pyval;
  log_type : pyval;
  content : pyval;
  block_id : pyval;
  turn_id : pyval;
  transaction_id : pyval;
  role : pyval;
  message_type : pyval;
  metadata : pyval;
  has_wait_on : bool;
  has_error : bool;
  error_code : option Z;
  wait_on_value : option string
}.

Definition set_wait_on (self : LogEntry) (flag : bool) (value : option string) : LogEntry :=
  {| timestamp := timestamp self; source := source self; session_id := session_id self;
     log_type := log_type self; content := content self; block_id := block_id self;
     turn_id := turn_id self; transaction_id := transaction_id self; role := role self;
     message_type := message_type self; metadata := metadata self;
     has_wait_on := flag; has_error := has_error self; error_code := error_code self;
     wait_on_value := value |}.

Definition set_error (self : LogEntry) (code : Z) : LogEntry :=
  {| timestamp := timestamp self; source := source self; session_id := session_id self;
     log_type := log_type self; content := content self; block_id := block_id self;
     turn_id := turn_id self; transaction_id := transaction_id self; role := role self;
     message_type := message_type self; metadata := metadata self;
     has_wait_on := has_wait_on self; has_error := true; error_code := Some code;
     wait_on_value := wait_on_value self |}.

Definition set_metadata (self : LogEntry) (md : pyval) : LogEntry :=
  {| timestamp := timestamp self; source := source self; session_id := session_id self;
     log_type := log_type self; content := content self; block_id := block_id self;
     turn_id := turn_id self; transaction_id := transaction_id self; role := role self;
     message_type := message_type self; metadata := md;
     has_wait_on := has_wait_on self; has_error := has_error self;
     error_code := error_code self; wait_on_value := wait_on_value self |}.

(** Truth value of an [Optional[str]] *)
Definition some_text (o : option string) : bool :=
  match o with
  | Some s => negb (s =? "")
  | None => false
  end.

(** The first loop of [recursive_search] over a dict: the value of the first
    key, [SessionData] apart when it is skipped, whose lower-case form holds
    [search_key]. *)
Fixpoint scan_keys (kvs : dict) (search_key : string) (skip_session_data : bool)
  : option pyval :=
  match kvs with
  | [] => None
  | (key, value) :: rest =>
      if skip_session_data && (key =? "SessionData")
      then scan_keys rest search_key skip_session_data
      else if contains (lower key) search_key then Some value
      else scan_keys rest search_key skip_session_data
  end.

(** [recursive_search(obj, search_key, max_depth, current_depth,
    skip_session_data)]; the result [PNone] is "not found". *)
Fixpoint recursive_search (obj : pyval) (search_key : string)
    (max_depth current_depth : nat) (skip_session_data : bool) {struct obj} : pyval :=
  if (max_depth <=? current_depth)%nat then PNone
  else
    match obj with
    | PDict kvs =>
        match scan_keys kvs search_key skip_session_data with
        | Some value => value
        | None =>
            (fix values (l : dict) : pyval :=
               match l with
               | [] => PNone
               | (key, value) :: rest =>
                   if skip_session_data && (key =? "SessionData") then values rest
                   else
                     match recursive_search value search_key max_depth
                             (S current_depth) skip_session_data with
                     | PNone => values rest
                     | result => result
                     end
               end) kvs
        end
    | PList items =>
        (fix elements (l : list pyval) : pyval :=
           match l with
           | [] => PNone
           | item :: rest =>
               match recursive_search item search_key max_depth
                       (S current_depth) skip_session_data with
               | PNone => elements rest
               | result => result
               end
           end) items
    | _ => PNone
    end.

(** The three wait_on patterns, tried in order on the cleaned text. *)
Definition wait_on_fallback (text : string) : option string :=
  match Re.search Pat.wait_on_quoted text with
  | Some mo => Some (Re.group mo 1)
  | None =>
      match Re.search Pat.wait_on_dotted text with
      | Some mo => Some (Re.group mo 1)
      | None =>
          match Re.search Pat.wait_on_bare text with
          | Some mo => Some (strip_chars [dq; sq] (Re.group mo 1))
          | None => None
          end
      end
  end.

(** The three status patterns, tried in order on the combined text. *)
Definition status_fallback (text : string) : option Re.mobj :=
  match Re.search Pat.statuscode_quoted text with
  | Some mo => Some mo
  | None =>
      match Re.search Pat.status_code_sep text with
      | Some mo => Some mo
      | None => Re.search Pat.status_bare text
      end
  end.

Section Detection.

(** [json.loads]; [None] when it raises. *)
Variable json_loads : string -> option pyval.

(** The text the wait_on patterns run on: the combined text, or the content
    alone without its top-level [SessionData] entry.  A parse that fails, or
    that gives anything but a dict, ends in the [except: pass] and leaves the
    combined text. *)
Definition content_without_session_data (content : pyval) (combined_str : string)
  : string :=
  if contains combined_str "{" then
    match content with
    | PStr s =>
        if startswith (strip s) "{" then
          match json_loads s with
          | Some (PDict parsed) =>
              if dict_has parsed "SessionData"
              then str (PDict (dict_pop parsed "SessionData"))
              else combined_str
          | _ => combined_str
          end
        else combined_str
    | PDict d =>
        if dict_has d "SessionData"
        then str (PDict (dict_pop d "SessionData"))
        else combined_str
    | _ => combined_str
    end
  else combined_str.

Definition detect_wait_on (self : LogEntry) (combined_str : string) : LogEntry :=
  let v0 := wait_on_value self in
  let v1 :=
    if is_dict_or_list (content self) then
      let wait_on_result := recursive_search (content self) "wait_on" 10 0 true in
      if truthy wait_on_result then Some (str wait_on_result) else v0
    else v0 in
  let v2 :=
    if negb (some_text v1) && is_dict_or_list (metadata self) then
      let wait_on_result := recursive_search (metadata self) "wait_on" 10 0 true in
      if truthy wait_on_result then Some (str wait_on_result) else v1
    else v1 in
  let v3 :=
    if negb (some_text v2) then
      match wait_on_fallback (content_without_session_data (content self) combined_str) with
      | Some v => Some v
      | None => v2
      end
    else v2 in
  set_wait_on self (some_text v3) v3.

(** [code >= 400] sets the error. *)
Definition flag_code (self : LogEntry) (code : option Z) : LogEntry :=
  match code with
  | Some c => if (400 <=? c)%Z then set_error self c else self
  | None => self
  end.

Definition detect_error (self : LogEntry) (combined_str : string) : LogEntry :=
  let self1 :=
    if is_dict_or_list (content self) then
      let first := recursive_search (content self) "statuscode" 10 0 true in
      let status_code :=
        if truthy first then first
        else recursive_search (content self) "status_code" 10 0 true in
      if truthy status_code &&
         match status_code with PInt _ | PBool _ | PStr _ => true | _ => false end
      then flag_code self (int_of status_code)
      else self
    else self in
  if negb (has_error self1) then
    match status_fallback combined_str with
    | Some status_match => flag_code self1 (int_of_str (Re.group status_match 1))
    | None => self1
    end
  else self1.

Definition _detect_important_fields (self : LogEntry) : LogEntry :=
  let content_str := if truthy (content self) then str (content self) else "" in
  let metadata_str := if truthy (metadata self) then str (metadata self) else "" in
  let combined_str := content_str ++ " " ++ metadata_str in
  let self1 :=
    if contains (lower combined_str) "wait_on"
    then detect_wait_on self combined_str
    else self in
  detect_error self1 combined_str.

(** [__post_init__] *)
Definition __post_init__ (self : LogEntry) : LogEntry :=
  _detect_important_fields
    (match metadata self with
     | PNone => set_metadata self (PDict [])
     | _ => self
     end).

(** [LogEntry(...)] as the adapters call it: the four derived fields start
    from their defaults. *)
Definition new_LogEntry (timestamp : pyval) (source : Source)
    (session_id log_type content block_id turn_id transaction_id role
     message_type metadata : pyval) : LogEntry :=
  __post_init__
    {| timestamp := timestamp; source := source; session_id := session_id;
       log_type := log_type; content := content; block_id := block_id;
       turn_id := turn_id; transaction_id := transaction_id; role := role;
       message_type := message_type; metadata := metadata;
       has_wait_on := false; has_error := false; error_code := None;
       wait_on_value := None |}.

End Detection.

(* ================================================================= *)
(** ** The adapters of [WorkflowDebugger] *)

Section Adapters.

(** [json.loads] ([None] when it raises [JSONDecodeError]) and
    [json.dumps(_, indent=2)]. *)
Variable json_loads : string -> option pyval.
Variable json_dumps : pyval -> string.

(** [re.search(pattern, v)] for a value of unknown type *)
Definition re_search (r : Re.regex) (v : pyval) : res (option Re.mobj) :=
  match v with
  | PStr s => Ok (Re.search r s)
  | _ => Raise TypeError
  end.

(** [_extract_session_id_from_smartflow(entry)] *)
Definition _extract_session_id_from_smartflow (entry : pyval) : res pyval :=
  message <- get entry "message" (PStr "") ;;
  nested <-
    match message with
    | PStr s =>
        if startswith (strip s) "{" then
          match json_loads s with
          | Some nested_data =>
              nested_message <- get nested_data "message" (PStr "") ;;
              if truthy nested_message then
                found <- re_search Pat.session_id nested_message ;;
                Ok (option_map Re.m_text found)
              else Ok None
          | None => Ok None
          end
        else Ok None
    | _ => Ok None
    end ;;
  match nested with
  | Some sid => Ok (PStr sid)
  | None =>
      match message with
      | PStr s =>
          match Re.search Pat.session_id s with
          | Some found => Ok (PStr (Re.m_text found))
          | None => Ok (PStr "unknown")
          end
      | PDict d =>
          let session_id := dict_get d "SESSION_ID" (PStr "") in
          if truthy session_id then Ok session_id else Ok (PStr "unknown")
      | _ => Ok (PStr "unknown")
      end
  end.

(** [d.get(k1, d.get(k2, d.get(k3, '')))] *)
Definition get3 (d : pyval) (k1 k2 k3 : string) : res pyval :=
  x3 <- get d k3 (PStr "") ;;
  x2 <- get d k2 x3 ;;
  get d k1 x2.

Definition get2 (d : pyval) (k1 k2 : string) : res pyval :=
  x2 <- get d k2 (PStr "") ;;
  get d k1 x2.

(** What the decoding of the [message] field leaves in the local variables. *)
Record decoded : Type := {
  parsed_data : pyval;
  inner_parsed_data : pyval;
  actual_timestamp : pyval;
  message_content : pyval;
  plugin_id : pyval;
  d_log_type : pyval
}.

(** The second level: the nested [message] text parsed again. *)
Definition decode_inner (message_content : string) : res (pyval * pyval * pyval) :=
  if startswith (strip message_content) "{" then
    match json_loads message_content with
    | Some inner_data =>
        plugin_id <- get3 inner_data "PluginId" "pluginId" "plugin_id" ;;
        log_type <- get2 inner_data "LogType" "logType" ;;
        Ok (inner_data, plugin_id, log_type)
    | None => Ok (PNone, PStr "", PStr "")
    end
  else Ok (PNone, PStr "", PStr "").

(** The first level: the [try] block over [json.loads(message)]. *)
Definition decode_message (message timestamp0 : pyval) : res decoded :=
  let untouched :=
    {| parsed_data := PNone; inner_parsed_data := PNone; actual_timestamp := timestamp0;
       message_content := message; plugin_id := PStr ""; d_log_type := PStr "" |} in
  match message with
  | PStr s =>
      if startswith (strip s) "{" then
        match json_loads s with
        | None => Ok untouched
        | Some nested_data =>
            has_ts <- has_key nested_data "timestamp" ;;
            ts <- (if has_ts then getitem nested_data "timestamp" else Ok timestamp0) ;;
            has_msg <- has_key nested_data "message" ;;
            nested_msg <- (if has_msg then getitem nested_data "message" else Ok PNone) ;;
            second <-
              match nested_msg with
              | PStr mc =>
                  inner <- decode_inner mc ;;
                  let '(inner_data, pid, lt) := inner in
                  Ok (PStr mc, inner_data, pid, lt)
              | _ => Ok (message, PNone, PStr "", PStr "")
              end ;;
            let '(content1, inner_data, pid1, lt1) := second in
            pid2 <- (if truthy pid1 then Ok pid1
                     else get3 nested_data "PluginId" "pluginId" "plugin_id") ;;
            lt2 <- (if truthy lt1 then Ok lt1
                    else get3 nested_data "LogType" "logType" "level") ;;
            content2 <-
              (if negb (truthy content1) || eq_str content1 s then
                 if has_msg then getitem nested_data "message"
                 else Ok (PStr (json_dumps nested_data))
               else Ok content1) ;;
            Ok {| parsed_data := nested_data; inner_parsed_data := inner_data;
                  actual_timestamp := ts; message_content := content2;
                  plugin_id := pid2; d_log_type := lt2 |}
        end
      else Ok untouched
  | _ => Ok untouched
  end.

(** The loop over [session_data.items()] that looks for the assistant's
    answer of this plugin. *)
Fixpoint find_ai_response (items : dict) (suffix : string) : option pyval :=
  match items with
  | [] => None
  | (key, value) :: rest =>
      if contains key ".ai_response" && contains key suffix then Some value
      else find_ai_response rest suffix
  end.

(** The GPT agent exchange carried by an [EXTCALL_] plugin: the pair
    [(gpt_role, gpt_content)]. *)
Definition detect_gpt (plugin_id log_type inner_parsed_data : pyval) : res (pyval * pyval) :=
  if truthy plugin_id then
    match plugin_id with
    | PStr pid =>
        if startswith pid "EXTCALL_" then
          user <-
            (if eq_str log_type "IpdOut" && truthy inner_parsed_data then
               ipd_msg <- get inner_parsed_data "IpdMsg" (PDict []) ;;
               match ipd_msg with
               | PDict im =>
                   match dict_get im "body" (PDict []) with
                   | PDict body =>
                       if dict_has body "user_message"
                       then Ok (PStr "user", dict_get body "user_message" (PStr ""))
                       else Ok (PNone, PNone)
                   | _ => Ok (PNone, PNone)
                   end
               | _ => Ok (PNone, PNone)
               end
             else Ok (PNone, PNone)) ;;
          let '(gpt_role, gpt_content) := user in
          if negb (truthy gpt_role) &&
             (eq_str log_type "IpdIn" || eq_str log_type "PluginTran") &&
             truthy inner_parsed_data
          then
            direct <- get inner_parsed_data "ai_response" (PStr "") ;;
            ai_response <-
              (if truthy direct then Ok direct
               else
                 session_data <- get inner_parsed_data "SessionData" (PDict []) ;;
                 match session_data with
                 | PDict sd =>
                     Ok (match find_ai_response sd (replace pid "EXTCALL_" "") with
                         | Some value => value
                         | None => direct
                         end)
                 | _ => Ok direct
                 end) ;;
            if truthy ai_response then Ok (PStr "assistant", ai_response)
            else Ok (gpt_role, gpt_content)
          else Ok (gpt_role, gpt_content)
        else Ok (PNone, PNone)
    | _ => Raise AttributeError
    end
  else Ok (PNone, PNone).

(** The body of the loop of [load_smartflow_logs]: one record, one entry. *)
Definition smartflow_entry (entry : pyval) : res LogEntry :=
  session_id <- _extract_session_id_from_smartflow entry ;;
  message <- get entry "message" (PStr "") ;;
  timestamp0 <- get entry "timestamp" (PStr "") ;;
  d <- decode_message message timestamp0 ;;
  plugin_id <- (if truthy (plugin_id d) then Ok (plugin_id d)
                else get3 entry "PluginId" "pluginId" "plugin_id") ;;
  log_type <- (if truthy (d_log_type d) then Ok (d_log_type d)
               else get3 entry "LogType" "logType" "log_type") ;;
  in_inner <- (if truthy (inner_parsed_data d)
               then has_key (inner_parsed_data d) "SessionData" else Ok false) ;;
  in_outer <- (if in_inner then Ok false
               else if truthy (parsed_data d)
                    then has_key (parsed_data d) "SessionData" else Ok false) ;;
  let has_session_data := in_inner || in_outer in
  gpt <- detect_gpt plugin_id log_type (inner_parsed_data d) ;;
  let '(gpt_role, gpt_content) := gpt in
  message_type <- get entry "message_type" (PStr "unknown") ;;
  host <- get entry "host" (PStr "") ;;
  mrole <- get entry "role" (PStr "") ;;
  log_file_path <- get entry "log_file_path" (PStr "") ;;
  id <- get entry "id" (PStr "") ;;
  ani <- get entry "ANI" (PStr "") ;;
  dnis <- get entry "DNIS" (PStr "") ;;
  Ok (new_LogEntry json_loads
        (actual_timestamp d) smartflow session_id
        (if truthy log_type then log_type else PStr "system_log")
        (if truthy gpt_content then gpt_content else message_content d)
        PNone PNone PNone gpt_role message_type
        (PDict [("host", host); ("role", mrole); ("log_file_path", log_file_path);
                ("id", id); ("ANI", ani); ("DNIS", dnis); ("PluginId", plugin_id);
                ("logType", log_type); ("has_session_data", PBool has_session_data);
                ("agent_type", if truthy gpt_role then PStr "gpt" else PNone)])).

(** [load_smartflow_logs], from the parsed log file to [self.smartflow_logs] *)
Definition load_smartflow_logs (data : pyval) : res (list LogEntry) :=
  entries <- iter data ;;
  mapM smartflow_entry entries.

(** One transaction of the agent log. *)
Definition blockagent_entry (session_id agent_name agent_version txn : pyval)
  : res LogEntry :=
  created_date <- get txn "created_date" (PStr "") ;;
  content <- get txn "content" (PStr "") ;;
  block_id <- get txn "block_id" (PStr "") ;;
  turn_id <- get txn "turn_id" (PStr "") ;;
  transaction_id <- get txn "transaction_id" (PStr "") ;;
  role <- get txn "role" (PStr "") ;;
  agent_id <- get txn "agent_id" (PStr "") ;;
  model_name <- get txn "model_name" (PStr "") ;;
  completion_tokens <- get txn "completion_tokens" PNone ;;
  prompt_tokens <- get txn "prompt_tokens" PNone ;;
  response_time <- get txn "response_time" PNone ;;
  tool_calls <- get txn "tool_calls" (PList []) ;;
  citations <- get txn "citations" (PList []) ;;
  Ok (new_LogEntry json_loads
        created_date blockagent session_id (PStr "conversation") content
        block_id turn_id transaction_id role PNone
        (PDict [("agent_id", agent_id); ("model_name", model_name);
                ("completion_tokens", completion_tokens);
                ("prompt_tokens", prompt_tokens); ("response_time", response_time);
                ("tool_calls", tool_calls); ("citations", citations);
                ("agent_name", agent_name); ("agent_version", agent_version)])).

(** [load_blockagent_logs], from the parsed log file to [self.blockagent_logs] *)
Definition load_blockagent_logs (data : pyval) : res (list LogEntry) :=
  session_id <- get data "session_id" (PStr "unknown") ;;
  transactions <- get data "transactions" (PList []) ;;
  agents <- get data "agents" (PDict []) ;;
  agent <-
    (if truthy agents then
       match agents with
       | PDict ((_, agent_data) :: _) =>
           agent_name <- get agent_data "agent_name" (PStr "") ;;
           agent_version <- get agent_data "version" (PStr "") ;;
           Ok (agent_name, agent_version)
       | _ => Raise AttributeError
       end
     else Ok (PStr "", PStr "")) ;;
  let '(agent_name, agent_version) := agent in
  txns <- iter transactions ;;
  mapM (blockagent_entry session_id agent_name agent_version) txns.

End Adapters.

(* ================================================================= *)
(** ** [datetime.strptime] for the three formats of [_parse_timestamp]

    As in CPython's [_strptime]: the format becomes a pattern (one group per
    directive, letters matched without regard to case, a blank of the format
    matching a run of white space), the pattern must match at the start of
    the text and leave nothing over, and the fields must make a date and a
    time of day. *)

Module Strptime.
Import Re.

Record datetime : Type := {
  year : Z; month : Z; day : Z; hour : Z; minute : Z; second : Z; microsecond : Z
}.

(** [datetime.min] *)
Definition datetime_min : datetime :=
  {| year := 1; month := 1; day := 1; hour := 0; minute := 0; second := 0;
     microsecond := 0 |}.

(** Datetimes compare field by field from the year down; with the fields in
    their ranges that is the order of this mixed-radix number. *)
Definition ordinal (d : datetime) : Z :=
  ((((((year d * 13 + month d) * 32 + day d) * 24 + hour d) * 60 + minute d) * 60
    + second d) * 1000000 + microsecond d)%Z.

(** The directives: [%Y] is group 1, [%m] 2, [%d] 3, [%H] 4, [%M] 5, [%S] 6
    and [%f] 7. *)
Definition dY : regex := Group 1 (rep 4 digit).
Definition dm : regex :=
  Group 2 (alt [Seq (chr "1") (between "0" "2"); Seq (chr "0") (between "1" "9");
                between "1" "9"]).
Definition dd : regex :=
  Group 3 (alt [Seq (chr "3") (between "0" "1"); Seq (between "1" "2") digit;
                Seq (chr "0") (between "1" "9"); between "1" "9";
                Seq (chr " ") (between "1" "9")]).
Definition dH : regex :=
  Group 4 (alt [Seq (chr "2") (between "0" "3"); Seq (between "0" "1") digit; digit]).
Definition dM : regex := Group 5 (alt [Seq (between "0" "5") digit; digit]).
Definition dS : regex :=
  Group 6 (alt [Seq (chr "6") (between "0" "1"); Seq (between "0" "5") digit; digit]).
Definition df : regex := Group 7 (upto 6 digit).

(** ['%Y-%m-%dT%H:%M:%S.%fZ'] *)
Definition fmt_iso_z : regex :=
  seq [dY; chr "-"; dm; chr "-"; dd; ci "T"; dH; chr ":"; dM; chr ":"; dS; chr "."; df;
       ci "Z"].
(** ['%Y-%m-%d %H:%M:%S.%f'] *)
Definition fmt_blank : regex :=
  seq [dY; chr "-"; dm; chr "-"; dd; plus space; dH; chr ":"; dM; chr ":"; dS; chr "."; df].
(** ['%Y-%m-%dT%H:%M:%S.%f'] *)
Definition fmt_iso : regex :=
  seq [dY; chr "-"; dm; chr "-"; dd; ci "T"; dH; chr ":"; dM; chr ":"; dS; chr "."; df].

Definition is_leap (y : Z) : bool :=
  ((y mod 4 =? 0) && (negb (y mod 100 =? 0) || (y mod 400 =? 0)))%Z.

Definition days_in_month (y m : Z) : Z :=
  (if m =? 2 then (if is_leap y then 29 else 28)
   else if (m =? 4) || (m =? 6) || (m =? 9) || (m =? 11) then 30
   else 31)%Z.

Definition field (mo : mobj) (n : nat) : Z :=
  match int_of_str (group mo n) with Some z => z | None => 0%Z end.

(** [%f]: the digits padded with zeros on the right to six. *)
Fixpoint pad6 (n : nat) (s : string) : string :=
  match n with
  | O => ""
  | S n' =>
      match s with
      | String c t => String c (pad6 n' t)
      | EmptyString => String "0" (pad6 n' "")
      end
  end.

(** [datetime.strptime(s, fmt)]; [None] when it raises [ValueError]. *)
Definition strptime (s : string) (fmt : regex) : option datetime :=
  match match_here fmt s 0 with
  | None => None
  | Some mo =>
      match m_rest mo with
      | EmptyString =>
          let y := field mo 1 in
          let mth := field mo 2 in
          let d := field mo 3 in
          let sec := field mo 6 in
          let us := match int_of_str (pad6 6 (group mo 7)) with Some z => z | None => 0%Z end in
          if ((1 <=? y) && (d <=? days_in_month y mth) && (sec <=? 59))%Z
          then Some {| year := y; month := mth; day := d; hour := field mo 4;
                       minute := field mo 5; second := sec; microsecond := us |}
          else None
      | _ => None
      end
  end.

End Strptime.

(* ================================================================= *)
(** ** Timeline, sessions, summary and export *)

Import Strptime.

(** [_parse_timestamp(ts_str)]: the first format that parses wins; a value
    that is not a string makes [strptime] raise, which the bare [except]
    swallows like any parse failure. *)
Definition _parse_timestamp (ts_str : pyval) : datetime :=
  if negb (truthy ts_str) then datetime_min
  else
    match ts_str with
    | PStr s =>
        match strptime s fmt_iso_z with
        | Some d => d
        | None =>
            match strptime s fmt_blank with
            | Some d => d
            | None =>
                match strptime s fmt_iso with
                | Some d => d
                | None => datetime_min
                end
            end
        end
    | _ => datetime_min
    end.

Definition sort_key (e : LogEntry) : Z := ordinal (_parse_timestamp (timestamp e)).

(** [sorted(l, key=...)] is stable: an element goes in front of the first
    element of the sorted rest whose key is not smaller. *)
Fixpoint insert_by {A} (key : A -> Z) (x : A) (l : list A) : list A :=
  match l with
  | [] => [x]
  | y :: t => if (key x <=? key y)%Z then x :: l else y :: insert_by key x t
  end.

Fixpoint sorted_by {A} (key : A -> Z) (l : list A) : list A :=
  match l with
  | [] => []
  | x :: t => insert_by key x (sorted_by key t)
  end.

(** [build_unified_timeline]: [self.unified_timeline] *)
Definition build_unified_timeline (smartflow_logs blockagent_logs : list LogEntry)
  : list LogEntry :=
  sorted_by sort_key (smartflow_logs ++ blockagent_logs)%list.

(** Keys of [self.sessions]: a list or a dict cannot be hashed; [True] and
    [1] are the same key. *)
Definition hashable (v : pyval) : bool :=
  match v with
  | PList _ | PDict _ => false
  | _ => true
  end.

Definition key_eqb (a b : pyval) : bool :=
  match a, b with
  | PNone, PNone => true
  | PStr s, PStr t => s =? t
  | PInt x, PInt y => (x =? y)%Z
  | PInt x, PBool y | PBool y, PInt x => (x =? (if y then 1 else 0))%Z
  | PBool x, PBool y => Bool.eqb x y
  | _, _ => false
  end.

(** [self.sessions]: session id to entries, in order of first appearance. *)
Definition sessions_t := list (pyval * list LogEntry).

Fixpoint sessions_lookup (ss : sessions_t) (k : pyval) : option (list LogEntry) :=
  match ss with
  | [] => None
  | (k', es) :: t => if key_eqb k' k then Some es else sessions_lookup t k
  end.

(** [self.sessions[k].append(e)] on the [defaultdict] *)
Fixpoint sessions_append (ss : sessions_t) (k : pyval) (e : LogEntry) : sessions_t :=
  match ss with
  | [] => [(k, [e])]
  | (k', es) :: t =>
      if key_eqb k' k then (k', (es ++ [e])%list) :: t
      else (k', es) :: sessions_append t k e
  end.

(** [group_by_sessions], started from the sessions [ss] *)
Fixpoint group_by_sessions (unified_timeline : list LogEntry) (ss : sessions_t)
  : res sessions_t :=
  match unified_timeline with
  | [] => Ok ss
  | entry :: rest =>
      if negb (eq_str (session_id entry) "unknown") then
        if hashable (session_id entry)
        then group_by_sessions rest (sessions_append ss (session_id entry) entry)
        else Raise TypeError
      else group_by_sessions rest ss
  end.

(** The state of a [WorkflowDebugger].  [smartflow_structure] is [None]
    while it is the empty dict and the stored [raw_xml] text afterwards. *)
Record WorkflowDebugger : Type := {
  smartflow_logs : list LogEntry;
  blockagent_logs : list LogEntry;
  unified_timeline : list LogEntry;
  sessions : sessions_t;
  smartflow_structure : option string;
  blockagent_structure : pyval
}.

(** [get_session_timeline(session_id)] *)
Definition get_session_timeline (self : WorkflowDebugger) (session_id : pyval)
  : res (list LogEntry) :=
  if hashable session_id then
    Ok (match sessions_lookup (sessions self) session_id with
        | Some es => es
        | None => []
        end)
  else Raise TypeError.

(** [get_all_sessions()] *)
Definition get_all_sessions (self : WorkflowDebugger) : list pyval :=
  map fst (sessions self).

(** One element of the [conversation] list of a summary. *)
Record ConversationItem : Type := {
  ci_role : pyval;
  ci_content : pyval;
  ci_timestamp : pyval;
  ci_block_id : pyval;
  ci_turn_id : pyval;
  ci_metadata : pyval
}.

Definition conversation_item (entry : LogEntry) : ConversationItem :=
  {| ci_role := role entry; ci_content := content entry;
     ci_timestamp := timestamp entry; ci_block_id := block_id entry;
     ci_turn_id := turn_id entry; ci_metadata := metadata entry |}.

Record Summary : Type := {
  sum_session_id : pyval;
  conversation : list ConversationItem;
  total_entries : nat;
  smartflow_entries : nat;
  blockagent_entries : nat
}.

(** The test of the loop of [get_conversation_summary] *)
Definition in_conversation (entry : LogEntry) : bool :=
  Source_eqb (source entry) blockagent &&
  (eq_str (role entry) "user" || eq_str (role entry) "assistant").

(** [get_conversation_summary(session_id)] *)
Definition get_conversation_summary (self : WorkflowDebugger) (session_id : pyval)
  : res Summary :=
  entries <- get_session_timeline self session_id ;;
  Ok {| sum_session_id := session_id;
        conversation := map conversation_item (filter in_conversation entries);
        total_entries := List.length entries;
        smartflow_entries :=
          List.length (filter (fun e => Source_eqb (source e) smartflow) entries);
        blockagent_entries :=
          List.length (filter (fun e => Source_eqb (source e) blockagent) entries) |}.

(** What [export_to_json] puts under [data['sessions'][session_id]]; an
    entry stands for its [asdict]. *)
Record SessionExport : Type := {
  exp_entries : list LogEntry;
  exp_summary : Summary
}.

Record Export : Type := {
  exp_sessions : list (pyval * SessionExport);
  exp_blockagent : pyval;
  exp_smartflow : option string
}.

(** [export_to_json()]: the [data] dict that [json.dumps] then renders. *)
Definition export_to_json (self : WorkflowDebugger) : res Export :=
  per_session <-
    mapM (fun session_id =>
            entries <- get_session_timeline self session_id ;;
            summary <- get_conversation_summary self session_id ;;
            Ok (session_id, {| exp_entries := entries; exp_summary := summary |}))
         (get_all_sessions self) ;;
  Ok {| exp_sessions := per_session;
        exp_blockagent := blockagent_structure self;
        exp_smartflow := smartflow_structure self |}.

Section Loading.

Variable json_loads : string -> option pyval.
Variable json_dumps : pyval -> string.

(** [load_all()] on a fresh debugger, from the contents of the two log files
    and the infrastructure as [load_infrastructure] leaves it. *)
Definition load_all (smartflow_data blockagent_data : pyval)
    (xml : option string) (infra : pyval) : res WorkflowDebugger :=
  sf <- load_smartflow_logs json_loads json_dumps smartflow_data ;;
  ba <- load_blockagent_logs json_loads blockagent_data ;;
  let timeline := build_unified_timeline sf ba in
  ss <- group_by_sessions timeline [] ;;
  Ok {| smartflow_logs := sf; blockagent_logs := ba; unified_timeline := timeline;
        sessions := ss; smartflow_structure := xml; blockagent_structure := infra |}.

End Loading.

(* ================================================================= *)
(** ** The flow diagram *)

(** An edge of the diagram; an edge that comes from the XML has no label. *)
Record Edge : Type := {
  e_from : pyval;
  e_to : pyval;
  e_label : option pyval;
  e_type : Source
}.

Record Turn : Type := {
  t_id : pyval;
  t_name : pyval
}.

Inductive Node : Type :=
| BlockNode (id label : pyval) (turns : list Turn)        (* type 'blockagent' *)
| PluginNode (id label plugin_type : string).             (* type 'smartflow' *)

Record Flow : Type := {
  nodes : list Node;
  edges : list Edge;
  smartflow_nodes : list Node;
  blockagent_nodes : list Node
}.

(** The edge one element of [turn['edges']] contributes, if any. *)
Definition edge_of (turn_id edge : pyval) : res (list Edge) :=
  connect_to <- get edge "connect_to" PNone ;;
  match connect_to with
  | PDict ct =>
      if truthy connect_to then
        let target_turn := dict_get ct "turn_id" (PStr "") in
        if truthy target_turn then
          label <- get edge "name" (PStr "") ;;
          Ok [{| e_from := turn_id; e_to := target_turn; e_label := Some label;
                 e_type := blockagent |}]
        else Ok []
      else Ok []
  | _ => Ok []
  end.

(** One turn of a block: its descriptor and its edges. *)
Definition turn_of (turn : pyval) : res (Turn * list Edge) :=
  turn_id <- get turn "turn_id" (PStr "") ;;
  turn_name <- get turn "name" (PStr "") ;;
  has_edges <- has_key turn "edges" ;;
  es <- (if has_edges then
           edge_list <- getitem turn "edges" ;;
           items <- iter edge_list ;;
           per_edge <- mapM (edge_of turn_id) items ;;
           Ok (concat per_edge)
         else Ok []) ;;
  Ok ({| t_id := turn_id; t_name := turn_name |}, es).

(** One block, number [idx] of the infrastructure list. *)
Definition block_of (idx : nat) (block : pyval) : res (Node * list Edge) :=
  block_id <- get block "block_id" (PStr ("block_" ++ str_of_Z (Z.of_nat idx))) ;;
  block_name <- get block "name" (PStr "Unknown Block") ;;
  has_turns <- has_key block "turns" ;;
  ts <- (if has_turns then
           turn_list <- getitem block "turns" ;;
           items <- iter turn_list ;;
           mapM turn_of items
         else Ok []) ;;
  Ok (BlockNode block_id block_name (map fst ts), concat (map snd ts)).

Fixpoint blocks_from (idx : nat) (blocks : list pyval) : res (list (Node * list Edge)) :=
  match blocks with
  | [] => Ok []
  | block :: rest =>
      b <- block_of idx block ;;
      bs <- blocks_from (S idx) rest ;;
      Ok (b :: bs)
  end.

(** The node of one match of the plugin pattern. *)
Definition plugin_node (mo : Re.mobj) : Node :=
  let name := Re.group mo 1 in
  let label := Re.group mo 2 in
  PluginNode name (if negb (label =? "") then label else name) (Re.group mo 3).

(** The edge of one match of the chain pattern, if any. *)
Definition chain_edge (left right : string) : list Edge :=
  if negb (left =? "") && negb (right =? "") && negb (right =? "END_CALL")
  then [{| e_from := PStr left; e_to := PStr right; e_label := None;
           e_type := smartflow |}]
  else [].

(** [re.findall(chain_pattern, xml_content)]: the [(left, right)] pairs *)
Definition chains (xml_content : string) : list (string * string) :=
  map (fun mo => (Re.group mo 1, Re.group mo 2)) (Re.findall Pat.chain_pattern xml_content).

(** [extract_flow_diagram()], read off the two structures of the debugger *)
Definition extract_flow_diagram (blockagent_structure : pyval)
    (smartflow_structure : option string) : res Flow :=
  blocks <-
    match blockagent_structure with
    | PList bl => blocks_from 0 bl
    | _ => Ok []
    end ;;
  let block_nodes := map fst blocks in
  let block_edges := concat (map snd blocks) in
  let plugin_nodes :=
    match smartflow_structure with
    | Some xml_content => map plugin_node (Re.findall Pat.plugin_pattern xml_content)
    | None => []
    end in
  let chain_edges :=
    match smartflow_structure with
    | Some xml_content =>
        concat (map (fun lr => chain_edge (fst lr) (snd lr)) (chains xml_content))
    | None => []
    end in
  Ok {| nodes := (block_nodes ++ plugin_nodes)%list;
        edges := (block_edges ++ chain_edges)%list;
        smartflow_nodes := plugin_nodes;
        blockagent_nodes := block_nodes |}.

(* ================================================================= *)
(** ** Block lookup and the infrastructure files *)

(** The loop of [get_block_info]: the first block whose [block_id] is the
    text [block_id]. *)
Fixpoint find_block (blocks : list pyval) (block_id : string) : res (option pyval) :=
  match blocks with
  | [] => Ok None
  | block :: rest =>
      found <- get block "block_id" PNone ;;
      if eq_str found block_id then Ok (Some block) else find_block rest block_id
  end.

(** [get_block_info(block_id)], read off the agent infrastructure of the
    debugger; [block_id] is the text the route takes from the URL. *)
Definition get_block_info (blockagent_structure : pyval) (block_id : string)
  : res (option pyval) :=
  if negb (truthy blockagent_structure) then Ok None
  else
    blocks <- iter blockagent_structure ;;
    find_block blocks block_id.

(** The lazy [.*?] under [re.DOTALL] in front of the continuation [k]: the
    shortest run of characters after which [k] matches. *)
Fixpoint lazy_any {A} (s : string) (k : string -> option A) : option A :=
  match k s with
  | Some x => Some x
  | None =>
      match s with
      | EmptyString => None
      | String _ t => lazy_any t k
      end
  end.

(** A match of [<\?xml.*?</chain>] at the head of [s]: the text it spans. *)
Definition xml_match_here (s : string) : option string :=
  Re.m (Re.lit "<?xml") s []
    (fun s1 _ => lazy_any s1
       (fun s2 => Re.m (Re.lit "</chain>") s2 [] (fun s3 _ => Some (Re.consumed s s3)))).

(** [re.search(r'<\?xml.*?</chain>', content, re.DOTALL)], the text of the
    match *)
Fixpoint xml_search (content : string) : option string :=
  match xml_match_here content with
  | Some xml_content => Some xml_content
  | None =>
      match content with
      | EmptyString => None
      | String _ t => xml_search t
      end
  end.

(** [load_infrastructure()] on a fresh debugger, from what reading the two
    files gives: the text of the XML file and the value of the
    infrastructure file, each [None] when opening, reading or parsing it
    raises.  The result is the pair of the stored [raw_xml] ([None] while
    [smartflow_structure] is the empty dict) and [blockagent_structure]. *)
Definition load_infrastructure (xml_file : option string) (infra_file : option pyval)
  : option string * pyval :=
  (match xml_file with
   | Some content =>
       match xml_search content with
       | Some xml_content => Some (take 1000 xml_content ++ "...")
       | None => None
       end
   | None => None
   end,
   match infra_file with
   | Some structure => structure
   | None => PDict []
   end).

(* ================================================================= *)
(** ** The sessions of the web application ([app.py]) *)

(** The global [debuggers] of the web application: session id to debugger,
    a dict in insertion order. *)
Definition registry := list (pyval * WorkflowDebugger).

(** [debuggers.get(k)] *)
Fixpoint registry_get (debuggers : registry) (k : pyval) : option WorkflowDebugger :=
  match debuggers with
  | [] => None
  | (k', d) :: t => if key_eqb k' k then Some d else registry_get t k
  end.

(** [debuggers[k] = d]: a key that is there keeps its place. *)
Fixpoint registry_set (debuggers : registry) (k : pyval) (d : WorkflowDebugger) : registry :=
  match debuggers with
  | [] => [(k, d)]
  | (k', d') :: t =>
      if key_eqb k' k then (k', d) :: t else (k', d') :: registry_set t k d
  end.

(** The loop [for sess_id in debugger.get_all_sessions(): debuggers[sess_id] =
    debugger], which the application runs at startup, after an upload and
    when the sessions are cleared. *)
Definition register_sessions (debuggers : registry) (debugger : WorkflowDebugger) : registry :=
  fold_left (fun ds sess_id => registry_set ds sess_id debugger)
            (get_all_sessions debugger) debuggers.

(** One element of the list that the route [/api/sessions] returns. *)
Record SessionRow : Type := {
  row_session_id : pyval;
  row_total_entries : nat;
  row_conversation_turns : nat;
  row_smartflow_entries : nat;
  row_blockagent_entries : nat
}.

(** [get_sessions()]: one row per key of [debuggers], in order (the keys of
    a dict are distinct, so the dict [all_sessions] has one value per key). *)
Definition get_sessions (debuggers : registry) : res (list SessionRow) :=
  mapM (fun kv =>
          summary <- get_conversation_summary (snd kv) (fst kv) ;;
          Ok {| row_session_id := fst kv;
                row_total_entries := total_entries summary;
                row_conversation_turns := List.length (conversation summary);
                row_smartflow_entries := smartflow_entries summary;
                row_blockagent_entries := blockagent_entries summary |})
       debuggers.

(** [get_session_details(session_id)] for the text the route takes from the
    URL: the entries of the timeline it lists, [None] for the answer 404. *)
Definition get_session_details (debuggers : registry) (session_id : string)
  : res (option (list LogEntry)) :=
  match registry_get debuggers (PStr session_id) with
  | None => Ok None
  | Some debugger =>
      entries <- get_session_timeline debugger (PStr session_id) ;;
      Ok (Some entries)
  end.

(** [clear_sessions()]: what [debuggers] is afterwards. *)
Definition clear_sessions (default_debugger : option WorkflowDebugger) : registry :=
  match default_debugger with
  | Some debugger => register_sessions [] debugger
  | None => []
  end.

(** The route [/api/block/<block_id>]: the first block information that is
    not empty, over the debuggers in the order of [debuggers.values()];
    [None] for the answer 404. *)
Fixpoint get_block_info_route (debuggers : registry) (block_id : string)
  : res (option pyval) :=
  match debuggers with
  | [] => Ok None
  | (_, debugger) :: rest =>
      block_info <- get_block_info (blockagent_structure debugger) block_id ;;
      match block_info with
      | Some block =>
          if truthy block then Ok (Some block) else get_block_info_route rest block_id
      | None => get_block_info_route rest block_id
      end
  end.

(* ================================================================= *)
(** ** Vocabulary of the properties *)

(** A substring match of [search_key] in [key] without regard to case. *)
Definition ci_contains (key search_key : string) : bool :=
  contains (lower key) (lower search_key).

(** The entries of a dict that the search looks at. *)
Definition visible (skip_session_data : bool) (kvs : dict) : dict :=
  filter (fun kv => negb (skip_session_data && (fst kv =? "SessionData"))) kvs.

(** The first result that is not [None]. *)
Fixpoint first_found (l : list pyval) : pyval :=
  match l with
  | [] => PNone
  | PNone :: rest => first_found rest
  | v :: _ => v
  end.

(** The search is level-first for [search_key]: nothing is found at or
    beyond [max_depth]; at a dict the value of the first visible key that
    matches without regard to case is the result, and only when no visible
    key matches the visible values are searched in order, one level deeper;
    the elements of a list are searched in order, one level deeper; there is
    nothing to find in a scalar. *)
Definition level_first (search_key : string) (max_depth : nat) (skip : bool) : Prop :=
  (forall obj cur, (max_depth <= cur)%nat ->
     recursive_search obj search_key max_depth cur skip = PNone) /\
  (forall kvs cur, (cur < max_depth)%nat ->
     recursive_search (PDict kvs) search_key max_depth cur skip =
     match find (fun kv => ci_contains (fst kv) search_key) (visible skip kvs) with
     | Some kv => snd kv
     | None =>
         first_found
           (map (fun kv => recursive_search (snd kv) search_key max_depth (S cur) skip)
                (visible skip kvs))
     end) /\
  (forall items cur, (cur < max_depth)%nat ->
     recursive_search (PList items) search_key max_depth cur skip =
     first_found
       (map (fun v => recursive_search v search_key max_depth (S cur) skip) items)) /\
  (forall obj cur, is_dict_or_list obj = false ->
     recursive_search obj search_key max_depth cur skip = PNone).

(** Some key whose lower-case form holds [search_key] lies outside every
    [SessionData] subtree of [v]. *)
Fixpoint key_outside (search_key : string) (v : pyval) {struct v} : bool :=
  match v with
  | PDict kvs =>
      (fix go (l : dict) : bool :=
         match l with
         | [] => false
         | (key, value) :: rest =>
             if key =? "SessionData" then go rest
             else contains (lower key) search_key || key_outside search_key value || go rest
         end) kvs
  | PList items =>
      (fix go (l : list pyval) : bool :=
         match l with
         | [] => false
         | item :: rest => key_outside search_key item || go rest
         end) items
  | _ => false
  end.

(** The text the signal detection works on. *)
Definition combined_str (content metadata : pyval) : string :=
  (if truthy content then str content else "") ++ " " ++
  (if truthy metadata then str metadata else "").

(** The value the structural search for a status code settles on. *)
Definition status_value (content : pyval) : pyval :=
  let first := recursive_search content "statuscode" 10 0 true in
  if truthy first then first else recursive_search content "status_code" 10 0 true.

(** [has_wait_on == (wait_on_value is not None and wait_on_value != '')] and
    [has_error == (error_code is not None and error_code >= 400)] *)
Definition flags_consistent (e : LogEntry) : Prop :=
  has_wait_on e = some_text (wait_on_value e) /\
  has_error e = match error_code e with
                | Some code => (400 <=? code)%Z
                | None => false
                end.

(** One of the three formats parses the timestamp. *)
Definition parses (ts : pyval) : bool :=
  match ts with
  | PStr s =>
      match strptime s fmt_iso_z, strptime s fmt_blank, strptime s fmt_iso with
      | None, None, None => false
      | _, _, _ => true
      end
  | _ => false
  end.

(** No entry with a timestamp that parses comes before one whose timestamp
    does not. *)
Definition unparseable_first (timeline : list LogEntry) : Prop :=
  forall l1 p l2 u l3,
    timeline = (l1 ++ p :: l2 ++ u :: l3)%list ->
    parses (timestamp p) = true -> parses (timestamp u) = false -> False.

(** The entry is tagged with the sentinel session id. *)
Definition unknown_session (e : LogEntry) : bool := eq_str (session_id e) "unknown".

(** The entry occurs among the entries some session of the export lists. *)
Definition exported (ex : Export) (e : LogEntry) : Prop :=
  exists sid se, In (sid, se) (exp_sessions ex) /\ In e (exp_entries se).

(** The entry has a conversational role. *)
Definition conversational (e : LogEntry) : bool :=
  eq_str (role e) "user" || eq_str (role e) "assistant".

(** The texts of the examples. *)
Definition nested_user_message : string :=
  qq "{'message': '{\'PluginId\':\'EXTCALL_3\',\'LogType\':\'IpdOut\',\'IpdMsg\':{\'body\':{\'user_message\':\'hi\'}}}'}".

Definition infra_block : string :=
  qq "{'block_id':'b1','turns':[{'turn_id':'t1','edges':[{'connect_to':{'turn_id':'t2'},'name':'ok'}]}]}".

Definition end_call_chain : string := qq "<chain left='A' right='END_CALL'>".

(** What construction establishes: the wait flag is the truth value of the
    wait value, and the error flag goes with a code of at least 400. *)
Definition derived_ok (e : LogEntry) : Prop :=
  has_wait_on e = some_text (wait_on_value e) /\
  (has_error e = true -> exists code, error_code e = Some code /\ (400 <= code)%Z) /\
  (has_error e = false -> error_code e = None).

(** A batch of the flow engine used as an example below. *)
Definition sample_batch : pyval :=
  PList [PDict [("message", PStr "gateway answered, status: 503, wait_on: dtmf_input");
                ("timestamp", PStr "2025-01-01T00:00:01.000Z")]].

(** A record whose message assigns the empty text to wait_on. *)
Definition empty_wait_batch : pyval :=
  PList [PDict [("message", PStr (qq "wait_on=''")); ("timestamp", PStr "")]].

(** The two malformed records of the flow engine used below: a nested
    [message] that is a number, and a [PluginId] that is a number. *)
Definition numeric_message_batch : pyval :=
  PList [PDict [("message", PStr (qq "{'message': 1}"));
                ("timestamp", PStr "2025-01-01T00:00:00.000Z")]].

Definition numeric_plugin_batch : pyval :=
  PList [PDict [("message", PStr (qq "{'PluginId': 5}"));
                ("timestamp", PStr "2025-01-01T00:00:00.000Z")]].

(** An entry that carries nothing but a timestamp. *)
Definition stamped (ts : string) : LogEntry :=
  {| timestamp := PStr ts; source := smartflow; session_id := PStr "unknown";
     log_type := PStr "system_log"; content := PStr ""; block_id := PNone;
     turn_id := PNone; transaction_id := PNone; role := PNone;
     message_type := PStr "unknown"; metadata := PDict [];
     has_wait_on := false; has_error := false; error_code := None;
     wait_on_value := None |}.

(** The two entries agree on the fields that are given to the constructor
    (the metadata apart, which the constructor may replace). *)
Definition same_fields (a b : LogEntry) : Prop :=
  timestamp b = timestamp a /\ source b = source a /\ session_id b = session_id a /\
  log_type b = log_type a /\ content b = content a /\ block_id b = block_id a /\
  turn_id b = turn_id a /\ transaction_id b = transaction_id a /\
  role b = role a /\ message_type b = message_type a.

(** What grouping maintains: every key of the session index can be hashed
    and is not the sentinel, and no entry under it carries the sentinel. *)
Definition sessions_ok (ss : sessions_t) : Prop :=
  Forall (fun kv => hashable (fst kv) = true /\ eq_str (fst kv) "unknown" = false /\
                    Forall (fun e => unknown_session e = false) (snd kv)) ss.

(** A log of the flow engine with one line of plain text, and an agent log
    without transactions. *)
Definition plain_text_batch : pyval :=
  PList [PDict [("message", PStr "call started");
                ("timestamp", PStr "2025-01-01T00:00:01.000Z")]].

Definition no_transactions : pyval := PDict [].

(** A log of the flow engine whose only record is a user turn of the GPT
    agent and names its session. *)
Definition gpt_user_batch : pyval :=
  PList [PDict [("message", PStr (qq
    "{'message': '{\'PluginId\':\'EXTCALL_3\',\'LogType\':\'IpdOut\',\'sid\':\'1760571668-000000000001105328-SR-000-000000000000DEN130-44144A80\',\'IpdMsg\':{\'body\':{\'user_message\':\'hi\'}}}'}"));
                ("timestamp", PStr "2025-01-01T00:00:01.000Z")]].

(** The infrastructure that holds the example block alone. *)
Definition infra_example : pyval :=
  PList [PDict [("block_id", PStr "b1");
                ("turns", PList [PDict [("turn_id", PStr "t1");
                                        ("edges", PList [PDict [("connect_to", PDict [("turn_id", PStr "t2")]);
                                                                ("name", PStr "ok")]])]])]].

(** The edge from [t1] to [t2] labelled [ok]. *)
Definition edge_t1_t2 : Edge :=
  {| e_from := PStr "t1"; e_to := PStr "t2"; e_label := Some (PStr "ok");
     e_type := blockagent |}.

(** Characters that [repr] leaves as they are in either case: the letters
    and the underscore.  A target made of them, like the three the program
    searches for, is found in the text of a structure whenever it is found in
    one of its keys. *)
Definition plain_char (c : ascii) : bool := is_lower c || Ascii.eqb c "_".

Fixpoint plain (s : string) : bool :=
  match s with
  | EmptyString => true
  | String c t => plain_char c && plain t
  end.

(** The metadata after [__post_init__]. *)
Definition effective_metadata (md : pyval) : pyval :=
  match md with
  | PNone => PDict []
  | _ => md
  end.

(** Payloads of the examples: the key outside [SessionData] with an empty
    value, a status below 400, a wait_on event, and JSON text whose only
    wait_on sits in a nested [SessionData]. *)
Definition empty_wait_payload : pyval := PDict [("wait_on", PStr "")].
Definition ok_status_payload : pyval := PDict [("statuscode", PInt 200)].
Definition wait_payload : pyval :=
  PDict [("step", PInt 3); ("SessionData", PDict [("wait_on", PStr "stale")]);
         ("event", PDict [("wait_on", PStr "dtmf_input"); ("statusCode", PStr "503")])].
Definition nested_session_text : pyval :=
  PStr (qq "{'a': {'SessionData': {'wait_on': 'x'}}}").

Definition session_only_payload : pyval :=
  PDict [("step", PInt 3);
         ("SessionData", PDict [("wait_on", PStr "stale"); ("statuscode", PInt 500)])].

(** An entry built from a payload alone. *)
Definition entry_of (content metadata : pyval) : LogEntry :=
  new_LogEntry Json.loads (PStr "") smartflow (PStr "unknown") (PStr "system_log")
    content PNone PNone PNone PNone (PStr "unknown") metadata.

(** ** Proof automation *)

(** [inv_bind H] opens the binds of a computation [H] that ended in [Ok]. *)
Ltac inv_bind H :=
  repeat match type of H with
  | Py.bind ?m _ = Ok _ =>
      let E := fresh "E" in
      destruct m eqn:E; simpl in H; [|discriminate H]
  | (let '(_, _) := ?p in _) = Ok _ => destruct p
  end.

(* ================================================================= *)
(** ** Further vocabulary *)

(** The entry is grouped under the session id [sid]: it does not carry the
    sentinel and its session id is the same dict key as [sid]. *)
Definition in_session (sid : pyval) (e : LogEntry) : bool :=
  negb (unknown_session e) && key_eqb (session_id e) sid.

(** No two of the keys are the same dict key. *)
Fixpoint distinct_keys (ks : list pyval) : Prop :=
  match ks with
  | [] => True
  | k :: rest => Forall (fun k' => key_eqb k k' = false) rest /\ distinct_keys rest
  end.

(** A flow-engine record whose message is a mapping with a list for
    [SESSION_ID]. *)
Definition list_session_batch : pyval :=
  PList [PDict [("message", PDict [("SESSION_ID", PList [PInt 1])]);
                ("timestamp", PStr "2025-01-01T00:00:01.000Z")]].

(** A flow-engine log of two records of one session and an agent document of
    another session with two transactions. *)
Definition two_source_flow : pyval :=
  PList [PDict [("message", PStr "late 1760571668-000000000001105328-SR-000-000000000000DEN130-44144A80");
                ("timestamp", PStr "2025-01-01T00:00:02.000Z")];
         PDict [("message", PStr "early 1760571668-000000000001105328-SR-000-000000000000DEN130-44144A80");
                ("timestamp", PStr "2025-01-01T00:00:01.000Z")];
         PDict [("message", PStr "no session here"); ("timestamp", PStr "")]].

Definition two_source_agent : pyval :=
  PDict [("session_id", PStr "agent-session");
         ("agents", PDict [("a1", PDict [("agent_name", PStr "helper"); ("version", PStr "7")])]);
         ("transactions",
          PList [PDict [("created_date", PStr "2025-01-01T00:00:03.000Z");
                        ("role", PStr "user"); ("content", PStr "hello")];
                 PDict [("created_date", PStr "2025-01-01T00:00:00.500000");
                        ("role", PStr "assistant"); ("content", PStr "welcome")]])].

Definition flow_session : pyval :=
  PStr "1760571668-000000000001105328-SR-000-000000000000DEN130-44144A80".

(** The keys of the metadata of a flow-engine entry, in order. *)
Definition flow_metadata_keys : list string :=
  ["host"; "role"; "log_file_path"; "id"; "ANI"; "DNIS"; "PluginId"; "logType";
   "has_session_data"; "agent_type"].

(** What an entry of the flow-engine adapter owes to its record [d]. *)
Definition flow_entry_of (d : dict) (e : LogEntry) : Prop :=
  source e = smartflow /\
  block_id e = PNone /\ turn_id e = PNone /\ transaction_id e = PNone /\
  message_type e = dict_get d "message_type" (PStr "unknown") /\
  truthy (log_type e) = true /\
  (role e = PNone \/ role e = PStr "user" \/ role e = PStr "assistant") /\
  (role e = PStr "assistant" -> truthy (content e) = true) /\
  exists md,
    metadata e = PDict md /\ map fst md = flow_metadata_keys /\
    Forall (fun k => dict_get md k PNone = dict_get d k (PStr ""))
           ["host"; "role"; "log_file_path"; "id"; "ANI"; "DNIS"] /\
    log_type e = (if truthy (dict_get md "logType" PNone)
                  then dict_get md "logType" PNone else PStr "system_log") /\
    dict_get md "agent_type" PNone = (if truthy (role e) then PStr "gpt" else PNone).

(** A flow-engine record with a GPT answer, between two lines of text. *)
Definition gpt_answer_batch : pyval :=
  PList [PDict [("message", PStr "call started"); ("host", PStr "h1")];
         PDict [("message",
                 PStr (qq "{'message': '{\'PluginId\':\'EXTCALL_3\',\'LogType\':\'IpdIn\',\'ai_response\':\'hello\'}'}"));
                ("message_type", PStr "json")];
         PDict []].

(** A message the flow-engine adapter cannot open: it is not a text, or the
    text does not start with a brace, or [json.loads] rejects it. *)
Definition opaque (json_loads : string -> option pyval) (message : pyval) : bool :=
  match message with
  | PStr s =>
      negb (startswith (strip s) "{") ||
      match json_loads s with Some _ => false | None => true end
  | _ => true
  end.

(** [d.get(k1, d.get(k2, d.get(k3, '')))] on the record itself *)
Definition top_level (d : dict) (k1 k2 k3 : string) : pyval :=
  dict_get d k1 (dict_get d k2 (dict_get d k3 (PStr ""))).

(** The least number of characters a match of the pattern spans. *)
Fixpoint min_len (r : Re.regex) : nat :=
  match r with
  | Re.Eps => 0
  | Re.Chr _ => 1
  | Re.Seq a b => min_len a + min_len b
  | Re.Alt a b => Nat.min (min_len a) (min_len b)
  | Re.Star _ => 0
  | Re.Group _ a => min_len a
  end.

(** The text [t] occurs in the message [s] or in the nested message of the
    JSON object that [s] holds. *)
Definition session_text (json_loads : string -> option pyval) (s t : string) : Prop :=
  contains s t = true \/
  exists nested inner,
    json_loads s = Some nested /\ get nested "message" (PStr "") = Ok (PStr inner) /\
    contains inner t = true.

(** [isinstance(v, dict)] *)
Definition is_mapping (v : pyval) : bool :=
  match v with PDict _ => true | _ => false end.

(** The keys of the metadata of an agent entry, in order. *)
Definition agent_metadata_keys : list string :=
  ["agent_id"; "model_name"; "completion_tokens"; "prompt_tokens"; "response_time";
   "tool_calls"; "citations"; "agent_name"; "agent_version"].

(** What an entry of the agent adapter owes to its transaction [t], under
    the session id and the agent name and version of the document. *)
Definition agent_entry_of (sid agent_name agent_version : pyval) (t : dict) (e : LogEntry)
  : Prop :=
  source e = blockagent /\ session_id e = sid /\ log_type e = PStr "conversation" /\
  message_type e = PNone /\
  timestamp e = dict_get t "created_date" (PStr "") /\
  content e = dict_get t "content" (PStr "") /\
  block_id e = dict_get t "block_id" (PStr "") /\
  turn_id e = dict_get t "turn_id" (PStr "") /\
  transaction_id e = dict_get t "transaction_id" (PStr "") /\
  role e = dict_get t "role" (PStr "") /\
  exists md,
    metadata e = PDict md /\ map fst md = agent_metadata_keys /\
    dict_get md "agent_id" PNone = dict_get t "agent_id" (PStr "") /\
    dict_get md "model_name" PNone = dict_get t "model_name" (PStr "") /\
    Forall (fun k => dict_get md k PNone = dict_get t k PNone)
           ["completion_tokens"; "prompt_tokens"; "response_time"] /\
    Forall (fun k => dict_get md k PNone = dict_get t k (PList [])) ["tool_calls"; "citations"] /\
    dict_get md "agent_name" PNone = agent_name /\
    dict_get md "agent_version" PNone = agent_version.

(** The name and the version the agent adapter reads off the [agents]
    object [a]: those of its first agent. *)
Definition first_agent (a : pyval) (agent_name agent_version : pyval) : Prop :=
  (truthy a = false /\ agent_name = PStr "" /\ agent_version = PStr "") \/
  (exists k data rest,
     a = PDict ((k, PDict data) :: rest) /\
     agent_name = dict_get data "agent_name" (PStr "") /\
     agent_version = dict_get data "version" (PStr "")).

(** The value without its [SessionData] entries, at every level. *)
Fixpoint without_session_data (v : pyval) : pyval :=
  match v with
  | PDict kvs =>
      PDict ((fix entries (l : dict) : dict :=
                match l with
                | [] => []
                | (key, value) :: rest =>
                    if key =? "SessionData" then entries rest
                    else (key, without_session_data value) :: entries rest
                end) kvs)
  | PList items => PList (map without_session_data items)
  | _ => v
  end.

(** An infrastructure list the diagram can be built from: every block is a
    mapping whose [turns], when present, is a list of mappings whose
    [edges], when present, is a list of mappings. *)
Definition wf_turn (t : pyval) : bool :=
  match t with
  | PDict d =>
      match dict_lookup d "edges" with
      | None => true
      | Some (PList es) => forallb is_mapping es
      | Some _ => false
      end
  | _ => false
  end.

Definition wf_block (b : pyval) : bool :=
  match b with
  | PDict d =>
      match dict_lookup d "turns" with
      | None => true
      | Some (PList ts) => forallb wf_turn ts
      | Some _ => false
      end
  | _ => false
  end.

(** The turn [t] of the infrastructure, as a node lists it. *)
Definition turn_listed (t : pyval) (tn : Turn) : Prop :=
  exists td, t = PDict td /\
             t_id tn = dict_get td "turn_id" (PStr "") /\
             t_name tn = dict_get td "name" (PStr "").

(** The node of block number [i], the mapping [d]. *)
Definition node_of_block (i : nat) (d : dict) (n : Node) : Prop :=
  exists turns,
    n = BlockNode (dict_get d "block_id" (PStr ("block_" ++ str_of_Z (Z.of_nat i))))
                  (dict_get d "name" (PStr "Unknown Block")) turns /\
    match dict_lookup d "turns" with
    | None => turns = []
    | Some ts => exists items, iter ts = Ok items /\ Forall2 turn_listed items turns
    end.

(** An edge between turns: it leaves the turn [tid], its target is not
    empty and it has a label. *)
Definition turn_edge (tid : pyval) (e : Edge) : Prop :=
  e_type e = blockagent /\ e_from e = tid /\ truthy (e_to e) = true /\
  exists l, e_label e = Some l.

(** The turn with the id [tid] is listed in a node of the list. *)
Definition turn_in_nodes (tid : pyval) (ns : list Node) : Prop :=
  exists id label turns tn,
    In (BlockNode id label turns) ns /\ In tn turns /\ t_id tn = tid.

(** A block that is a mapping and does not carry the id [block_id]. *)
Definition other_block (block_id : string) (b : pyval) : Prop :=
  exists d, b = PDict d /\ eq_str (dict_get d "block_id" PNone) block_id = false.

(** An XML file with one chain, and what a longer file holds after it. *)
Definition xml_one_chain : string :=
  qq "{'xml': '<?xml version=1?><chain left='A' right='B'></chain>".

Definition xml_more_chains : string :=
  qq "<chain left='B' right='C'></chain><plugin name='P' label='L' type='T'>'}".

(** The states of [debuggers] that the application reaches: empty at first,
    then extended with the sessions of each debugger that [load_all] has
    filled. *)
Inductive served : registry -> Prop :=
| served_empty : served []
| served_loaded debuggers json_loads json_dumps smartflow_data blockagent_data xml infra dbg :
    served debuggers ->
    load_all json_loads json_dumps smartflow_data blockagent_data xml infra = Ok dbg ->
    served (register_sessions debuggers dbg).

(** The debugger has entries under the key [k]. *)
Definition holds_session (kv : pyval * WorkflowDebugger) : Prop :=
  hashable (fst kv) = true /\
  exists e es, sessions_lookup (sessions (snd kv)) (fst kv) = Some (e :: es).

(** The record of the GPT answer above, and the two objects its message
    holds. *)
Definition gpt_answer_record : dict :=
  [("message",
    PStr (qq "{'message': '{\'PluginId\':\'EXTCALL_3\',\'LogType\':\'IpdIn\',\'ai_response\':\'hello\'}'}"));
   ("message_type", PStr "json")].

Definition gpt_answer_outer : dict :=
  [("message", PStr (qq "{'PluginId':'EXTCALL_3','LogType':'IpdIn','ai_response':'hello'}"))].

Definition gpt_answer_inner : dict :=
  [("PluginId", PStr "EXTCALL_3"); ("LogType", PStr "IpdIn"); ("ai_response", PStr "hello")].

(** A flow-engine record whose message is the JSON text [s] of the object
    [nested], whose own message is the JSON text of the object [inner]. *)
Definition twice_nested (json_loads : string -> option pyval) (d : dict)
    (nested inner : dict) : Prop :=
  exists s mc,
    dict_get d "message" (PStr "") = PStr s /\
    startswith (strip s) "{" = true /\ json_loads s = Some (PDict nested) /\
    dict_lookup nested "message" = Some (PStr mc) /\
    startswith (strip mc) "{" = true /\ json_loads mc = Some (PDict inner).

(** The numbers of the groups of a pattern. *)
Fixpoint groups (r : Re.regex) : list nat :=
  match r with
  | Re.Eps | Re.Chr _ => []
  | Re.Seq a b | Re.Alt a b => (groups a ++ groups b)%list
  | Re.Star a => groups a
  | Re.Group n a => n :: groups a
  end.

(* ================================================================= *)
(** * Properties *)

(** ** The search *)

Lemma scan_keys_find kvs sk skip :
  scan_keys kvs sk skip =
  option_map snd (find (fun kv => contains (lower (fst kv)) sk) (visible skip kvs)).
Proof.
  induction kvs as [|[k v] t IH]; simpl; [reflexivity|].
  destruct (skip && (k =? "SessionData")); simpl; [exact IH|].
  destruct (contains (lower k) sk); [reflexivity | exact IH].
Qed.

Lemma recursive_search_deep obj sk md cur skip :
  (md <= cur)%nat -> recursive_search obj sk md cur skip = PNone.
Proof.
  intros H. apply Nat.leb_le in H.
  destruct obj; simpl; rewrite H; reflexivity.
Qed.

Lemma recursive_search_dict kvs sk md cur skip :
  (cur < md)%nat ->
  recursive_search (PDict kvs) sk md cur skip =
  match scan_keys kvs sk skip with
  | Some v => v
  | None =>
      first_found (map (fun kv => recursive_search (snd kv) sk md (S cur) skip)
                       (visible skip kvs))
  end.
Proof.
  intros H. simpl.
  destruct (md <=? cur)%nat eqn:E; [apply Nat.leb_le in E; lia|].
  destruct (scan_keys kvs sk skip); [reflexivity|].
  induction kvs as [|[k v] t IH]; simpl; [reflexivity|].
  destruct (skip && (k =? "SessionData")); simpl; [exact IH|].
  destruct (recursive_search v sk md (S cur) skip); auto.
Qed.

Lemma recursive_search_list items sk md cur skip :
  (cur < md)%nat ->
  recursive_search (PList items) sk md cur skip =
  first_found (map (fun v => recursive_search v sk md (S cur) skip) items).
Proof.
  intros H. simpl.
  destruct (md <=? cur)%nat eqn:E; [apply Nat.leb_le in E; lia|].
  induction items as [|v t IH]; simpl; [reflexivity|].
  destruct (recursive_search v sk md (S cur) skip); auto.
Qed.

Lemma recursive_search_scalar obj sk md cur skip :
  is_dict_or_list obj = false -> recursive_search obj sk md cur skip = PNone.
Proof.
  destruct obj; simpl; intros H; try discriminate;
    destruct (md <=? cur)%nat; reflexivity.
Qed.

(** C7.  For every target key-substring that is written in lower case, as
    each of the three calls of the program writes it ([wait_on],
    [statuscode], [status_code]), every depth limit
    and either setting of the exclusion, [recursive_search] is level-first:
    at a dict the value of the first key that holds the target without regard
    to case is returned before any value is searched; the values are searched,
    in order and one level deeper, only when no key of the level matches; an
    entry under the key [SessionData] is neither scanned nor searched when the
    exclusion is on; a list is searched element by element; and a branch at
    the depth limit (10 by default) yields not-found. *)
Theorem C7_level_first_search :
  forall search_key max_depth skip,
    lower search_key = search_key ->
    level_first search_key max_depth skip.
Proof.
  intros sk md skip Hlow. unfold level_first. repeat split.
  - intros. now apply recursive_search_deep.
  - intros kvs cur H. rewrite recursive_search_dict by exact H.
    rewrite scan_keys_find. unfold ci_contains. rewrite Hlow.
    destruct (find _ (visible skip kvs)); reflexivity.
  - intros. now apply recursive_search_list.
  - intros. now apply recursive_search_scalar.
Qed.

Lemma C7_level_first_search_witness :
  level_first "wait_on" 10 true /\ level_first "statuscode" 10 true /\
  level_first "status_code" 10 true.
Proof.
  split; [|split].
  - apply (C7_level_first_search "wait_on" 10 true). reflexivity.
  - apply (C7_level_first_search "statuscode" 10 true). reflexivity.
  - apply (C7_level_first_search "status_code" 10 true). reflexivity.
Defined.

(** Why the target is taken in lower case: only the key is put in lower
    case before the comparison, so a target with an upper-case letter, which
    no call of the program passes, would match no key. *)
Remark search_target_is_not_lowered : ~ level_first "WAIT_ON" 10 false.
Proof.
  intros (_ & H & _).
  specialize (H [("wait_on", PStr "x")] 0%nat).
  vm_compute in H. assert (Hlt : (1 <= 10)%nat) by lia.
  specialize (H Hlt). discriminate H.
Qed.

(** ** The derived fields of an entry *)

Lemma mapM_In {A B} (f : A -> res B) l :
  forall bs, mapM f l = Ok bs ->
  forall b, In b bs -> exists a, In a l /\ f a = Ok b.
Proof.
  induction l as [|a t IH]; simpl; intros bs H b Hb.
  - injection H as <-. destruct Hb.
  - inv_bind H. injection H as <-. destruct Hb as [<-|Hb].
    + exists a. auto.
    + destruct (IH _ eq_refl _ Hb) as (a' & Ha' & Hf). exists a'. auto.
Qed.

Lemma mapM_length {A B} (f : A -> res B) l :
  forall bs, mapM f l = Ok bs -> List.length bs = List.length l.
Proof.
  induction l as [|a t IH]; simpl; intros bs H.
  - injection H as <-. reflexivity.
  - inv_bind H. injection H as <-. simpl. f_equal. now apply IH.
Qed.

Lemma flag_code_ok self code :
  (has_error self = false -> error_code self = None) ->
  (has_error self = true -> exists c, error_code self = Some c /\ (400 <= c)%Z) ->
  let e := flag_code self code in
  (has_error e = true -> exists c, error_code e = Some c /\ (400 <= c)%Z) /\
  (has_error e = false -> error_code e = None) /\
  has_wait_on e = has_wait_on self /\ wait_on_value e = wait_on_value self.
Proof.
  intros H0 H1. destruct code as [c|]; simpl; [|auto].
  destruct (400 <=? c)%Z eqn:E; simpl; [|auto].
  repeat split; try discriminate. intros _. exists c. split; [reflexivity|].
  now apply Z.leb_le.
Qed.

Lemma detect_error_ok self cs :
  (has_error self = false -> error_code self = None) ->
  (has_error self = true -> exists c, error_code self = Some c /\ (400 <= c)%Z) ->
  let e := detect_error self cs in
  (has_error e = true -> exists c, error_code e = Some c /\ (400 <= c)%Z) /\
  (has_error e = false -> error_code e = None) /\
  has_wait_on e = has_wait_on self /\ wait_on_value e = wait_on_value self.
Proof.
  intros H0 H1. unfold detect_error.
  set (self1 := if is_dict_or_list (content self) then _ else self).
  assert (S1 : (has_error self1 = true -> exists c, error_code self1 = Some c /\ (400 <= c)%Z) /\
               (has_error self1 = false -> error_code self1 = None) /\
               has_wait_on self1 = has_wait_on self /\
               wait_on_value self1 = wait_on_value self).
  { subst self1. destruct (is_dict_or_list (content self)); [|auto].
    match goal with |- context[if ?c then _ else _] => destruct c end; [|auto].
    now apply flag_code_ok. }
  destruct S1 as (A & B & C & D).
  destruct (negb (has_error self1)); [|auto].
  destruct (status_fallback cs); [|auto].
  destruct (flag_code_ok self1 (int_of_str (Re.group m 1)) B A) as (A' & B' & C' & D').
  repeat split; auto; congruence.
Qed.

Lemma new_LogEntry_ok jl ts src sid lt c b t tr r mt md :
  derived_ok (new_LogEntry jl ts src sid lt c b t tr r mt md).
Proof.
  unfold new_LogEntry, __post_init__, _detect_important_fields.
  match goal with |- derived_ok (detect_error ?s ?cs) =>
    assert (W : has_wait_on s = some_text (wait_on_value s) /\
                has_error s = false /\ error_code s = None);
    [| destruct W as (W1 & W2 & W3);
       destruct (detect_error_ok s cs) as (A & B & C & D);
       [ intros _; exact W3 | rewrite W2; discriminate | ];
       unfold derived_ok; rewrite C, D; auto ]
  end.
  match goal with |- context[if ?g then _ else _] => destruct g end;
    destruct md; simpl; auto.
Qed.

Lemma smartflow_entry_new jl jd x e :
  smartflow_entry jl jd x = Ok e ->
  exists ts sid lt c r mt md,
    e = new_LogEntry jl ts smartflow sid lt c PNone PNone PNone r mt md.
Proof.
  unfold smartflow_entry. intros H. inv_bind H.
  injection H as <-. repeat eexists.
Qed.

Lemma blockagent_entry_new jl sid an av x e :
  blockagent_entry jl sid an av x = Ok e ->
  exists ts c b t tr r md,
    e = new_LogEntry jl ts blockagent sid (PStr "conversation") c b t tr r PNone md.
Proof.
  unfold blockagent_entry. intros H. inv_bind H.
  injection H as <-. repeat eexists.
Qed.

(** Every entry an adapter produces is the result of the constructor. *)
Lemma adapter_entries_ok jl jd data es e :
  load_smartflow_logs jl jd data = Ok es \/ load_blockagent_logs jl data = Ok es ->
  In e es -> derived_ok e.
Proof.
  intros [H|H] Hin.
  - unfold load_smartflow_logs in H. inv_bind H.
    destruct (mapM_In _ _ _ H _ Hin) as (x & _ & Hx).
    destruct (smartflow_entry_new _ _ _ _ Hx) as (? & ? & ? & ? & ? & ? & ? & ->).
    apply new_LogEntry_ok.
  - unfold load_blockagent_logs in H. inv_bind H.
    destruct (mapM_In _ _ _ H _ Hin) as (x & _ & Hx).
    destruct (blockagent_entry_new _ _ _ _ _ _ Hx) as (? & ? & ? & ? & ? & ? & ? & ->).
    apply new_LogEntry_ok.
Qed.

(** C2.  For every entry that either adapter produces, as soon as it is
    constructed: [has_wait_on] is true exactly when [wait_on_value] is
    neither [None] nor the empty string, and [has_error] is true exactly when
    [error_code] is not [None] and at least 400. *)
Theorem C2_flags_match_values :
  forall json_loads json_dumps data es e,
    load_smartflow_logs json_loads json_dumps data = Ok es \/
    load_blockagent_logs json_loads data = Ok es ->
    In e es ->
    flags_consistent e.
Proof.
  intros jl jd data es e H Hin.
  destruct (adapter_entries_ok jl jd data es e H Hin) as (W & E1 & E0).
  split; [exact W|].
  destruct (has_error e) eqn:He.
  - destruct (E1 eq_refl) as (c & -> & Hc). symmetry. now apply Z.leb_le.
  - now rewrite (E0 eq_refl).
Qed.

Lemma C2_flags_match_values_witness :
  exists e, flags_consistent e /\ has_wait_on e = true /\ error_code e = Some 503%Z.
Proof.
  eexists. split.
  - eapply (C2_flags_match_values Json.loads (fun _ => "") sample_batch).
    + left. vm_compute. reflexivity.
    + left. reflexivity.
  - split; reflexivity.
Defined.

(** C3 (as amended).  For every entry that either adapter produces: when
    [has_wait_on] is false, [wait_on_value] is [None] or the empty string
    (the bare wait_on pattern can capture nothing but quotes, which are then
    stripped); when [has_error] is false, [error_code] is [None]. *)
Theorem C3_unset_values :
  forall json_loads json_dumps data es e,
    load_smartflow_logs json_loads json_dumps data = Ok es \/
    load_blockagent_logs json_loads data = Ok es ->
    In e es ->
    (has_wait_on e = false -> wait_on_value e = None \/ wait_on_value e = Some "") /\
    (has_error e = false -> error_code e = None).
Proof.
  intros jl jd data es e H Hin.
  destruct (adapter_entries_ok jl jd data es e H Hin) as (W & _ & E0).
  split; [|exact E0].
  intros Hw. rewrite Hw in W.
  destruct (wait_on_value e) as [s|]; [|now left].
  right. simpl in W. destruct (String.eqb_spec s ""); [now subst | discriminate].
Qed.

Lemma C3_unset_values_witness :
  exists e,
    ((has_wait_on e = false -> wait_on_value e = None \/ wait_on_value e = Some "") /\
     (has_error e = false -> error_code e = None)) /\
    has_wait_on e = false /\ has_error e = false.
Proof.
  eexists. split.
  - eapply (C3_unset_values Json.loads (fun _ => "") empty_wait_batch).
    + left. vm_compute. reflexivity.
    + left. reflexivity.
  - split; reflexivity.
Defined.

(** C3, the claim as stated fails: the flow-engine record whose message is
    [wait_on=] followed by two double quotes gives an entry without the flag
    whose [wait_on_value] is the empty string, not [None]. *)
Lemma C3_counterexample :
  exists es e,
    load_smartflow_logs Json.loads (fun _ => "") empty_wait_batch = Ok es /\
    In e es /\ has_wait_on e = false /\
    wait_on_value e = Some "" /\ wait_on_value e <> None.
Proof.
  eexists. eexists. split; [vm_compute; reflexivity|].
  split; [left; reflexivity|].
  repeat split. discriminate.
Qed.

(** ** The flow-engine adapter *)

(** Detection leaves the fields it is given as they are. *)
Lemma flag_code_fields self code :
  same_fields self (flag_code self code).
Proof.
  unfold same_fields. destruct code as [c|]; simpl; [|repeat split].
  destruct (400 <=? c)%Z; repeat split.
Qed.

Lemma same_fields_trans a b c : same_fields a b -> same_fields b c -> same_fields a c.
Proof.
  unfold same_fields. intros H1 H2.
  decompose [and] H1. decompose [and] H2. repeat split; congruence.
Qed.

Lemma detect_error_fields self cs : same_fields self (detect_error self cs).
Proof.
  unfold detect_error.
  set (self1 := if is_dict_or_list (content self) then _ else self).
  assert (S1 : same_fields self self1).
  { subst self1. destruct (is_dict_or_list (content self)); [|repeat split].
    match goal with |- context[if ?c then _ else _] => destruct c end;
      [apply flag_code_fields | repeat split]. }
  destruct (negb (has_error self1)); [|exact S1].
  destruct (status_fallback cs); [|exact S1].
  eapply same_fields_trans; [exact S1 | apply flag_code_fields].
Qed.

Lemma new_LogEntry_fields jl ts src sid lt c b t tr r mt md :
  let e := new_LogEntry jl ts src sid lt c b t tr r mt md in
  timestamp e = ts /\ source e = src /\ session_id e = sid /\ log_type e = lt /\
  content e = c /\ block_id e = b /\ turn_id e = t /\ transaction_id e = tr /\
  role e = r /\ message_type e = mt.
Proof.
  intros e. unfold new_LogEntry, __post_init__, _detect_important_fields in e.
  match goal with e := detect_error ?s ?cs |- _ =>
    pose proof (detect_error_fields s cs) as D;
    assert (S0 : timestamp s = ts /\ source s = src /\ session_id s = sid /\
                 log_type s = lt /\ content s = c /\ block_id s = b /\ turn_id s = t /\
                 transaction_id s = tr /\ role s = r /\ message_type s = mt)
  end.
  { match goal with |- context[if ?g then _ else _] => destruct g end;
      destruct md; repeat split. }
  subst e. unfold same_fields in D. decompose [and] D. decompose [and] S0.
  repeat split; congruence.
Qed.

(** C4.  A flow-engine record whose [message] field is the JSON text
    [{'message': '{\'PluginId\':\'EXTCALL_3\',\'LogType\':\'IpdOut\',
    \'IpdMsg\':{\'body\':{\'user_message\':\'hi\'}}}'}] (double quotes written
    as single ones), whatever its other fields, is normalised to an entry with
    role [user] and content [hi]. *)
Theorem C4_nested_user_message :
  forall json_dumps record,
    dict_lookup record "message" = Some (PStr nested_user_message) ->
    exists e,
      smartflow_entry Json.loads json_dumps (PDict record) = Ok e /\
      role e = PStr "user" /\ content e = PStr "hi".
Proof.
  intros jd record H.
  assert (S1 : _extract_session_id_from_smartflow Json.loads (PDict record)
               = Ok (PStr "unknown")).
  { unfold _extract_session_id_from_smartflow, get, dict_get. rewrite H.
    vm_compute. reflexivity. }
  assert (S2 : forall ts0, exists p i c,
             decode_message Json.loads jd (PStr nested_user_message) ts0 =
             Ok {| parsed_data := p; inner_parsed_data := i; actual_timestamp := ts0;
                   message_content := c; plugin_id := PStr "EXTCALL_3";
                   d_log_type := PStr "IpdOut" |} /\
             detect_gpt (PStr "EXTCALL_3") (PStr "IpdOut") i = Ok (PStr "user", PStr "hi") /\
             (truthy i = true /\ has_key i "SessionData" = Ok false) /\
             (truthy p = true /\ has_key p "SessionData" = Ok false)).
  { intros ts0. do 3 eexists. split; [vm_compute; reflexivity|].
    repeat split; vm_compute; reflexivity. }
  assert (Hm : dict_get record "message" (PStr "") = PStr nested_user_message)
    by (unfold dict_get; rewrite H; reflexivity).
  unfold smartflow_entry. rewrite S1. unfold get. cbn [Py.bind]. rewrite Hm.
  destruct (S2 (dict_get record "timestamp" (PStr "")))
    as (p & i & c & -> & G & (T & K) & (T' & K')).
  cbn [Py.bind plugin_id d_log_type inner_parsed_data parsed_data message_content
       actual_timestamp truthy negb String.eqb Ascii.eqb Bool.eqb].
  rewrite T, K. cbn [Py.bind]. rewrite T', K'. cbn [Py.bind]. rewrite G. cbn [Py.bind].
  eexists. split; [reflexivity|].
  match goal with
  | |- context[new_LogEntry ?jl ?ts ?src ?sid ?lt ?c ?b ?t ?tr ?r ?mt ?md] =>
      destruct (new_LogEntry_fields jl ts src sid lt c b t tr r mt md)
        as (_ & _ & _ & _ & Hc & _ & _ & _ & Hr & _)
  end.
  split; assumption.
Qed.

Lemma C4_nested_user_message_witness :
  exists e,
    smartflow_entry Json.loads (fun _ => "")
      (PDict [("message", PStr nested_user_message);
              ("timestamp", PStr "2025-01-01T00:00:00.000Z")]) = Ok e /\
    role e = PStr "user" /\ content e = PStr "hi".
Proof.
  apply (C4_nested_user_message (fun _ => "")
           [("message", PStr nested_user_message);
            ("timestamp", PStr "2025-01-01T00:00:00.000Z")]).
  reflexivity.
Defined.

(** When the adapter returns, it returns one entry per record. *)
Lemma load_smartflow_logs_length jl jd records es :
  load_smartflow_logs jl jd (PList records) = Ok es ->
  List.length es = List.length records.
Proof.
  unfold load_smartflow_logs. cbn [iter Py.bind]. apply mapM_length.
Qed.

(** C8 (code bug).  The claim is that the flow-engine adapter never raises on
    a batch of mappings and gives one entry per record.  On the batch whose
    only record has the message [{'message': 1}] the session-id helper hands
    the number to [re.search] and the adapter raises [TypeError]; on the batch
    whose only record has the message [{'PluginId': 5}] the adapter calls
    [startswith] on the number and raises [AttributeError].  No entry is
    produced in either case. *)
Theorem C8_adapter_raises :
  forall json_dumps,
    load_smartflow_logs Json.loads json_dumps numeric_message_batch = Raise TypeError /\
    load_smartflow_logs Json.loads json_dumps numeric_plugin_batch = Raise AttributeError.
Proof.
  intros jd. split; vm_compute; reflexivity.
Qed.

(** ** The unified timeline *)

Section StableSort.

Context {A : Type} (key : A -> Z).

Lemma insert_by_perm x l : Permutation (insert_by key x l) (x :: l).
Proof.
  induction l as [|y t IH]; simpl; [apply Permutation_refl|].
  destruct (key x <=? key y)%Z; [apply Permutation_refl|].
  eapply perm_trans; [apply perm_skip, IH | apply perm_swap].
Qed.

Lemma sorted_by_perm l : Permutation (sorted_by key l) l.
Proof.
  induction l as [|x t IH]; simpl; [constructor|].
  eapply perm_trans; [apply insert_by_perm | now apply perm_skip].
Qed.

Lemma insert_by_sorted x l :
  StronglySorted (fun a b => (key a <= key b)%Z) l ->
  StronglySorted (fun a b => (key a <= key b)%Z) (insert_by key x l).
Proof.
  induction 1 as [|y t Hs IH Hy]; simpl.
  - repeat constructor.
  - destruct (key x <=? key y)%Z eqn:E.
    + apply Z.leb_le in E. constructor; [now constructor|].
      constructor; [exact E|].
      eapply Forall_impl; [|exact Hy]. simpl. intros; lia.
    + apply Z.leb_gt in E. constructor; [exact IH|].
      eapply Permutation_Forall; [apply Permutation_sym, insert_by_perm|].
      constructor; [lia | exact Hy].
Qed.

Lemma sorted_by_sorted l :
  StronglySorted (fun a b => (key a <= key b)%Z) (sorted_by key l).
Proof.
  induction l as [|x t IH]; simpl; [constructor | now apply insert_by_sorted].
Qed.

(** Entries with the same key keep the order they arrived in. *)
Lemma insert_by_stable k x l :
  filter (fun y => (key y =? k)%Z) (insert_by key x l) =
  filter (fun y => (key y =? k)%Z) (x :: l).
Proof.
  induction l as [|y t IH]; [reflexivity|].
  cbn [insert_by]. destruct (key x <=? key y)%Z eqn:E; [reflexivity|].
  apply Z.leb_gt in E. cbn [filter] in *. rewrite IH.
  destruct (key x =? k)%Z eqn:Ex, (key y =? k)%Z eqn:Ey; try reflexivity.
  apply Z.eqb_eq in Ex, Ey. lia.
Qed.

Lemma sorted_by_stable k l :
  filter (fun y => (key y =? k)%Z) (sorted_by key l) =
  filter (fun y => (key y =? k)%Z) l.
Proof.
  induction l as [|x t IH]; [reflexivity|].
  cbn [sorted_by]. rewrite insert_by_stable. cbn [filter]. now rewrite IH.
Qed.

Lemma insert_by_comm x y l :
  key x <> key y ->
  insert_by key x (insert_by key y l) = insert_by key y (insert_by key x l).
Proof.
  intros Hxy. induction l as [|z t IH]; cbn [insert_by].
  - destruct (key x <=? key y)%Z eqn:E1, (key y <=? key x)%Z eqn:E2; try reflexivity.
    + apply Z.leb_le in E1, E2. lia.
    + apply Z.leb_gt in E1, E2. lia.
  - destruct (key y <=? key z)%Z eqn:Ey, (key x <=? key z)%Z eqn:Ex; cbn [insert_by];
      rewrite ?Ex, ?Ey;
      destruct (key x <=? key y)%Z eqn:E1, (key y <=? key x)%Z eqn:E2;
      try reflexivity;
      try (apply Z.leb_le in E1, E2; lia);
      try (apply Z.leb_gt in E1, E2; lia);
      try (rewrite IH; reflexivity);
      repeat match goal with
             | H : (_ <=? _)%Z = true |- _ => apply Z.leb_le in H
             | H : (_ <=? _)%Z = false |- _ => apply Z.leb_gt in H
             end; lia.
Qed.

Lemma insert_by_after x y t :
  (key y < key x)%Z -> insert_by key x (y :: t) = y :: insert_by key x t.
Proof.
  intros H. cbn [insert_by]. apply Z.leb_gt in H. now rewrite H.
Qed.

(** Without ties the arrival order does not matter. *)
Lemma sorted_by_order_free l l' :
  Permutation l l' -> NoDup (map key l) -> sorted_by key l = sorted_by key l'.
Proof.
  induction 1 as [|x l l' Hp IH|x y l|l l' l'' H1 IH1 H2 IH2]; intros Hn.
  - reflexivity.
  - cbn [sorted_by]. f_equal. apply IH. now inversion Hn.
  - cbn [sorted_by]. apply insert_by_comm.
    cbn [map] in Hn. inversion Hn as [|? ? Hnot _]. intros Heq. apply Hnot. left.
    now symmetry.
  - rewrite IH1 by exact Hn. apply IH2.
    eapply Permutation_NoDup; [|exact Hn]. now apply Permutation_map.
Qed.

End StableSort.

Lemma unparseable_key e :
  parses (timestamp e) = false -> sort_key e = ordinal datetime_min.
Proof.
  unfold parses, sort_key, _parse_timestamp. intros H.
  destruct (negb (truthy (timestamp e))); [reflexivity|].
  destruct (timestamp e) as [| | |s| |]; try reflexivity.
  destruct (strptime s fmt_iso_z), (strptime s fmt_blank), (strptime s fmt_iso);
    try discriminate; reflexivity.
Qed.

Lemma sorted_split_le {A} (key : A -> Z) l1 p l2 u l3 :
  StronglySorted (fun a b => (key a <= key b)%Z) (l1 ++ p :: l2 ++ u :: l3)%list ->
  (key p <= key u)%Z.
Proof.
  induction l1 as [|x t IH]; cbn [app]; intros H.
  - inversion H as [|? ? _ Hall]. rewrite Forall_forall in Hall.
    apply Hall. apply in_or_app. right. now left.
  - inversion H. auto.
Qed.

(** The general shape of the timeline. *)
Lemma timeline_order sf ba :
  let tl := build_unified_timeline sf ba in
  Permutation tl (sf ++ ba)%list /\
  StronglySorted (fun a b => (sort_key a <= sort_key b)%Z) tl /\
  (forall k, filter (fun e => (sort_key e =? k)%Z) tl =
             filter (fun e => (sort_key e =? k)%Z) (sf ++ ba)%list) /\
  (forall l1 p l2 u l3,
      tl = (l1 ++ p :: l2 ++ u :: l3)%list ->
      parses (timestamp u) = false ->
      (sort_key p <= ordinal datetime_min)%Z).
Proof.
  unfold build_unified_timeline. cbn zeta. repeat split.
  - apply sorted_by_perm.
  - apply sorted_by_sorted.
  - intros k. apply sorted_by_stable.
  - intros l1 p l2 u l3 E Hu.
    rewrite <- (unparseable_key u Hu).
    apply (sorted_split_le sort_key l1 p l2 u l3). rewrite <- E.
    apply sorted_by_sorted.
Qed.

(** C5 (as amended).  Correlation sorts the concatenated entry streams by
    normalised timestamp, entries with equal times staying in arrival order;
    an entry whose timestamp is empty or unparseable has the time
    [datetime.min], so it comes before every entry whose timestamp parses to
    a later time (an entry that parses to [datetime.min] itself is a tie).
    In particular three entries with the timestamps
    [2025-01-01T00:00:01.000Z], [2025-01-01T00:00:00.500000] and the empty
    string, arriving in any order and from either stream, are correlated as:
    the empty one, then the 00.5s one, then the 01.0s one. *)
Theorem C5_timeline_order :
  forall sf ba e1 e2 e3,
    timestamp e1 = PStr "2025-01-01T00:00:01.000Z" ->
    timestamp e2 = PStr "2025-01-01T00:00:00.500000" ->
    timestamp e3 = PStr "" ->
    Permutation (sf ++ ba)%list [e1; e2; e3] ->
    build_unified_timeline sf ba = [e3; e2; e1] /\
    (forall sf' ba',
        let tl := build_unified_timeline sf' ba' in
        Permutation tl (sf' ++ ba')%list /\
        StronglySorted (fun a b => (sort_key a <= sort_key b)%Z) tl /\
        (forall k, filter (fun e => (sort_key e =? k)%Z) tl =
                   filter (fun e => (sort_key e =? k)%Z) (sf' ++ ba')%list) /\
        (forall l1 p l2 u l3,
            tl = (l1 ++ p :: l2 ++ u :: l3)%list ->
            parses (timestamp u) = false ->
            (sort_key p <= ordinal datetime_min)%Z)).
Proof.
  intros sf ba e1 e2 e3 H1 H2 H3 Hp. split; [|intros; apply timeline_order].
  assert (K1 : sort_key e1 = 72786211201000000%Z)
    by (unfold sort_key; rewrite H1; vm_compute; reflexivity).
  assert (K2 : sort_key e2 = 72786211200500000%Z)
    by (unfold sort_key; rewrite H2; vm_compute; reflexivity).
  assert (K3 : sort_key e3 = 38793600000000%Z)
    by (unfold sort_key; rewrite H3; vm_compute; reflexivity).
  unfold build_unified_timeline.
  rewrite (sorted_by_order_free sort_key (sf ++ ba)%list [e1; e2; e3] Hp).
  - cbn [sorted_by]. change (insert_by sort_key e3 []) with [e3].
    rewrite (insert_by_after sort_key e2 e3) by lia.
    change (insert_by sort_key e2 []) with [e2].
    rewrite (insert_by_after sort_key e1 e3) by lia.
    rewrite (insert_by_after sort_key e1 e2) by lia.
    reflexivity.
  - eapply Permutation_NoDup; [apply Permutation_map, Permutation_sym, Hp|].
    cbn [map]. rewrite K1, K2, K3.
    repeat constructor; cbn [In]; intros H; repeat destruct H as [H|H];
      try discriminate H; exact H.
Qed.

Lemma C5_timeline_order_witness :
  build_unified_timeline
    [stamped "2025-01-01T00:00:01.000Z"]
    [stamped "2025-01-01T00:00:00.500000"; stamped ""]
  = [stamped ""; stamped "2025-01-01T00:00:00.500000"; stamped "2025-01-01T00:00:01.000Z"].
Proof.
  apply (C5_timeline_order
           [stamped "2025-01-01T00:00:01.000Z"]
           [stamped "2025-01-01T00:00:00.500000"; stamped ""]
           (stamped "2025-01-01T00:00:01.000Z")
           (stamped "2025-01-01T00:00:00.500000")
           (stamped "")
           eq_refl eq_refl eq_refl (Permutation_refl _)).
Defined.

(** C5, the claim as stated fails: the timestamp [0001-01-01T00:00:00.000Z]
    parses, to [datetime.min], so an entry that carries it and arrives first
    stays in front of an entry with an empty timestamp. *)
Lemma C5_counterexample :
  ~ unparseable_first
      (build_unified_timeline [stamped "0001-01-01T00:00:00.000Z"; stamped ""] []).
Proof.
  intros H.
  apply (H [] (stamped "0001-01-01T00:00:00.000Z") [] (stamped "") []);
    vm_compute; reflexivity.
Qed.

(** ** The session index *)

Lemma sessions_append_ok ss k e :
  sessions_ok ss -> hashable k = true -> eq_str k "unknown" = false ->
  unknown_session e = false ->
  sessions_ok (sessions_append ss k e).
Proof.
  unfold sessions_ok. intros H Hk Hu He.
  induction H as [|[k' es] t (A & B & C) Ht IH]; cbn [sessions_append].
  - repeat constructor; assumption.
  - destruct (key_eqb k' k).
    + constructor; [|exact Ht]. cbn [fst snd] in *. repeat split; try assumption.
      apply Forall_app. split; [exact C | now repeat constructor].
    + constructor; [|exact IH]. now repeat split.
Qed.

Lemma group_by_sessions_ok timeline :
  forall ss ss', sessions_ok ss -> group_by_sessions timeline ss = Ok ss' -> sessions_ok ss'.
Proof.
  induction timeline as [|e t IH]; cbn [group_by_sessions]; intros ss ss' H G.
  - now injection G as <-.
  - destruct (negb (eq_str (session_id e) "unknown")) eqn:U.
    + destruct (hashable (session_id e)) eqn:Hh; [|discriminate G].
      apply (IH _ _ (sessions_append_ok ss _ e H Hh (proj1 (negb_true_iff _) U)
                       (proj1 (negb_true_iff _) U)) G).
    + now apply (IH ss).
Qed.

Lemma sessions_lookup_In ss k es :
  sessions_lookup ss k = Some es -> exists k', In (k', es) ss.
Proof.
  induction ss as [|[k' es'] t IH]; cbn [sessions_lookup]; [discriminate|].
  destruct (key_eqb k' k).
  - intros E. injection E as <-. exists k'. now left.
  - intros E. destruct (IH E) as (k0 & Hk0). exists k0. now right.
Qed.

Lemma load_all_sessions_ok jl jd sf_data ba_data xml infra dbg :
  load_all jl jd sf_data ba_data xml infra = Ok dbg ->
  sessions_ok (sessions dbg) /\
  unified_timeline dbg = build_unified_timeline (smartflow_logs dbg) (blockagent_logs dbg).
Proof.
  unfold load_all. intros H. inv_bind H. injection H as <-. cbn.
  split; [|reflexivity].
  eapply group_by_sessions_ok; [|eassumption]. constructor.
Qed.

(** The entries a session timeline returns carry a known session id. *)
Lemma timeline_known dbg sid es :
  sessions_ok (sessions dbg) ->
  get_session_timeline dbg sid = Ok es ->
  Forall (fun e => unknown_session e = false) es.
Proof.
  unfold get_session_timeline. intros H G.
  destruct (hashable sid); [|discriminate G]. injection G as <-.
  destruct (sessions_lookup (sessions dbg) sid) as [es|] eqn:L; [|constructor].
  destruct (sessions_lookup_In _ _ _ L) as (k & Hk).
  unfold sessions_ok in H. rewrite Forall_forall in H.
  exact (proj2 (proj2 (H _ Hk))).
Qed.

(** What the export lists are the session timelines. *)
Lemma export_entries dbg ex sid se :
  export_to_json dbg = Ok ex -> In (sid, se) (exp_sessions ex) ->
  get_session_timeline dbg sid = Ok (exp_entries se).
Proof.
  unfold export_to_json. intros H Hin. inv_bind H. injection H as <-.
  cbn [exp_sessions] in Hin.
  destruct (mapM_In _ _ _ E _ Hin) as (k & _ & Hk).
  inv_bind Hk. injection Hk as <- <-. assumption.
Qed.

(** C6 (as amended).  For every loaded dataset: the sentinel [unknown] is
    not in the session-id list; an entry whose session id is [unknown] is in
    no per-session timeline and in nothing that [export_to_json] lists (the
    export goes through the session index, there is no export of the whole
    timeline); the entry stays in the unified timeline that the dataset
    holds. *)
Theorem C6_unknown_session_entries :
  forall json_loads json_dumps smartflow_data blockagent_data xml infra dbg,
    load_all json_loads json_dumps smartflow_data blockagent_data xml infra = Ok dbg ->
    (forall sid, In sid (get_all_sessions dbg) -> eq_str sid "unknown" = false) /\
    (forall e, unknown_session e = true ->
       (forall sid es, get_session_timeline dbg sid = Ok es -> ~ In e es) /\
       (forall ex, export_to_json dbg = Ok ex -> ~ exported ex e) /\
       (In e (smartflow_logs dbg ++ blockagent_logs dbg)%list ->
        In e (unified_timeline dbg))).
Proof.
  intros jl jd sfd bad xml infra dbg H.
  destruct (load_all_sessions_ok _ _ _ _ _ _ _ H) as (Hok & Htl).
  split.
  - intros sid Hin. unfold get_all_sessions in Hin. apply in_map_iff in Hin.
    destruct Hin as ([k es] & <- & Hk).
    unfold sessions_ok in Hok. rewrite Forall_forall in Hok.
    exact (proj1 (proj2 (Hok _ Hk))).
  - intros e He. assert (Hno : forall sid es,
        get_session_timeline dbg sid = Ok es -> ~ In e es).
    { intros sid es G Hin.
      pose proof (timeline_known dbg sid es Hok G) as F. rewrite Forall_forall in F.
      rewrite (F _ Hin) in He. discriminate. }
    repeat split.
    + exact Hno.
    + intros ex Hex (sid & se & Hin & Hse).
      exact (Hno sid _ (export_entries dbg ex sid se Hex Hin) Hse).
    + intros Hin. rewrite Htl. unfold build_unified_timeline.
      eapply Permutation_in; [apply Permutation_sym, sorted_by_perm | exact Hin].
Qed.

Lemma C6_unknown_session_entries_witness :
  exists dbg e,
    load_all Json.loads (fun _ => "") plain_text_batch no_transactions None (PList [])
      = Ok dbg /\
    In e (unified_timeline dbg) /\ unknown_session e = true /\
    (forall ex, export_to_json dbg = Ok ex -> ~ exported ex e).
Proof.
  do 2 eexists.
  split; [vm_compute; reflexivity|].
  split; [left; reflexivity|].
  split; [reflexivity|].
  intros ex Hex.
  eapply (C6_unknown_session_entries Json.loads (fun _ => "") plain_text_batch
            no_transactions None (PList [])).
  - vm_compute. reflexivity.
  - reflexivity.
  - exact Hex.
Defined.

(** C6, the claim as stated fails: after loading a flow-engine log of one
    plain line and an agent log without transactions, the entry of that line
    (session id [unknown]) is in the unified timeline, and the export, which
    has no session to go through, does not list it. *)
Lemma C6_counterexample :
  exists dbg e ex,
    load_all Json.loads (fun _ => "") plain_text_batch no_transactions None (PList [])
      = Ok dbg /\
    In e (unified_timeline dbg) /\ unknown_session e = true /\
    export_to_json dbg = Ok ex /\ ~ exported ex e.
Proof.
  do 3 eexists.
  split; [vm_compute; reflexivity|].
  split; [left; reflexivity|].
  split; [reflexivity|].
  split; [vm_compute; reflexivity|].
  intros (sid & se & Hin & _). exact Hin.
Qed.

(** ** The conversation summary *)

Lemma count_by_source (entries : list LogEntry) :
  (List.length (filter (fun e => Source_eqb (source e) smartflow) entries) +
   List.length (filter (fun e => Source_eqb (source e) blockagent) entries))%nat
  = List.length entries.
Proof.
  induction entries as [|e t IH]; [reflexivity|].
  cbn [filter]. destruct (source e); cbn [Source_eqb List.length]; lia.
Qed.

(** C9 (as amended).  For every session id in the session index of a loaded
    dataset, the conversation summary holds, in timeline order, one item
    (role, content, timestamp, block id, turn id, metadata) for every entry
    of that session that comes from the conversational agent and whose role
    is [user] or [assistant]; entries of the flow engine are left out of the
    conversation whatever their role.  The summary also holds the number of
    entries, split by source. *)
Theorem C9_conversation_summary :
  forall json_loads json_dumps smartflow_data blockagent_data xml infra dbg sid,
    load_all json_loads json_dumps smartflow_data blockagent_data xml infra = Ok dbg ->
    In sid (get_all_sessions dbg) ->
    exists entries s,
      get_session_timeline dbg sid = Ok entries /\
      get_conversation_summary dbg sid = Ok s /\
      conversation s =
        map conversation_item
            (filter (fun e => Source_eqb (source e) blockagent && conversational e) entries) /\
      total_entries s = List.length entries /\
      smartflow_entries s =
        List.length (filter (fun e => Source_eqb (source e) smartflow) entries) /\
      blockagent_entries s =
        List.length (filter (fun e => Source_eqb (source e) blockagent) entries) /\
      (smartflow_entries s + blockagent_entries s)%nat = total_entries s.
Proof.
  intros jl jd sfd bad xml infra dbg sid H Hin.
  destruct (load_all_sessions_ok _ _ _ _ _ _ _ H) as (Hok & _).
  assert (Hh : hashable sid = true).
  { unfold get_all_sessions in Hin. apply in_map_iff in Hin.
    destruct Hin as ([k es] & <- & Hk).
    unfold sessions_ok in Hok. rewrite Forall_forall in Hok.
    exact (proj1 (Hok _ Hk)). }
  unfold get_conversation_summary, get_session_timeline. rewrite Hh. cbn [Py.bind].
  do 2 eexists. split; [reflexivity|]. split; [reflexivity|].
  cbn [conversation total_entries smartflow_entries blockagent_entries].
  repeat split. apply count_by_source.
Qed.

Lemma C9_conversation_summary_witness :
  exists dbg sid entries s,
    load_all Json.loads (fun _ => "") gpt_user_batch no_transactions None (PList [])
      = Ok dbg /\
    In sid (get_all_sessions dbg) /\
    get_session_timeline dbg sid = Ok entries /\
    get_conversation_summary dbg sid = Ok s /\
    conversation s =
      map conversation_item
          (filter (fun e => Source_eqb (source e) blockagent && conversational e) entries) /\
    total_entries s = 1%nat.
Proof.
  eexists. eexists.
  match goal with |- exists entries s, ?L = _ /\ In _ (get_all_sessions _) /\ _ =>
    assert (E : exists d, L = Ok d) by (eexists; vm_compute; reflexivity)
  end.
  destruct E as (d & E).
  pose proof (C9_conversation_summary Json.loads (fun _ => "") gpt_user_batch
                no_transactions None (PList []) d
                (PStr "1760571668-000000000001105328-SR-000-000000000000DEN130-44144A80")
                E) as P.
  assert (D := E). vm_compute in D. injection D as <-.
  destruct (P (or_introl eq_refl)) as (entries & s & T & S & C & N & _).
  exists entries, s. split; [vm_compute; reflexivity|].
  split; [left; reflexivity|].
  split; [exact T|]. split; [exact S|]. split; [exact C|].
  rewrite N. vm_compute in T. injection T as <-. reflexivity.
Defined.

(** C9, the claim as stated fails: in the dataset loaded from a flow-engine
    log whose only record is a user turn of the GPT agent, the session of
    that record has an entry with role [user], and the conversation of its
    summary is empty. *)
Lemma C9_counterexample :
  exists dbg sid entries e s,
    load_all Json.loads (fun _ => "") gpt_user_batch no_transactions None (PList [])
      = Ok dbg /\
    In sid (get_all_sessions dbg) /\
    get_session_timeline dbg sid = Ok entries /\
    In e entries /\ conversational e = true /\ role e = PStr "user" /\
    get_conversation_summary dbg sid = Ok s /\
    conversation s = [] /\
    conversation s <> map conversation_item (filter conversational entries).
Proof.
  do 5 eexists.
  split; [vm_compute; reflexivity|].
  split; [left; reflexivity|].
  split; [vm_compute; reflexivity|].
  split; [left; reflexivity|].
  split; [reflexivity|]. split; [reflexivity|].
  split; [vm_compute; reflexivity|].
  split; [reflexivity|]. discriminate.
Qed.

(** ** The flow diagram *)

Lemma edge_of_type turn_id edge es :
  edge_of turn_id edge = Ok es -> Forall (fun e => e_type e = blockagent) es.
Proof.
  unfold edge_of.
  destruct (get edge "connect_to" PNone) as [ct|]; cbn [Py.bind]; [|discriminate].
  destruct ct as [| | | | |kvs]; try (intros H; injection H as <-; constructor).
  destruct (truthy (PDict kvs)); [|intros H; injection H as <-; constructor].
  destruct (truthy _); [|intros H; injection H as <-; constructor].
  destruct (get edge "name" (PStr "")) as [label|]; cbn [Py.bind]; [|discriminate].
  intros H. injection H as <-. repeat constructor.
Qed.

Lemma mapM_Forall {A B} (f : A -> res B) (P : B -> Prop) l :
  (forall a b, f a = Ok b -> P b) ->
  forall bs, mapM f l = Ok bs -> Forall P bs.
Proof.
  intros Hf bs H. apply Forall_forall. intros b Hb.
  destruct (mapM_In f l bs H b Hb) as (a & _ & Ha). eauto.
Qed.

Lemma Forall_concat {A} (P : A -> Prop) ls :
  Forall (Forall P) ls -> Forall P (concat ls).
Proof.
  induction 1; cbn [concat]; [constructor|]. apply Forall_app. now split.
Qed.

Lemma turn_of_type turn t es :
  turn_of turn = Ok (t, es) -> Forall (fun e => e_type e = blockagent) es.
Proof.
  unfold turn_of.
  destruct (get turn "turn_id" (PStr "")) as [tid|]; cbn [Py.bind]; [|discriminate].
  destruct (get turn "name" (PStr "")) as [tname|]; cbn [Py.bind]; [|discriminate].
  destruct (has_key turn "edges") as [[|]|]; cbn [Py.bind]; try discriminate.
  - destruct (getitem turn "edges") as [el|]; cbn [Py.bind]; [|discriminate].
    destruct (iter el) as [items|]; cbn [Py.bind]; [|discriminate].
    destruct (mapM (edge_of tid) items) as [per_edge|] eqn:M; cbn [Py.bind]; [|discriminate].
    intros H. injection H as _ <-.
    apply Forall_concat. eapply mapM_Forall; [|exact M].
    intros a b. apply edge_of_type.
  - intros H. injection H as _ <-. constructor.
Qed.

Lemma block_of_type idx block n es :
  block_of idx block = Ok (n, es) -> Forall (fun e => e_type e = blockagent) es.
Proof.
  unfold block_of.
  destruct (get block "block_id" _) as [bid|]; cbn [Py.bind]; [|discriminate].
  destruct (get block "name" _) as [bname|]; cbn [Py.bind]; [|discriminate].
  destruct (has_key block "turns") as [[|]|]; cbn [Py.bind]; try discriminate.
  - destruct (getitem block "turns") as [tl|]; cbn [Py.bind]; [|discriminate].
    destruct (iter tl) as [items|]; cbn [Py.bind]; [|discriminate].
    destruct (mapM turn_of items) as [ts|] eqn:M; cbn [Py.bind]; [|discriminate].
    intros H. injection H as _ <-.
    apply Forall_concat. apply Forall_map.
    eapply mapM_Forall; [|exact M].
    intros a [t es']. apply turn_of_type.
  - intros H. injection H as _ <-. constructor.
Qed.

Lemma blocks_from_type blocks :
  forall idx bs, blocks_from idx blocks = Ok bs ->
  Forall (fun e => e_type e = blockagent) (concat (map snd bs)).
Proof.
  induction blocks as [|b t IH]; cbn [blocks_from]; intros idx bs.
  - intros H. injection H as <-. constructor.
  - destruct (block_of idx b) as [[n es]|] eqn:B; cbn [Py.bind]; [|discriminate].
    destruct (blocks_from (S idx) t) as [rest|] eqn:R; cbn [Py.bind]; [|discriminate].
    intros H. injection H as <-. cbn [map concat snd]. apply Forall_app. split.
    + eapply block_of_type. exact B.
    + eapply IH. exact R.
Qed.

Lemma chain_edge_target left right e :
  In e (chain_edge left right) ->
  e_to e = PStr right /\ right <> "END_CALL" /\ e_type e = smartflow.
Proof.
  unfold chain_edge.
  destruct (negb (left =? "")), (negb (right =? "")),
           (negb (right =? "END_CALL")) eqn:E; cbn; try tauto.
  intros [<-|[]]. repeat split.
  intros ->. discriminate E.
Qed.

(** C10.  From the infrastructure that holds the block
    [{'block_id':'b1','turns':[{'turn_id':'t1','edges':[{'connect_to':
    {'turn_id':'t2'},'name':'ok'}]}]}], whatever the XML, the extracted flow
    graph has a directed edge from [t1] to [t2] labelled [ok] of the type of
    the conversational agent.  A chain element is a match of the chain
    pattern and its [right] attribute is the second group of the match: one
    whose [right] is the literal [END_CALL] contributes no edge, so that no
    edge that comes from the XML points to [END_CALL]; the fragment
    [<chain left='A' right='END_CALL'>] alone gives a graph without edges. *)
Theorem C10_flow_graph :
  (Json.loads ("[" ++ infra_block ++ "]") = Some infra_example /\
   forall xml, exists flow,
     extract_flow_diagram infra_example xml = Ok flow /\ In edge_t1_t2 (edges flow)) /\
  (forall left, chain_edge left "END_CALL" = []) /\
  (forall infra xml flow,
     extract_flow_diagram infra xml = Ok flow ->
     forall e, In e (edges flow) -> e_type e = smartflow -> e_to e <> PStr "END_CALL") /\
  (chains end_call_chain = [("A", "END_CALL")] /\
   exists flow,
     extract_flow_diagram (PList []) (Some end_call_chain) = Ok flow /\ edges flow = []).
Proof.
  split; [split|split; [|split]].
  - vm_compute. reflexivity.
  - intros xml. unfold extract_flow_diagram.
    assert (B : blocks_from 0 [PDict
                [("block_id", PStr "b1");
                 ("turns", PList [PDict [("turn_id", PStr "t1");
                                         ("edges", PList [PDict [("connect_to", PDict [("turn_id", PStr "t2")]);
                                                                 ("name", PStr "ok")]])]])]]
                = Ok [(BlockNode (PStr "b1") (PStr "Unknown Block")
                         [{| t_id := PStr "t1"; t_name := PStr "" |}], [edge_t1_t2])])
      by (vm_compute; reflexivity).
    unfold infra_example. rewrite B. cbn [Py.bind].
    eexists. split; [reflexivity|]. cbn [edges map snd concat app]. now left.
  - intros left. unfold chain_edge.
    destruct (negb (left =? "")); reflexivity.
  - intros infra xml flow H e Hin Ht. unfold extract_flow_diagram in H.
    destruct (match infra with PList bl => blocks_from 0 bl | _ => Ok [] end)
      as [blocks|] eqn:E; cbn [Py.bind] in H; [|discriminate H].
    injection H as <-. cbn [edges] in Hin.
    apply in_app_or in Hin. destruct Hin as [Hin|Hin].
    + assert (F : Forall (fun e => e_type e = blockagent) (concat (map snd blocks))).
      { destruct infra; try (injection E as <-; constructor).
        eapply blocks_from_type. eassumption. }
      rewrite Forall_forall in F. rewrite (F _ Hin) in Ht. discriminate Ht.
    + destruct xml as [x|]; [|destruct Hin].
      apply in_concat in Hin. destruct Hin as (l & Hl & He).
      apply in_map_iff in Hl. destruct Hl as ([lt rt] & <- & _).
      destruct (chain_edge_target _ _ _ He) as (-> & Hne & _).
      intros Heq. injection Heq as ->. now apply Hne.
  - split; [vm_compute; reflexivity|].
    eexists. split; vm_compute; reflexivity.
Qed.

Lemma C10_flow_graph_witness :
  exists flow,
    extract_flow_diagram infra_example
      (Some (qq "<chain left='A' right='END_CALL'><chain left='A' right='B'>")) = Ok flow /\
    forall e, In e (edges flow) -> e_type e = smartflow -> e_to e <> PStr "END_CALL".
Proof.
  eexists. split; [vm_compute; reflexivity|].
  apply (proj1 (proj2 (proj2 C10_flow_graph)) infra_example
           (Some (qq "<chain left='A' right='END_CALL'><chain left='A' right='B'>"))).
  vm_compute. reflexivity.
Defined.

(** ** Keys and the text of a structure *)

Lemma prefix_nil s : String.prefix "" s = true.
Proof. destruct s; reflexivity. Qed.

Lemma prefix_app sub : forall a b,
  String.prefix sub a = true -> String.prefix sub (a ++ b) = true.
Proof.
  induction sub as [|c sub IH]; intros a b H; [apply prefix_nil|].
  destruct a as [|x a]; [discriminate H|].
  cbn in *. destruct (ascii_dec c x); [now apply IH | discriminate H].
Qed.

Lemma contains_prefix s sub : String.prefix sub s = true -> contains s sub = true.
Proof. intros H. destruct s; cbn [contains]; rewrite H; reflexivity. Qed.

Lemma contains_cons c s sub : contains s sub = true -> contains (String c s) sub = true.
Proof. intros H. cbn [contains]. rewrite H. apply orb_true_r. Qed.

Lemma contains_app_r a b sub : contains b sub = true -> contains (a ++ b) sub = true.
Proof.
  intros H. induction a as [|c a IH]; [exact H|].
  cbn [append]. now apply contains_cons.
Qed.

Lemma contains_app_l a b sub : contains a sub = true -> contains (a ++ b) sub = true.
Proof.
  induction a as [|c a IH]; cbn [contains]; intros H.
  - rewrite orb_false_r in H. apply contains_prefix. now apply (prefix_app sub "" b).
  - apply orb_true_iff in H. destruct H as [H|H].
    + apply contains_prefix. now apply (prefix_app sub (String c a) b).
    + cbn [append]. apply contains_cons. now apply IH.
Qed.

Lemma lower_app a b : lower (a ++ b) = lower a ++ lower b.
Proof. induction a as [|c a IH]; cbn [append lower]; [reflexivity | now rewrite IH]. Qed.

Lemma repr_char_plain x :
  plain_char (lower_ascii x) = true ->
  repr_char sq x = String x "" /\ repr_char dq x = String x "".
Proof.
  destruct x as [[] [] [] [] [] [] [] []]; vm_compute; intros H;
    (discriminate H || (split; reflexivity)).
Qed.

Lemma prefix_repr_chars q k :
  q = sq \/ q = dq -> plain k = true ->
  forall key, String.prefix k (lower key) = true ->
              String.prefix k (lower (repr_chars q key)) = true.
Proof.
  intros Hq. induction k as [|c k IH]; intros Hp key H; [apply prefix_nil|].
  destruct key as [|x key]; [discriminate H|].
  cbn [plain] in Hp. apply andb_true_iff in Hp. destruct Hp as [Hc Hk].
  cbn [lower String.prefix] in H.
  destruct (ascii_dec c (lower_ascii x)) as [->|]; [|discriminate H].
  destruct (repr_char_plain x Hc) as [Rs Rd].
  cbn [repr_chars].
  replace (repr_char q x) with (String x "") by (destruct Hq as [->| ->]; congruence).
  cbn [append lower String.prefix].
  destruct (ascii_dec (lower_ascii x) (lower_ascii x)); [|congruence].
  now apply IH.
Qed.

Lemma contains_repr_chars q k :
  q = sq \/ q = dq -> plain k = true ->
  forall key, contains (lower key) k = true ->
              contains (lower (repr_chars q key)) k = true.
Proof.
  intros Hq Hp. induction key as [|x key IH]; intros H.
  - exact H.
  - cbn [lower contains] in H. apply orb_true_iff in H. destruct H as [H|H].
    + apply contains_prefix.
      apply (prefix_repr_chars q k Hq Hp (String x key)). exact H.
    + cbn [repr_chars]. rewrite lower_app. apply contains_app_r. now apply IH.
Qed.

Lemma contains_repr_str k key :
  plain k = true -> contains (lower key) k = true ->
  contains (lower (repr_str key)) k = true.
Proof.
  intros Hp H. unfold repr_str.
  set (q := if has_char sq key && negb (has_char dq key) then dq else sq).
  assert (Hq : q = sq \/ q = dq)
    by (subst q; destruct (has_char sq key && negb (has_char dq key)); auto).
  cbn [lower]. apply contains_cons. rewrite lower_app. apply contains_app_l.
  now apply contains_repr_chars.
Qed.

Lemma contains_join sep sub l : forall s,
  In s l -> contains (lower s) sub = true -> contains (lower (join sep l)) sub = true.
Proof.
  induction l as [|x t IH]; intros s Hin H; [destruct Hin|].
  destruct t as [|y t'].
  - destruct Hin as [->|[]]. exact H.
  - change (join sep (x :: y :: t')) with (x ++ sep ++ join sep (y :: t')).
    rewrite lower_app. destruct Hin as [->|Hin].
    + now apply contains_app_l.
    + apply contains_app_r. rewrite lower_app. apply contains_app_r.
      now apply (IH s).
Qed.

Lemma first_found_In l : first_found l <> PNone -> exists x, In x l /\ x <> PNone.
Proof.
  induction l as [|v t IH]; cbn [first_found]; intros H; [congruence|].
  destruct v; try (eexists; split; [now left | discriminate]).
  destruct (IH H) as (x & Hx & Hne). exists x. split; [now right | exact Hne].
Qed.

Lemma contains_repr_list items sub item :
  In item items -> contains (lower (repr item)) sub = true ->
  contains (lower (repr (PList items))) sub = true.
Proof.
  intros Hin H. cbn [repr]. rewrite lower_app. apply contains_app_r.
  rewrite lower_app. apply contains_app_l.
  apply (contains_join ", " sub (map repr items) (repr item)); [|exact H].
  now apply in_map.
Qed.

Lemma contains_repr_dict kvs sub key value :
  In (key, value) kvs ->
  contains (lower (repr_str key)) sub = true \/ contains (lower (repr value)) sub = true ->
  contains (lower (repr (PDict kvs))) sub = true.
Proof.
  intros Hin H. cbn [repr]. rewrite lower_app. apply contains_app_r.
  rewrite lower_app. apply contains_app_l.
  apply (contains_join ", " sub _ (repr_str key ++ ": " ++ repr value)).
  - apply (in_map (fun kv => repr_str (fst kv) ++ ": " ++ repr (snd kv)) kvs (key, value) Hin).
  - rewrite lower_app. destruct H as [H|H].
    + now apply contains_app_l.
    + apply contains_app_r. rewrite lower_app. now apply contains_app_r.
Qed.

(** What the search finds under a plain target shows in the text. *)
Lemma search_found_in_text k :
  plain k = true ->
  forall v md cur skip,
    recursive_search v k md cur skip <> PNone ->
    contains (lower (repr v)) k = true.
Proof.
  intros Hp v. induction v as [| | | |items IH|kvs IH] using pyval_ind;
    intros md cur skip H;
    try (exfalso; apply H; now apply recursive_search_scalar).
  - destruct (Nat.le_gt_cases md cur) as [Hd|Hd];
      [exfalso; apply H; now apply recursive_search_deep|].
    rewrite recursive_search_list in H by exact Hd.
    destruct (first_found_In _ H) as (x & Hx & Hne).
    apply in_map_iff in Hx. destruct Hx as (item & <- & Hitem).
    rewrite Forall_forall in IH.
    apply (contains_repr_list items k item Hitem).
    exact (IH item Hitem md (S cur) skip Hne).
  - destruct (Nat.le_gt_cases md cur) as [Hd|Hd];
      [exfalso; apply H; now apply recursive_search_deep|].
    rewrite recursive_search_dict in H by exact Hd.
    rewrite scan_keys_find in H.
    destruct (find _ (visible skip kvs)) as [[key value]|] eqn:F; cbn [option_map] in H.
    + apply find_some in F. destruct F as [Hin Hm]. cbn [fst] in Hm.
      apply filter_In in Hin. destruct Hin as [Hin _].
      apply (contains_repr_dict kvs k key value Hin). left.
      now apply contains_repr_str.
    + destruct (first_found_In _ H) as (x & Hx & Hne).
      apply in_map_iff in Hx. destruct Hx as ([key value] & <- & Hkv).
      apply filter_In in Hkv. destruct Hkv as [Hkv _].
      rewrite Forall_forall in IH.
      apply (contains_repr_dict kvs k key value Hkv). right.
      exact (IH (key, value) Hkv md (S cur) skip Hne).
Qed.

(** Keys inside [SessionData] are invisible to the search. *)
Lemma search_nothing_outside k v :
  key_outside k v = false ->
  forall md cur, recursive_search v k md cur true = PNone.
Proof.
  induction v as [| | | |items IH|kvs IH] using pyval_ind; intros H md cur;
    try (now apply recursive_search_scalar).
  - destruct (Nat.le_gt_cases md cur) as [Hd|Hd]; [now apply recursive_search_deep|].
    rewrite recursive_search_list by exact Hd.
    induction items as [|item t IHt]; [reflexivity|].
    cbn [key_outside] in H. apply orb_false_iff in H. destruct H as [H1 H2].
    inversion IH as [|? ? Hitem Ht]; subst.
    cbn [map first_found]. rewrite (Hitem H1). now apply IHt.
  - destruct (Nat.le_gt_cases md cur) as [Hd|Hd]; [now apply recursive_search_deep|].
    rewrite recursive_search_dict by exact Hd.
    assert (S : scan_keys kvs k true = None /\
                first_found (map (fun kv => recursive_search (snd kv) k md (S cur) true)
                                 (visible true kvs)) = PNone).
    { induction kvs as [|[key value] t IHt]; [split; reflexivity|].
      inversion IH as [|? ? Hv Ht]; subst. cbn [snd] in Hv.
      cbn [key_outside] in H. cbn [scan_keys visible filter fst andb].
      destruct (key =? "SessionData") eqn:E; cbn [negb].
      - now apply IHt.
      - apply orb_false_iff in H. destruct H as [H H3].
        apply orb_false_iff in H. destruct H as [H1 H2].
        rewrite H1. cbn [map first_found snd]. rewrite (Hv H2).
        now apply IHt. }
    destruct S as [-> ->]. reflexivity.
Qed.

(** ** Signal detection and [SessionData] *)

Lemma str_of_Z_nonempty z : str_of_Z z <> "".
Proof.
  unfold str_of_Z. destruct (Z.to_int z) as [d|d]; [|discriminate].
  destruct d; discriminate.
Qed.

(** The text of a value that counts as true is not empty. *)
Lemma truthy_text v : truthy v = true -> some_text (Some (str v)) = true.
Proof.
  intros H. cbn [some_text]. apply negb_true_iff.
  destruct (String.eqb_spec (str v) "") as [E|]; [exfalso | reflexivity].
  destruct v as [|[|]|z|s|[|x l]|[|kv d]]; try discriminate H; try discriminate E.
  - exact (str_of_Z_nonempty z E).
  - cbn [str] in E. subst s. discriminate H.
Qed.

Lemma search_empty k md cur skip :
  recursive_search (PDict []) k md cur skip = PNone /\
  recursive_search (PList []) k md cur skip = PNone.
Proof. split; cbn; destruct (md <=? cur)%nat; reflexivity. Qed.

(** A structure in which the search finds something counts as true and
    shows the target in its text. *)
Lemma found_in_combined v k :
  plain k = true -> is_dict_or_list v = true ->
  recursive_search v k 10 0 true <> PNone ->
  truthy v = true /\ contains (lower (str v)) k = true.
Proof.
  intros Hp Hd H. split.
  - destruct v as [| | | |[|x l]|[|kv d]]; try discriminate Hd; try reflexivity;
      exfalso; apply H; apply search_empty.
  - replace (str v) with (repr v) by (destruct v; try discriminate Hd; reflexivity).
    exact (search_found_in_text k Hp v 10%nat 0%nat true H).
Qed.

Lemma truthy_not_None v : truthy v = true -> v <> PNone.
Proof. intros H ->. discriminate H. Qed.

Lemma combined_effective c md :
  combined_str c (effective_metadata md) = combined_str c md.
Proof. destruct md; reflexivity. Qed.

(** The constructor, step by step: detection runs on the entry with default
    flags, on the combined text of content and metadata. *)
Lemma new_LogEntry_steps jl ts src sid lt c b t tr r mt md :
  exists s0,
    (has_wait_on s0 = false /\ wait_on_value s0 = None /\
     has_error s0 = false /\ error_code s0 = None /\
     content s0 = c /\ metadata s0 = effective_metadata md) /\
    new_LogEntry jl ts src sid lt c b t tr r mt md =
    detect_error
      (if contains (lower (combined_str c md)) "wait_on"
       then detect_wait_on jl s0 (combined_str c md) else s0)
      (combined_str c md).
Proof.
  rewrite <- (combined_effective c md).
  destruct md; eexists; (split; [|reflexivity]); repeat split.
Qed.

Lemma detect_wait_on_result jl s0 cs :
  wait_on_value s0 = None ->
  let in_content :=
    if is_dict_or_list (content s0)
    then truthy (recursive_search (content s0) "wait_on" 10 0 true) else false in
  let in_metadata :=
    if is_dict_or_list (metadata s0)
    then truthy (recursive_search (metadata s0) "wait_on" 10 0 true) else false in
  let e := detect_wait_on jl s0 cs in
  has_error e = has_error s0 /\ error_code e = error_code s0 /\
  content e = content s0 /\ metadata e = metadata s0 /\
  has_wait_on e = some_text (wait_on_value e) /\
  wait_on_value e =
    if in_content then Some (str (recursive_search (content s0) "wait_on" 10 0 true))
    else if in_metadata then Some (str (recursive_search (metadata s0) "wait_on" 10 0 true))
    else wait_on_fallback (content_without_session_data jl (content s0) cs).
Proof.
  intros H0. cbn zeta. unfold detect_wait_on. rewrite H0.
  cbn [has_error error_code content metadata has_wait_on wait_on_value set_wait_on].
  repeat split.
  set (rc := recursive_search (content s0) "wait_on" 10 0 true).
  set (rm := recursive_search (metadata s0) "wait_on" 10 0 true).
  assert (N : some_text None = false) by reflexivity.
  destruct (is_dict_or_list (content s0)); [destruct (truthy rc) eqn:T|].
  - rewrite (truthy_text rc T). cbn [negb andb]. rewrite (truthy_text rc T). reflexivity.
  - rewrite N. cbn [negb andb].
    destruct (is_dict_or_list (metadata s0)); [destruct (truthy rm) eqn:T'|].
    + rewrite (truthy_text rm T'). reflexivity.
    + rewrite N. cbn [negb]. destruct (wait_on_fallback _); reflexivity.
    + rewrite N. cbn [negb]. destruct (wait_on_fallback _); reflexivity.
  - rewrite N. cbn [negb andb].
    destruct (is_dict_or_list (metadata s0)); [destruct (truthy rm) eqn:T'|].
    + rewrite (truthy_text rm T'). reflexivity.
    + rewrite N. cbn [negb]. destruct (wait_on_fallback _); reflexivity.
    + rewrite N. cbn [negb]. destruct (wait_on_fallback _); reflexivity.
Qed.

Lemma detect_error_result s cs :
  has_error s = false -> error_code s = None ->
  let e := detect_error s cs in
  has_wait_on e = has_wait_on s /\ wait_on_value e = wait_on_value s /\
  (is_dict_or_list (content s) = true ->
   truthy (status_value (content s)) = true ->
   forall code, int_of (status_value (content s)) = Some code -> (400 <= code)%Z ->
   has_error e = true /\ error_code e = Some code) /\
  ((is_dict_or_list (content s) = true -> status_value (content s) = PNone) ->
   status_fallback cs = None -> has_error e = false /\ error_code e = None).
Proof.
  intros H0 H1. cbn zeta.
  destruct (detect_error_ok s cs) as (_ & _ & W1 & W2);
    [intros _; exact H1 | rewrite H0; discriminate |].
  split; [exact W1|]. split; [exact W2|].
  unfold detect_error. fold (status_value (content s)). split.
  - intros Hd Ht code Hc Hge. rewrite Hd, Ht, Hc. cbn [andb].
    assert (I : match status_value (content s) with
                | PInt _ | PBool _ | PStr _ => true | _ => false end = true)
      by (destruct (status_value (content s)); try reflexivity; discriminate Hc).
    rewrite I. cbn [flag_code]. apply Z.leb_le in Hge. rewrite Hge.
    cbn [has_error set_error negb error_code]. split; reflexivity.
  - intros Hs Hf. rewrite Hf.
    destruct (is_dict_or_list (content s)).
    + rewrite (Hs eq_refl). cbn [truthy andb]. rewrite H0. cbn [negb]. now split.
    + rewrite H0. cbn [negb]. now split.
Qed.

(** C1 (as amended).  For every entry, with content [c] and metadata [md]:
    when every key that holds [wait_on] lies inside a [SessionData] subtree,
    at whatever depth of the content or of the metadata, the structural
    search finds nothing and, unless one of the three text patterns matches
    the cleaned text, [has_wait_on] is false and [wait_on_value] is [None];
    the same holds for [statuscode]/[status_code], [has_error] and
    [error_code] with the three status patterns on the combined text.  When
    the level-first search (which skips [SessionData]) finds under such a
    key a value that counts as true, in the content or else in the metadata,
    [has_wait_on] is true and [wait_on_value] is the text of that value; when
    it finds a status that counts as true and reads as an integer of at
    least 400, [has_error] is true with that code. *)
Theorem C1_session_data_excluded :
  forall json_loads ts src sid lt c b t tr r mt md,
    let e := new_LogEntry json_loads ts src sid lt c b t tr r mt md in
    (key_outside "wait_on" c = false -> key_outside "wait_on" md = false ->
     wait_on_fallback (content_without_session_data json_loads c (combined_str c md)) = None ->
     has_wait_on e = false /\ wait_on_value e = None) /\
    (key_outside "statuscode" c = false -> key_outside "status_code" c = false ->
     status_fallback (combined_str c md) = None ->
     has_error e = false /\ error_code e = None) /\
    (is_dict_or_list c = true ->
     truthy (recursive_search c "wait_on" 10 0 true) = true ->
     has_wait_on e = true /\
     wait_on_value e = Some (str (recursive_search c "wait_on" 10 0 true))) /\
    (is_dict_or_list c = false \/ truthy (recursive_search c "wait_on" 10 0 true) = false ->
     is_dict_or_list md = true ->
     truthy (recursive_search md "wait_on" 10 0 true) = true ->
     has_wait_on e = true /\
     wait_on_value e = Some (str (recursive_search md "wait_on" 10 0 true))) /\
    (is_dict_or_list c = true -> truthy (status_value c) = true ->
     forall code, int_of (status_value c) = Some code -> (400 <= code)%Z ->
     has_error e = true /\ error_code e = Some code).
Proof.
  intros jl ts src sid lt c b t tr r mt md e. subst e.
  destruct (new_LogEntry_steps jl ts src sid lt c b t tr r mt md)
    as (s0 & (W0 & V0 & E0 & C0 & Hc & Hm) & ->).
  set (cs := combined_str c md).
  destruct (detect_wait_on_result jl s0 cs V0) as (DE & DC & Dc & Dm & DW & DV).
  rewrite Hc, Hm in DV.
  set (s1 := if contains (lower cs) "wait_on" then detect_wait_on jl s0 cs else s0).
  assert (S1 : has_error s1 = false /\ error_code s1 = None /\ content s1 = c).
  { subst s1. destruct (contains (lower cs) "wait_on");
      repeat split; congruence. }
  destruct S1 as (E1 & C1 & Hc1).
  destruct (detect_error_result s1 cs E1 C1) as (RW & RV & Rfound & Rnone).
  rewrite Hc1 in Rfound, Rnone.
  assert (Hmd : forall k, key_outside k md = false ->
                          recursive_search (effective_metadata md) k 10 0 true = PNone).
  { intros k Hk. destruct md; try exact (search_nothing_outside k _ Hk 10%nat 0%nat);
      apply search_empty. }
  repeat split.
  - rewrite RW. subst s1. destruct (contains (lower cs) "wait_on"); [|exact W0].
    rewrite DW, DV. rewrite (search_nothing_outside _ _ H 10%nat 0%nat).
    rewrite (Hmd _ H0). cbn [truthy]. rewrite !Tauto.if_same. rewrite H1. reflexivity.
  - rewrite RV. subst s1. destruct (contains (lower cs) "wait_on"); [|exact V0].
    rewrite DV. rewrite (search_nothing_outside _ _ H 10%nat 0%nat).
    rewrite (Hmd _ H0). cbn [truthy]. rewrite !Tauto.if_same. exact H1.
  - apply Rnone; [|exact H1]. intros _. unfold status_value.
    rewrite (search_nothing_outside _ _ H 10%nat 0%nat). cbn [truthy].
    exact (search_nothing_outside _ _ H0 10%nat 0%nat).
  - apply Rnone; [|exact H1]. intros _. unfold status_value.
    rewrite (search_nothing_outside _ _ H 10%nat 0%nat). cbn [truthy].
    exact (search_nothing_outside _ _ H0 10%nat 0%nat).
  - rewrite RW. subst s1.
    destruct (found_in_combined c "wait_on" eq_refl H (truthy_not_None _ H0)) as (Tc & Kc).
    assert (G : contains (lower cs) "wait_on" = true).
    { subst cs. unfold combined_str. rewrite Tc, lower_app. now apply contains_app_l. }
    rewrite G, DW, DV, H, H0. now apply truthy_text.
  - rewrite RV. subst s1.
    destruct (found_in_combined c "wait_on" eq_refl H (truthy_not_None _ H0)) as (Tc & Kc).
    assert (G : contains (lower cs) "wait_on" = true).
    { subst cs. unfold combined_str. rewrite Tc, lower_app. now apply contains_app_l. }
    rewrite G, DV, H, H0. reflexivity.
  - rewrite RW. subst s1.
    destruct (found_in_combined md "wait_on" eq_refl H0 (truthy_not_None _ H1)) as (Tm & Km).
    assert (G : contains (lower cs) "wait_on" = true).
    { subst cs. unfold combined_str. rewrite Tm, !lower_app.
      apply contains_app_r. now apply contains_app_r. }
    assert (Em : effective_metadata md = md) by (destruct md; try discriminate H0; reflexivity).
    rewrite Em in DV. rewrite G, DW, DV, H0, H1.
    destruct H as [H|H]; rewrite H; try rewrite Tauto.if_same; now apply truthy_text.
  - rewrite RV. subst s1.
    destruct (found_in_combined md "wait_on" eq_refl H0 (truthy_not_None _ H1)) as (Tm & Km).
    assert (G : contains (lower cs) "wait_on" = true).
    { subst cs. unfold combined_str. rewrite Tm, !lower_app.
      apply contains_app_r. now apply contains_app_r. }
    assert (Em : effective_metadata md = md) by (destruct md; try discriminate H0; reflexivity).
    rewrite Em in DV. rewrite G, DV, H0, H1.
    destruct H as [H|H]; rewrite H; try rewrite Tauto.if_same; reflexivity.
  - exact (proj1 (Rfound H H0 code H1 H2)).
  - exact (proj2 (Rfound H H0 code H1 H2)).
Qed.

Lemma C1_session_data_excluded_witness :
  (has_wait_on (entry_of session_only_payload (PDict [])) = false /\
   wait_on_value (entry_of session_only_payload (PDict [])) = None) /\
  (has_error (entry_of session_only_payload (PDict [])) = false /\
   error_code (entry_of session_only_payload (PDict [])) = None) /\
  (has_wait_on (entry_of wait_payload (PDict [])) = true /\
   wait_on_value (entry_of wait_payload (PDict [])) = Some "dtmf_input") /\
  (has_wait_on (entry_of (PStr "") wait_payload) = true /\
   wait_on_value (entry_of (PStr "") wait_payload) = Some "dtmf_input") /\
  (has_error (entry_of wait_payload (PDict [])) = true /\
   error_code (entry_of wait_payload (PDict [])) = Some 503%Z).
Proof.
  split; [|split; [|split; [|split]]].
  - apply (C1_session_data_excluded Json.loads (PStr "") smartflow (PStr "unknown")
             (PStr "system_log") session_only_payload PNone PNone PNone PNone
             (PStr "unknown") (PDict [])); vm_compute; reflexivity.
  - apply (C1_session_data_excluded Json.loads (PStr "") smartflow (PStr "unknown")
             (PStr "system_log") session_only_payload PNone PNone PNone PNone
             (PStr "unknown") (PDict [])); vm_compute; reflexivity.
  - apply (C1_session_data_excluded Json.loads (PStr "") smartflow (PStr "unknown")
             (PStr "system_log") wait_payload PNone PNone PNone PNone
             (PStr "unknown") (PDict [])); vm_compute; reflexivity.
  - apply (C1_session_data_excluded Json.loads (PStr "") smartflow (PStr "unknown")
             (PStr "system_log") (PStr "") PNone PNone PNone PNone
             (PStr "unknown") wait_payload); [left| |]; vm_compute; reflexivity.
  - apply (C1_session_data_excluded Json.loads (PStr "") smartflow (PStr "unknown")
             (PStr "system_log") wait_payload PNone PNone PNone PNone
             (PStr "unknown") (PDict [])); vm_compute; (reflexivity || discriminate).
Defined.

(** C1, the claim as stated fails: the content [{'wait_on': ''}] carries the
    key outside any [SessionData] and its entry has [has_wait_on] false,
    because only a value that counts as true is taken; the content
    [{'statuscode': 200}] carries the key outside any [SessionData] and its
    entry has [has_error] false, because only a code of at least 400 is an
    error. *)
Lemma C1_counterexample :
  (key_outside "wait_on" empty_wait_payload = true /\
   has_wait_on (entry_of empty_wait_payload (PDict [])) = false) /\
  (key_outside "statuscode" ok_status_payload = true /\
   has_error (entry_of ok_status_payload (PDict [])) = false).
Proof. repeat split; vm_compute; reflexivity. Qed.

(** The text patterns see a [SessionData] that is not at the top level of
    the content: JSON text whose only wait_on sits in a nested [SessionData]
    gives an entry with the flag and that value. *)
Example nested_session_data_in_text :
  has_wait_on (entry_of nested_session_text (PDict [])) = true /\
  wait_on_value (entry_of nested_session_text (PDict [])) = Some "x".
Proof. split; vm_compute; reflexivity. Qed.

(* ================================================================= *)
(** * Further properties of the program *)

(** ** Sessions as a partition of the timeline *)

Lemma key_eqb_sym a b : key_eqb a b = key_eqb b a.
Proof.
  destruct a, b; cbn [key_eqb]; try reflexivity.
  - destruct b, b0; reflexivity.
  - apply Z.eqb_sym.
  - apply String.eqb_sym.
Qed.

Lemma key_eqb_trans a b c :
  key_eqb a b = true -> key_eqb b c = true -> key_eqb a c = true.
Proof.
  destruct a, b, c; cbn [key_eqb]; intros H1 H2; try discriminate; try reflexivity;
    repeat match goal with
           | H : (_ =? _)%Z = true |- _ => apply Z.eqb_eq in H
           | H : (_ =? _)%string = true |- _ => apply String.eqb_eq in H
           | H : Bool.eqb _ _ = true |- _ => apply Bool.eqb_prop in H
           end; subst;
    try apply Z.eqb_refl; try apply String.eqb_refl; try apply Bool.eqb_reflx;
    repeat match goal with b : bool |- _ => destruct b end;
    try reflexivity; try discriminate; try lia.
Qed.

Lemma key_eqb_refl a : hashable a = true -> key_eqb a a = true.
Proof.
  destruct a; cbn; intros H; try discriminate H; try reflexivity.
  - apply Bool.eqb_reflx.
  - apply Z.eqb_refl.
  - apply String.eqb_refl.
Qed.

Lemma key_eqb_hashable a b : key_eqb a b = true -> hashable a = true /\ hashable b = true.
Proof. destruct a, b; cbn; intros H; try discriminate H; split; reflexivity. Qed.

(** Two keys that are not the same stay apart when one of them is replaced
    by a key that is the same as it. *)
Lemma key_eqb_apart k0 k k' :
  key_eqb k0 k = true -> key_eqb k k' = false -> key_eqb k0 k' = false.
Proof.
  intros H1 H2. destruct (key_eqb k0 k') eqn:E; [|reflexivity].
  rewrite <- H2. symmetry. apply (key_eqb_trans k k0 k'); [|exact E].
  now rewrite key_eqb_sym.
Qed.

Lemma lookup_append_same ss k e k' :
  key_eqb k k' = true ->
  sessions_lookup (sessions_append ss k e) k' =
  Some (match sessions_lookup ss k' with
        | Some es => es ++ [e]
        | None => [e]
        end)%list.
Proof.
  intros H. induction ss as [|[k0 es] t IH]; cbn [sessions_append sessions_lookup].
  - now rewrite H.
  - destruct (key_eqb k0 k) eqn:E0.
    + cbn [sessions_lookup]. now rewrite (key_eqb_trans k0 k k' E0 H).
    + cbn [sessions_lookup].
      assert (E1 : key_eqb k0 k' = false).
      { destruct (key_eqb k0 k') eqn:E; [|reflexivity].
        rewrite <- E0. symmetry. apply (key_eqb_trans k0 k' k E).
        now rewrite key_eqb_sym. }
      rewrite E1. exact IH.
Qed.

Lemma lookup_append_other ss k e k' :
  key_eqb k k' = false ->
  sessions_lookup (sessions_append ss k e) k' = sessions_lookup ss k'.
Proof.
  intros H. induction ss as [|[k0 es] t IH]; cbn [sessions_append sessions_lookup].
  - now rewrite H.
  - destruct (key_eqb k0 k) eqn:E0; cbn [sessions_lookup].
    + now rewrite (key_eqb_apart k0 k k' E0 H).
    + destruct (key_eqb k0 k'); [reflexivity | exact IH].
Qed.

(** What grouping leaves under a key: what was there, followed by the
    entries of the timeline that belong to the key, in timeline order. *)
Lemma group_by_sessions_lookup timeline :
  forall ss ss', group_by_sessions timeline ss = Ok ss' ->
  forall k,
    sessions_lookup ss' k =
    match filter (in_session k) timeline with
    | [] => sessions_lookup ss k
    | found =>
        Some ((match sessions_lookup ss k with Some es => es | None => [] end) ++ found)%list
    end.
Proof.
  induction timeline as [|e t IH]; cbn [group_by_sessions filter]; intros ss ss' G k.
  - now injection G as <-.
  - unfold in_session at 1. unfold unknown_session.
    destruct (eq_str (session_id e) "unknown") eqn:U; cbn [negb andb] in *.
    + exact (IH ss ss' G k).
    + destruct (hashable (session_id e)); [|discriminate G].
      rewrite (IH _ ss' G k).
      destruct (key_eqb (session_id e) k) eqn:E.
      * rewrite (lookup_append_same ss (session_id e) e k E).
        destruct (filter (in_session k) t) as [|x f];
          destruct (sessions_lookup ss k) as [es|]; cbn [app];
          rewrite <- ?app_assoc; reflexivity.
      * rewrite (lookup_append_other ss (session_id e) e k E). reflexivity.
Qed.

Lemma load_all_grouped jl jd sf_data ba_data xml infra dbg :
  load_all jl jd sf_data ba_data xml infra = Ok dbg ->
  group_by_sessions (unified_timeline dbg) [] = Ok (sessions dbg) /\
  load_smartflow_logs jl jd sf_data = Ok (smartflow_logs dbg) /\
  load_blockagent_logs jl ba_data = Ok (blockagent_logs dbg) /\
  unified_timeline dbg = build_unified_timeline (smartflow_logs dbg) (blockagent_logs dbg) /\
  smartflow_structure dbg = xml /\ blockagent_structure dbg = infra.
Proof.
  unfold load_all. intros H.
  destruct (load_smartflow_logs jl jd sf_data) as [sf|]; cbn [Py.bind] in H; [|discriminate H].
  destruct (load_blockagent_logs jl ba_data) as [ba|]; cbn [Py.bind] in H; [|discriminate H].
  destruct (group_by_sessions (build_unified_timeline sf ba) []) as [ss|] eqn:G;
    cbn [Py.bind] in H; [|discriminate H].
  injection H as <-. cbn. repeat split. exact G.
Qed.

Lemma session_timeline_filter jl jd sf_data ba_data xml infra dbg sid :
  load_all jl jd sf_data ba_data xml infra = Ok dbg ->
  hashable sid = true ->
  get_session_timeline dbg sid = Ok (filter (in_session sid) (unified_timeline dbg)).
Proof.
  intros H Hh. destruct (load_all_grouped _ _ _ _ _ _ _ H) as (G & _).
  unfold get_session_timeline. rewrite Hh.
  rewrite (group_by_sessions_lookup _ _ _ G sid). cbn [sessions_lookup].
  destruct (filter (in_session sid) (unified_timeline dbg)); reflexivity.
Qed.

(** X1.  In a loaded dataset the timeline of a session id is the unified
    timeline restricted to the entries of that session, in the same order;
    in particular it is empty for an id no entry carries and for the
    sentinel [unknown], and asking with an id that cannot be a dict key (a
    list or a dict) raises [TypeError]. *)
Theorem X1_session_timeline_is_a_filter :
  forall json_loads json_dumps smartflow_data blockagent_data xml infra dbg sid,
    load_all json_loads json_dumps smartflow_data blockagent_data xml infra = Ok dbg ->
    (hashable sid = true ->
     get_session_timeline dbg sid = Ok (filter (in_session sid) (unified_timeline dbg))) /\
    (hashable sid = false -> get_session_timeline dbg sid = Raise TypeError) /\
    get_session_timeline dbg (PStr "unknown") = Ok [].
Proof.
  intros jl jd sfd bad xml infra dbg sid H. split; [|split].
  - now apply (session_timeline_filter jl jd sfd bad xml infra).
  - intros Hh. unfold get_session_timeline. now rewrite Hh.
  - rewrite (session_timeline_filter jl jd sfd bad xml infra dbg (PStr "unknown") H eq_refl).
    f_equal. induction (unified_timeline dbg) as [|e t IH]; [reflexivity|].
    cbn [filter]. unfold in_session at 1, unknown_session.
    destruct (session_id e) as [| | |s| |]; cbn [eq_str negb andb key_eqb]; try exact IH.
    destruct (s =? "unknown"); cbn [negb andb]; exact IH.
Qed.

Lemma X1_session_timeline_is_a_filter_witness :
  exists dbg,
    load_all Json.loads (fun _ => "") two_source_flow two_source_agent None (PList [])
      = Ok dbg /\
    List.length (unified_timeline dbg) = 5%nat /\
    (exists e1 e2, get_session_timeline dbg flow_session = Ok [e1; e2] /\
                   content e1 = PStr "early 1760571668-000000000001105328-SR-000-000000000000DEN130-44144A80") /\
    get_session_timeline dbg (PList []) = Raise TypeError.
Proof.
  eexists. split; [vm_compute; reflexivity|].
  split; [reflexivity|].
  match goal with |- (exists e1 e2, get_session_timeline ?d _ = _ /\ _) /\ _ =>
    pose proof (X1_session_timeline_is_a_filter Json.loads (fun _ => "") two_source_flow
                  two_source_agent None (PList []) d) as P
  end.
  split.
  - destruct (P flow_session ltac:(vm_compute; reflexivity)) as (P1 & _).
    rewrite (P1 eq_refl). do 2 eexists. split; vm_compute; reflexivity.
  - destruct (P (PList []) ltac:(vm_compute; reflexivity)) as (_ & P2 & _).
    exact (P2 eq_refl).
Defined.

Lemma StronglySorted_filter {A} (R : A -> A -> Prop) (f : A -> bool) l :
  StronglySorted R l -> StronglySorted R (filter f l).
Proof.
  induction 1 as [|x t Hs IH Hx]; cbn [filter]; [constructor|].
  destruct (f x); [|exact IH]. constructor; [exact IH|].
  rewrite Forall_forall in *. intros y Hy. apply filter_In in Hy. apply Hx, Hy.
Qed.

Lemma filter_filter {A} (f g : A -> bool) l :
  filter f (filter g l) = filter (fun x => g x && f x) l.
Proof.
  induction l as [|x t IH]; [reflexivity|]. cbn [filter].
  destruct (g x); cbn [filter andb]; [destruct (f x)|]; now rewrite IH.
Qed.

Lemma filter_and {A} (f g : A -> bool) l :
  filter (fun x => f x && g x) l = filter f (filter g l).
Proof.
  induction l as [|x t IH]; [reflexivity|]. cbn [filter].
  destruct (g x); cbn [filter]; rewrite ?andb_true_r, ?andb_false_r;
    [destruct (f x)|]; now rewrite IH.
Qed.

(** X2.  In a loaded dataset every session timeline is in the order of the
    parsed timestamps, and entries of a session with the same parsed time
    stay in arrival order, those of the flow engine before those of the
    agent. *)
Theorem X2_session_timeline_sorted :
  forall json_loads json_dumps smartflow_data blockagent_data xml infra dbg sid es,
    load_all json_loads json_dumps smartflow_data blockagent_data xml infra = Ok dbg ->
    get_session_timeline dbg sid = Ok es ->
    StronglySorted (fun a b => (sort_key a <= sort_key b)%Z) es /\
    forall k,
      filter (fun e => (sort_key e =? k)%Z) es =
      filter (fun e => in_session sid e && (sort_key e =? k)%Z)
             (smartflow_logs dbg ++ blockagent_logs dbg)%list.
Proof.
  intros jl jd sfd bad xml infra dbg sid es H G.
  assert (Hh : hashable sid = true).
  { unfold get_session_timeline in G. destruct (hashable sid); [reflexivity | discriminate G]. }
  rewrite (session_timeline_filter jl jd sfd bad xml infra dbg sid H Hh) in G.
  injection G as <-.
  destruct (load_all_grouped _ _ _ _ _ _ _ H) as (_ & _ & _ & -> & _).
  destruct (timeline_order (smartflow_logs dbg) (blockagent_logs dbg)) as (_ & S & St & _).
  split.
  - now apply StronglySorted_filter.
  - intros k. rewrite filter_filter. rewrite !filter_and.
    now rewrite (St k).
Qed.

Lemma X2_session_timeline_sorted_witness :
  exists dbg es,
    load_all Json.loads (fun _ => "") two_source_flow two_source_agent None (PList [])
      = Ok dbg /\
    get_session_timeline dbg (PStr "agent-session") = Ok es /\
    StronglySorted (fun a b => (sort_key a <= sort_key b)%Z) es /\
    map content es = [PStr "welcome"; PStr "hello"].
Proof.
  do 2 eexists. split; [vm_compute; reflexivity|].
  split; [vm_compute; reflexivity|].
  split; [|reflexivity].
  eapply (X2_session_timeline_sorted Json.loads (fun _ => "") two_source_flow
            two_source_agent None (PList []) _ (PStr "agent-session"));
    vm_compute; reflexivity.
Defined.

Lemma sessions_append_keys ss k e k' :
  In k' (map fst (sessions_append ss k e)) -> In k' (map fst ss) \/ k' = k.
Proof.
  induction ss as [|[k0 es] t IH]; cbn [sessions_append map fst In].
  - intros [<-|[]]. now right.
  - destruct (key_eqb k0 k); cbn [map fst In]; [tauto|].
    intros [H|H]; [tauto|]. destruct (IH H); tauto.
Qed.

Lemma sessions_append_distinct ss k e :
  distinct_keys (map fst ss) -> distinct_keys (map fst (sessions_append ss k e)).
Proof.
  induction ss as [|[k0 es] t IH]; cbn [sessions_append map fst distinct_keys].
  - intros _. split; [constructor | exact I].
  - intros [H0 Ht]. destruct (key_eqb k0 k) eqn:E; cbn [map fst distinct_keys].
    + split; assumption.
    + split; [|now apply IH].
      rewrite Forall_forall in *. intros k' Hk'.
      destruct (sessions_append_keys t k e k' Hk') as [H| ->]; [now apply H0 | exact E].
Qed.

Lemma group_by_sessions_distinct timeline :
  forall ss ss', distinct_keys (map fst ss) ->
                 group_by_sessions timeline ss = Ok ss' -> distinct_keys (map fst ss').
Proof.
  induction timeline as [|e t IH]; cbn [group_by_sessions]; intros ss ss' D G.
  - now injection G as <-.
  - destruct (negb (eq_str (session_id e) "unknown")).
    + destruct (hashable (session_id e)); [|discriminate G].
      exact (IH _ _ (sessions_append_distinct ss _ e D) G).
    + exact (IH _ _ D G).
Qed.

Lemma group_by_sessions_hashable timeline :
  forall ss ss', group_by_sessions timeline ss = Ok ss' ->
  Forall (fun e => hashable (session_id e) = true) timeline.
Proof.
  induction timeline as [|e t IH]; cbn [group_by_sessions]; intros ss ss' G; [constructor|].
  destruct (negb (eq_str (session_id e) "unknown")) eqn:U.
  - destruct (hashable (session_id e)) eqn:Hh; [|discriminate G].
    constructor; [exact Hh | exact (IH _ _ G)].
  - constructor; [|exact (IH _ _ G)].
    destruct (session_id e); try discriminate U; reflexivity.
Qed.

Lemma sessions_lookup_key ss k es :
  sessions_lookup ss k = Some es -> exists k', In (k', es) ss /\ key_eqb k' k = true.
Proof.
  induction ss as [|[k0 es0] t IH]; cbn [sessions_lookup]; [discriminate|].
  destruct (key_eqb k0 k) eqn:E.
  - intros H. injection H as <-. exists k0. split; [now left | exact E].
  - intros H. destruct (IH H) as (k' & Hin & Hk). exists k'. split; [now right | exact Hk].
Qed.

Lemma distinct_lookup ss k es :
  distinct_keys (map fst ss) -> hashable k = true ->
  In (k, es) ss -> sessions_lookup ss k = Some es.
Proof.
  intros D Hh. induction ss as [|[k0 es0] t IH]; [intros []|].
  cbn [map fst distinct_keys] in D. destruct D as [D0 Dt].
  cbn [sessions_lookup]. intros [E|Hin].
  - injection E as -> ->. now rewrite (key_eqb_refl k Hh).
  - rewrite Forall_forall in D0.
    rewrite (D0 k (in_map fst t (k, es) Hin)). now apply IH.
Qed.

(** X3.  The session index of a loaded dataset lists every session once:
    no two listed ids are the same dict key, every listed session has at
    least one entry, and every entry of the unified timeline that does not
    carry the sentinel is in the timeline of a listed session. *)
Theorem X3_session_index_covers_timeline :
  forall json_loads json_dumps smartflow_data blockagent_data xml infra dbg,
    load_all json_loads json_dumps smartflow_data blockagent_data xml infra = Ok dbg ->
    distinct_keys (get_all_sessions dbg) /\
    (forall sid, In sid (get_all_sessions dbg) ->
       exists e es, get_session_timeline dbg sid = Ok (e :: es)) /\
    (forall e, In e (unified_timeline dbg) -> unknown_session e = false ->
       exists sid es, In sid (get_all_sessions dbg) /\
                      get_session_timeline dbg sid = Ok es /\ In e es).
Proof.
  intros jl jd sfd bad xml infra dbg H.
  destruct (load_all_grouped _ _ _ _ _ _ _ H) as (G & _).
  destruct (load_all_sessions_ok _ _ _ _ _ _ _ H) as (Hok & _).
  assert (D : distinct_keys (map fst (sessions dbg)))
    by exact (group_by_sessions_distinct _ [] _ I G).
  split; [exact D|]. split.
  - intros sid Hin. unfold get_all_sessions in Hin. apply in_map_iff in Hin.
    destruct Hin as ([k es] & <- & Hk). cbn [fst].
    assert (Hh : hashable k = true).
    { unfold sessions_ok in Hok. rewrite Forall_forall in Hok. exact (proj1 (Hok _ Hk)). }
    pose proof (distinct_lookup _ k es D Hh Hk) as L.
    rewrite (group_by_sessions_lookup _ _ _ G k) in L. cbn [sessions_lookup app] in L.
    rewrite (session_timeline_filter jl jd sfd bad xml infra dbg k H Hh).
    destruct (filter (in_session k) (unified_timeline dbg)) as [|e f]; [discriminate L|].
    now exists e, f.
  - intros e Hin Hu.
    pose proof (group_by_sessions_hashable _ _ _ G) as F. rewrite Forall_forall in F.
    pose proof (F e Hin) as Hh.
    assert (He : In e (filter (in_session (session_id e)) (unified_timeline dbg))).
    { apply filter_In. split; [exact Hin|]. unfold in_session.
      now rewrite Hu, (key_eqb_refl _ Hh). }
    pose proof (group_by_sessions_lookup _ _ _ G (session_id e)) as L.
    cbn [sessions_lookup app] in L.
    destruct (filter (in_session (session_id e)) (unified_timeline dbg)) as [|x f] eqn:Ef;
      [destruct He|].
    destruct (sessions_lookup_key _ _ _ L) as (k' & Hk' & Ek).
    destruct (key_eqb_hashable _ _ Ek) as (Hh' & _).
    exists k', (filter (in_session k') (unified_timeline dbg)). repeat split.
    + unfold get_all_sessions. exact (in_map fst _ _ Hk').
    + exact (session_timeline_filter jl jd sfd bad xml infra dbg k' H Hh').
    + apply filter_In. split; [exact Hin|]. unfold in_session.
      now rewrite Hu, key_eqb_sym, Ek.
Qed.

Lemma X3_session_index_covers_timeline_witness :
  exists dbg,
    load_all Json.loads (fun _ => "") two_source_flow two_source_agent None (PList [])
      = Ok dbg /\
    get_all_sessions dbg = [PStr "agent-session"; flow_session] /\
    distinct_keys (get_all_sessions dbg).
Proof.
  eexists. split; [vm_compute; reflexivity|]. split; [reflexivity|].
  eapply (X3_session_index_covers_timeline Json.loads (fun _ => "") two_source_flow
            two_source_agent None (PList [])).
  vm_compute. reflexivity.
Defined.

Lemma group_by_sessions_raises timeline :
  forall ss e, In e timeline -> hashable (session_id e) = false ->
  group_by_sessions timeline ss = Raise TypeError.
Proof.
  induction timeline as [|x t IH]; intros ss e Hin Hh; [destruct Hin|].
  cbn [group_by_sessions]. destruct Hin as [->|Hin].
  - rewrite Hh. destruct (session_id e); try discriminate Hh; reflexivity.
  - destruct (negb (eq_str (session_id x) "unknown")).
    + destruct (hashable (session_id x)); [|reflexivity]. exact (IH _ e Hin Hh).
    + exact (IH _ e Hin Hh).
Qed.

Lemma group_by_sessions_returns timeline :
  forall ss, Forall (fun e => hashable (session_id e) = true) timeline ->
  exists ss', group_by_sessions timeline ss = Ok ss'.
Proof.
  induction timeline as [|x t IH]; intros ss F; cbn [group_by_sessions]; [now eexists|].
  inversion F as [|? ? Hx Ht]; subst. rewrite Hx.
  destruct (negb (eq_str (session_id x) "unknown")); apply IH; exact Ht.
Qed.

(** X4.  Grouping fails exactly on a session id that cannot be a dict key:
    it returns when every entry of the timeline has an id that can be
    hashed, and it raises [TypeError] as soon as one entry has a list or a
    dict for its id (which the flow-engine adapter takes over from a message
    that is a mapping with such a [SESSION_ID]). *)
Theorem X4_grouping_needs_hashable_ids :
  forall timeline ss,
    (Forall (fun e => hashable (session_id e) = true) timeline ->
     exists ss', group_by_sessions timeline ss = Ok ss') /\
    (forall e, In e timeline -> hashable (session_id e) = false ->
     group_by_sessions timeline ss = Raise TypeError).
Proof.
  intros tl ss. split.
  - apply group_by_sessions_returns.
  - intros e. apply group_by_sessions_raises.
Qed.

Lemma X4_grouping_needs_hashable_ids_witness :
  (exists es e,
     load_smartflow_logs Json.loads (fun _ => "") list_session_batch = Ok es /\
     In e es /\ session_id e = PList [PInt 1] /\
     group_by_sessions es [] = Raise TypeError) /\
  load_all Json.loads (fun _ => "") list_session_batch no_transactions None (PList [])
    = Raise TypeError.
Proof.
  split; [|vm_compute; reflexivity].
  do 2 eexists. split; [vm_compute; reflexivity|].
  split; [left; reflexivity|]. split; [reflexivity|].
  eapply (proj2 (X4_grouping_needs_hashable_ids _ [])); [left; reflexivity | reflexivity].
Defined.

(** ** The export *)

Lemma mapM_Forall2 {A B} (f : A -> res B) l :
  forall bs, mapM f l = Ok bs -> Forall2 (fun a b => f a = Ok b) l bs.
Proof.
  induction l as [|a t IH]; cbn [mapM]; intros bs H.
  - injection H as <-. constructor.
  - destruct (f a) as [b|] eqn:Ea; cbn [Py.bind] in H; [|discriminate H].
    destruct (mapM f t) as [bs'|]; cbn [Py.bind] in H; [|discriminate H].
    injection H as <-. constructor; [exact Ea | now apply IH].
Qed.

Lemma mapM_returns {A B} (f : A -> res B) l :
  Forall (fun a => exists b, f a = Ok b) l -> exists bs, mapM f l = Ok bs.
Proof.
  induction 1 as [|a t (b & Hb) _ (bs & Hbs)]; cbn [mapM]; [now eexists|].
  rewrite Hb. cbn [Py.bind]. rewrite Hbs. cbn [Py.bind]. now eexists.
Qed.

(** X5.  The export of a loaded dataset never raises.  It lists exactly the
    sessions of the session index, in the order of the index; under each id
    it holds the entries of the unified timeline that carry this id, in
    timeline order and at least one, with a summary whose counts by source
    add up to the number of these entries; and it carries the two
    infrastructure structures as they were loaded. *)
Theorem X5_export_lists_every_session :
  forall json_loads json_dumps smartflow_data blockagent_data xml infra dbg,
    load_all json_loads json_dumps smartflow_data blockagent_data xml infra = Ok dbg ->
    exists ex,
      export_to_json dbg = Ok ex /\
      map fst (exp_sessions ex) = get_all_sessions dbg /\
      exp_blockagent ex = infra /\ exp_smartflow ex = xml /\
      forall sid se, In (sid, se) (exp_sessions ex) ->
        exp_entries se = filter (in_session sid) (unified_timeline dbg) /\
        exp_entries se <> [] /\
        sum_session_id (exp_summary se) = sid /\
        total_entries (exp_summary se) = List.length (exp_entries se) /\
        (smartflow_entries (exp_summary se) + blockagent_entries (exp_summary se))%nat
          = List.length (exp_entries se).
Proof.
  intros jl jd sfd bad xml infra dbg H.
  destruct (load_all_grouped _ _ _ _ _ _ _ H) as (G & _ & _ & _ & Hx & Hi).
  destruct (load_all_sessions_ok _ _ _ _ _ _ _ H) as (Hok & _).
  assert (D : distinct_keys (map fst (sessions dbg)))
    by exact (group_by_sessions_distinct _ [] _ I G).
  assert (Hk : forall sid, In sid (get_all_sessions dbg) ->
            hashable sid = true /\
            filter (in_session sid) (unified_timeline dbg) <> []).
  { intros sid Hin. unfold get_all_sessions in Hin. apply in_map_iff in Hin.
    destruct Hin as ([k es] & <- & Hin). cbn [fst].
    assert (Hh : hashable k = true).
    { unfold sessions_ok in Hok. rewrite Forall_forall in Hok. exact (proj1 (Hok _ Hin)). }
    split; [exact Hh|].
    pose proof (distinct_lookup _ k es D Hh Hin) as L.
    rewrite (group_by_sessions_lookup _ _ _ G k) in L. cbn [sessions_lookup app] in L.
    destruct (filter (in_session k) (unified_timeline dbg)); [discriminate L | discriminate]. }
  assert (Hs : forall sid, In sid (get_all_sessions dbg) ->
            get_session_timeline dbg sid =
            Ok (filter (in_session sid) (unified_timeline dbg))).
  { intros sid Hin.
    exact (session_timeline_filter jl jd sfd bad xml infra dbg sid H (proj1 (Hk sid Hin))). }
  unfold export_to_json.
  destruct (mapM_returns
              (fun session_id =>
                 entries <- get_session_timeline dbg session_id ;;
                 summary <- get_conversation_summary dbg session_id ;;
                 Ok (session_id, {| exp_entries := entries; exp_summary := summary |}))
              (get_all_sessions dbg)) as (per & Hper).
  { apply Forall_forall. intros sid Hin. unfold get_conversation_summary.
    rewrite (Hs sid Hin). cbn [Py.bind]. now eexists. }
  rewrite Hper. cbn [Py.bind]. eexists. split; [reflexivity|].
  cbn [exp_sessions exp_blockagent exp_smartflow].
  pose proof (mapM_Forall2 _ _ _ Hper) as F2.
  split; [|split; [exact Hi | split; [exact Hx|]]].
  - clear Hper Hs Hk. induction F2 as [|sid [sid' se] l l' Hf _ IH]; [reflexivity|].
    cbn [map fst]. f_equal; [|exact IH].
    destruct (get_session_timeline dbg sid); cbn [Py.bind] in Hf; [|discriminate Hf].
    destruct (get_conversation_summary dbg sid); cbn [Py.bind] in Hf; [|discriminate Hf].
    now injection Hf as <- _.
  - intros sid se Hin.
    destruct (mapM_In _ _ _ Hper _ Hin) as (k & Hkin & Hf).
    unfold get_conversation_summary in Hf. rewrite (Hs k Hkin) in Hf. cbn [Py.bind] in Hf.
    injection Hf as <- <-.
    cbn [exp_entries exp_summary sum_session_id total_entries smartflow_entries
         blockagent_entries].
    split; [reflexivity|]. split; [exact (proj2 (Hk k Hkin))|].
    split; [reflexivity|]. split; [reflexivity|]. apply count_by_source.
Qed.

Lemma X5_export_lists_every_session_witness :
  exists dbg,
    load_all Json.loads (fun _ => "") two_source_flow two_source_agent None (PList [])
      = Ok dbg /\
    exists ex,
      export_to_json dbg = Ok ex /\
      map fst (exp_sessions ex) = get_all_sessions dbg /\
      exp_blockagent ex = PList [] /\ exp_smartflow ex = None /\
      forall sid se, In (sid, se) (exp_sessions ex) ->
        exp_entries se = filter (in_session sid) (unified_timeline dbg) /\
        exp_entries se <> [] /\
        sum_session_id (exp_summary se) = sid /\
        total_entries (exp_summary se) = List.length (exp_entries se) /\
        (smartflow_entries (exp_summary se) + blockagent_entries (exp_summary se))%nat
          = List.length (exp_entries se).
Proof.
  eexists. split; [vm_compute; reflexivity|].
  eapply (X5_export_lists_every_session Json.loads (fun _ => "") two_source_flow
            two_source_agent None (PList [])).
  vm_compute. reflexivity.
Defined.

(** ** The shape of the adapters' output *)

Lemma flag_code_metadata self code : metadata (flag_code self code) = metadata self.
Proof.
  destruct code as [c|]; cbn [flag_code]; [|reflexivity].
  destruct (400 <=? c)%Z; reflexivity.
Qed.

Lemma detect_error_metadata self cs : metadata (detect_error self cs) = metadata self.
Proof.
  unfold detect_error.
  set (self1 := if is_dict_or_list (content self) then _ else self).
  assert (S1 : metadata self1 = metadata self).
  { subst self1. destruct (is_dict_or_list (content self)); [|reflexivity].
    match goal with |- context[if ?c then _ else _] => destruct c end;
      [apply flag_code_metadata | reflexivity]. }
  destruct (negb (has_error self1)); [|exact S1].
  destruct (status_fallback cs); [|exact S1].
  now rewrite flag_code_metadata.
Qed.

Lemma new_LogEntry_metadata jl ts src sid lt c b t tr r mt md :
  metadata (new_LogEntry jl ts src sid lt c b t tr r mt md) =
  match md with PNone => PDict [] | _ => md end.
Proof.
  unfold new_LogEntry, __post_init__, _detect_important_fields.
  rewrite detect_error_metadata.
  match goal with |- context[if ?g then _ else _] => destruct g end;
    destruct md; reflexivity.
Qed.

Lemma detect_gpt_roles p l i r c :
  detect_gpt p l i = Ok (r, c) ->
  (r = PNone /\ c = PNone) \/ r = PStr "user" \/
  (r = PStr "assistant" /\ truthy c = true).
Proof.
  unfold detect_gpt. intros H.
  destruct (truthy p); [|injection H as <- <-; now left].
  destruct p as [| | |pid| |]; try discriminate H.
  destruct (startswith pid "EXTCALL_"); [|injection H as <- <-; now left].
  match type of H with Py.bind ?u _ = _ => destruct u as [[r0 c0]|] eqn:U end;
    cbn [Py.bind] in H; [|discriminate H].
  assert (U0 : (r0 = PNone /\ c0 = PNone) \/ r0 = PStr "user").
  { destruct (eq_str l "IpdOut" && truthy i).
    - destruct (get i "IpdMsg" (PDict [])) as [im|]; cbn [Py.bind] in U; [|discriminate U].
      destruct im as [| | | | |im]; try (injection U as <- <-; now left).
      destruct (dict_get im "body" (PDict [])) as [| | | | |body];
        try (injection U as <- <-; now left).
      destruct (dict_has body "user_message"); injection U as <- <-; [now right | now left].
    - injection U as <- <-. now left. }
  destruct (negb (truthy r0) && (eq_str l "IpdIn" || eq_str l "PluginTran") && truthy i).
  - destruct (get i "ai_response" (PStr "")) as [direct|]; cbn [Py.bind] in H;
      [|discriminate H].
    match type of H with Py.bind ?u _ = _ => destruct u as [ai|] end;
      cbn [Py.bind] in H; [|discriminate H].
    destruct (truthy ai) eqn:T; injection H as <- <-.
    + right. right. now split.
    + destruct U0 as [U0|U0]; [now left | right; now left].
  - injection H as <- <-. destruct U0 as [U0|U0]; [now left | right; now left].
Qed.

Lemma smartflow_entry_shape jl jd x e :
  smartflow_entry jl jd x = Ok e -> exists d, x = PDict d /\ flow_entry_of d e.
Proof.
  intros H. destruct x as [| | | | |d];
    try (unfold smartflow_entry, _extract_session_id_from_smartflow in H;
         cbn [get Py.bind] in H; discriminate H).
  exists d. split; [reflexivity|].
  unfold smartflow_entry in H.
  destruct (_extract_session_id_from_smartflow jl (PDict d)) as [sid|];
    cbn [Py.bind] in H; [|discriminate H].
  cbn [get Py.bind] in H.
  destruct (decode_message jl jd _ _) as [dm|]; cbn [Py.bind] in H; [|discriminate H].
  match type of H with Py.bind ?u _ = _ => destruct u as [pid|] end;
    cbn [Py.bind] in H; [|discriminate H].
  match type of H with Py.bind ?u _ = _ => destruct u as [lt|] end;
    cbn [Py.bind] in H; [|discriminate H].
  match type of H with Py.bind ?u _ = _ => destruct u as [in_inner|] end;
    cbn [Py.bind] in H; [|discriminate H].
  match type of H with Py.bind ?u _ = _ => destruct u as [in_outer|] end;
    cbn [Py.bind] in H; [|discriminate H].
  destruct (detect_gpt pid lt (inner_parsed_data dm)) as [[r c]|] eqn:G;
    cbn [Py.bind] in H; [|discriminate H].
  injection H as <-.
  match goal with |- flow_entry_of _ (new_LogEntry ?j ?ts ?src ?sd ?l ?cc ?b ?t ?tr ?rr ?mt ?md) =>
    pose proof (new_LogEntry_fields j ts src sd l cc b t tr rr mt md) as F;
    pose proof (new_LogEntry_metadata j ts src sd l cc b t tr rr mt md) as M
  end.
  cbv zeta in F. destruct F as (_ & F2 & _ & F4 & F5 & F6 & F7 & F8 & F9 & F10).
  unfold flow_entry_of. rewrite F2, F4, F5, F6, F7, F8, F9, F10, M.
  pose proof (detect_gpt_roles _ _ _ _ _ G) as R.
  repeat split.
  - destruct (truthy lt) eqn:T; [exact T | reflexivity].
  - destruct R as [(-> & _)|[->|(-> & _)]]; auto.
  - intros ->. destruct R as [(R & _)|[R|(_ & R)]]; try discriminate R.
    now rewrite R.
  - eexists. split; [reflexivity|]. split; [reflexivity|]. split.
    + repeat constructor.
    + split; reflexivity.
Qed.

(** X6.  When the flow-engine adapter returns, it gives one entry per record
    of the array, in the order of the records, and every record is a mapping.
    Each entry has the source [smartflow], no block, turn or transaction id,
    the message type of its record ([unknown] when absent), a log type that
    is never empty ([system_log] when none was found), a role that is
    [None], [user] or [assistant] (a non-empty content with [assistant]), and
    a metadata mapping with exactly the ten keys of the adapter, where the
    host, role, path, id, ANI and DNIS are those of the record and
    [agent_type] is [gpt] exactly when a role was set. *)
Theorem X6_flow_entries_shape :
  forall json_loads json_dumps records es,
    load_smartflow_logs json_loads json_dumps (PList records) = Ok es ->
    Forall2 (fun x e => exists d, x = PDict d /\ flow_entry_of d e) records es.
Proof.
  intros jl jd records es H. unfold load_smartflow_logs in H. cbn [iter Py.bind] in H.
  pose proof (mapM_Forall2 _ _ _ H) as F. clear H.
  induction F as [|x e l l' Hx _ IH]; constructor; [|exact IH].
  exact (smartflow_entry_shape jl jd x e Hx).
Qed.

Lemma X6_flow_entries_shape_witness :
  exists es,
    load_smartflow_logs Json.loads (fun _ => "") gpt_answer_batch = Ok es /\
    map role es = [PNone; PStr "assistant"; PNone] /\
    map content es = [PStr "call started"; PStr "hello"; PStr ""] /\
    Forall2 (fun x e => exists d, x = PDict d /\ flow_entry_of d e)
      [PDict [("message", PStr "call started"); ("host", PStr "h1")];
       PDict [("message",
               PStr (qq "{'message': '{\'PluginId\':\'EXTCALL_3\',\'LogType\':\'IpdIn\',\'ai_response\':\'hello\'}'}"));
              ("message_type", PStr "json")];
       PDict []] es.
Proof.
  eexists. split; [vm_compute; reflexivity|]. split; [reflexivity|]. split; [reflexivity|].
  eapply (X6_flow_entries_shape Json.loads (fun _ => "")).
  vm_compute. reflexivity.
Defined.

Lemma extract_opaque jl d :
  opaque jl (dict_get d "message" (PStr "")) = true ->
  exists sid, _extract_session_id_from_smartflow jl (PDict d) = Ok sid.
Proof.
  intros O. unfold _extract_session_id_from_smartflow. cbn [get Py.bind].
  destruct (dict_get d "message" (PStr "")) as [| | |s|l|m]; cbn [Py.bind];
    try (now eexists).
  - cbn [opaque] in O.
    destruct (startswith (strip s) "{"); cbn [negb orb] in O; cbn [Py.bind].
    + destruct (jl s); [discriminate O|]. cbn [Py.bind].
      destruct (Re.search Pat.session_id s); now eexists.
    + destruct (Re.search Pat.session_id s); now eexists.
  - destruct (truthy (dict_get m "SESSION_ID" (PStr ""))); now eexists.
Qed.

Lemma decode_opaque jl jd message ts :
  opaque jl message = true ->
  decode_message jl jd message ts =
  Ok {| parsed_data := PNone; inner_parsed_data := PNone; actual_timestamp := ts;
        message_content := message; plugin_id := PStr ""; d_log_type := PStr "" |}.
Proof.
  intros O. unfold decode_message. destruct message; try reflexivity.
  cbn [opaque] in O. destruct (startswith (strip s) "{"); [|reflexivity].
  destruct (jl s); [discriminate O | reflexivity].
Qed.

Lemma detect_gpt_no_inner p l :
  truthy p = false \/ (exists s, p = PStr s) -> detect_gpt p l PNone = Ok (PNone, PNone).
Proof.
  intros [F|(s & ->)]; unfold detect_gpt.
  - now rewrite F.
  - destruct (truthy (PStr s)); [|reflexivity].
    destruct (startswith s "EXTCALL_"); [|reflexivity].
    rewrite andb_false_r. cbn [Py.bind truthy negb andb].
    rewrite andb_false_r. reflexivity.
Qed.

(** X7.  A record whose message cannot be opened as JSON is kept as it is:
    when the plugin id of the record is empty or a text, the adapter returns
    an entry whose content is the message unchanged, whose timestamp is that
    of the record, whose role is [None] and whose log type is the one of the
    record ([system_log] when it has none). *)
Theorem X7_opaque_message_kept :
  forall json_loads json_dumps d,
    opaque json_loads (dict_get d "message" (PStr "")) = true ->
    truthy (top_level d "PluginId" "pluginId" "plugin_id") = false \/
      (exists s, top_level d "PluginId" "pluginId" "plugin_id" = PStr s) ->
    exists e,
      smartflow_entry json_loads json_dumps (PDict d) = Ok e /\
      content e = dict_get d "message" (PStr "") /\
      timestamp e = dict_get d "timestamp" (PStr "") /\
      role e = PNone /\
      log_type e = (if truthy (top_level d "LogType" "logType" "log_type")
                    then top_level d "LogType" "logType" "log_type"
                    else PStr "system_log").
Proof.
  intros jl jd d O P.
  destruct (extract_opaque jl d O) as (sid & Hs).
  unfold smartflow_entry. rewrite Hs. cbn [get Py.bind].
  rewrite (decode_opaque jl jd _ _ O). cbn [Py.bind plugin_id d_log_type truthy
    inner_parsed_data parsed_data String.eqb negb actual_timestamp message_content].
  unfold get3. cbn [get Py.bind]. fold (top_level d "PluginId" "pluginId" "plugin_id").
  fold (top_level d "LogType" "logType" "log_type").
  rewrite (detect_gpt_no_inner _ _ P). cbn [Py.bind truthy].
  eexists. split; [reflexivity|].
  match goal with |- context[new_LogEntry ?j ?ts ?src ?sd ?l ?cc ?b ?t ?tr ?rr ?mt ?md] =>
    pose proof (new_LogEntry_fields j ts src sd l cc b t tr rr mt md) as F
  end.
  cbv zeta in F. destruct F as (F1 & _ & _ & F4 & F5 & _ & _ & _ & F9 & _).
  rewrite F1, F4, F5, F9. repeat split.
Qed.
Lemma X7_opaque_message_kept_witness :
  exists e,
    smartflow_entry Json.loads (fun _ => "")
      (PDict [("message", PStr "{not json"); ("timestamp", PStr "2025-01-01T00:00:01.000Z");
              ("PluginId", PStr "EXTCALL_1"); ("LogType", PStr "IpdIn")]) = Ok e /\
    content e = PStr "{not json" /\
    timestamp e = PStr "2025-01-01T00:00:01.000Z" /\
    role e = PNone /\
    log_type e = PStr "IpdIn".
Proof.
  apply (X7_opaque_message_kept Json.loads (fun _ => "")
           [("message", PStr "{not json"); ("timestamp", PStr "2025-01-01T00:00:01.000Z");
            ("PluginId", PStr "EXTCALL_1"); ("LogType", PStr "IpdIn")]).
  - vm_compute. reflexivity.
  - right. eexists. vm_compute. reflexivity.
Defined.

(** ** What a match spans *)

Lemma str_app_assoc (a b c : string) : (a ++ b) ++ c = a ++ (b ++ c).
Proof. induction a as [|x a IH]; cbn; [reflexivity | now rewrite IH]. Qed.

Lemma str_app_length (a b : string) :
  String.length (a ++ b) = (String.length a + String.length b)%nat.
Proof. induction a as [|x a IH]; cbn; [reflexivity | now rewrite IH]. Qed.

Lemma consumed_app p s : Re.consumed (p ++ s) s = p.
Proof.
  unfold Re.consumed. rewrite str_app_length.
  replace (String.length p + String.length s - String.length s)%nat
    with (String.length p) by lia.
  induction p as [|x p IH]; cbn.
  - destruct s; reflexivity.
  - now rewrite IH.
Qed.

Lemma m_consumes {A} (r : Re.regex) :
  forall s c (k : string -> Re.caps -> option A) x,
    Re.m r s c k = Some x ->
    exists p s' c', s = p ++ s' /\ (min_len r <= String.length p)%nat /\ k s' c' = Some x.
Proof.
  induction r as [|p|a IHa b IHb|a IHa b IHb|a IHa|n a IHa]; intros s c k x H;
    cbn [Re.m min_len] in *.
  - exists "", s, c. repeat split; [apply Nat.le_0_l | exact H].
  - destruct s as [|ch t]; [discriminate H|].
    destruct (p ch); [|discriminate H].
    exists (String ch ""), t, c. repeat split; [cbn; lia | exact H].
  - destruct (IHa _ _ _ _ H) as (p1 & s1 & c1 & -> & L1 & H1).
    destruct (IHb _ _ _ _ H1) as (p2 & s2 & c2 & -> & L2 & H2).
    exists (p1 ++ p2), s2, c2. rewrite str_app_assoc, str_app_length.
    repeat split; [lia | exact H2].
  - destruct (Re.m a s c k) as [y|] eqn:E.
    + injection H as ->. destruct (IHa _ _ _ _ E) as (p1 & s1 & c1 & -> & L1 & H1).
      exists p1, s1, c1. repeat split; [lia | exact H1].
    + destruct (IHb _ _ _ _ H) as (p1 & s1 & c1 & -> & L1 & H1).
      exists p1, s1, c1. repeat split; [lia | exact H1].
  - revert H. generalize (String.length s). intros n. revert s c.
    induction n as [|n IHn]; intros s c H.
    + exists "", s, c. repeat split; [apply Nat.le_0_l | exact H].
    + match type of H with match ?t with _ => _ end = _ => destruct t as [y|] eqn:E end.
      * injection H as ->.
        destruct (IHa _ _ _ _ E) as (p1 & s1 & c1 & -> & _ & H1).
        destruct (String.length s1 <? String.length (p1 ++ s1))%nat; [|discriminate H1].
        destruct (IHn _ _ H1) as (p2 & s2 & c2 & -> & _ & H2).
        exists (p1 ++ p2), s2, c2. rewrite str_app_assoc.
        repeat split; [apply Nat.le_0_l | exact H2].
      * exists "", s, c. repeat split; [apply Nat.le_0_l | exact H].
  - destruct (IHa _ _ _ _ H) as (p1 & s1 & c1 & -> & L1 & H1).
    exists p1, s1, ((n, Re.consumed (p1 ++ s1) s1) :: c1). repeat split; [exact L1 | exact H1].
Qed.

Lemma search_from_consumes r : forall s pos mo,
  Re.search_from r s pos = Some mo ->
  exists pre, s = pre ++ Re.m_text mo ++ Re.m_rest mo /\
              (min_len r <= String.length (Re.m_text mo))%nat.
Proof.
  induction s as [|ch t IH]; intros pos mo H; cbn [Re.search_from] in H.
  - destruct (Re.match_here r "" pos) as [mo'|] eqn:E; [|discriminate H].
    injection H as ->. unfold Re.match_here in E.
    destruct (m_consumes r _ _ _ _ E) as (p & s' & c' & Hs & L & Hk).
    injection Hk as <-. cbn [Re.m_text Re.m_rest]. exists "".
    destruct p; [|discriminate Hs]. destruct s'; [|discriminate Hs].
    change (Re.consumed "" "") with "". split; [reflexivity | exact L].
  - destruct (Re.match_here r (String ch t) pos) as [mo'|] eqn:E.
    + injection H as ->. unfold Re.match_here in E.
      destruct (m_consumes r _ _ _ _ E) as (p & s' & c' & Hs & L & Hk).
      injection Hk as <-. cbn [Re.m_text Re.m_rest]. exists "".
      rewrite Hs. rewrite consumed_app. split; [reflexivity | exact L].
    + destruct (IH _ _ H) as (pre & -> & L).
      exists (String ch pre). split; [reflexivity | exact L].
Qed.

Lemma prefix_refl s : String.prefix s s = true.
Proof. induction s as [|c s IH]; cbn; [reflexivity|]. destruct (ascii_dec c c); congruence. Qed.

Lemma search_in_text r s mo :
  Re.search r s = Some mo ->
  contains s (Re.m_text mo) = true /\ (min_len r <= String.length (Re.m_text mo))%nat.
Proof.
  unfold Re.search. intros H.
  destruct (search_from_consumes r s 0 mo H) as (pre & -> & L). split; [|exact L].
  apply contains_app_r, contains_prefix, prefix_app, prefix_refl.
Qed.

Lemma long_truthy t : (22 <= String.length t)%nat -> truthy (PStr t) = true.
Proof. destruct t; cbn; [lia | reflexivity]. Qed.

(** X9.  The session id the flow-engine adapter gives a record is never
    empty.  For a text message it is the sentinel [unknown] or a piece of at
    least 22 characters of the message, or of the nested message of the JSON
    object the message holds; for a message that is a mapping it is the
    sentinel or the [SESSION_ID] of the mapping. *)
Theorem X9_session_id_is_from_the_message :
  forall json_loads d sid,
    _extract_session_id_from_smartflow json_loads (PDict d) = Ok sid ->
    truthy sid = true /\
    (forall s, dict_get d "message" (PStr "") = PStr s ->
       sid = PStr "unknown" \/
       exists t, sid = PStr t /\ (22 <= String.length t)%nat /\ session_text json_loads s t) /\
    (forall m, dict_get d "message" (PStr "") = PDict m ->
       sid = PStr "unknown" \/ sid = dict_get m "SESSION_ID" (PStr "")).
Proof.
  intros jl d sid H.
  assert (L22 : min_len Pat.session_id = 22%nat) by reflexivity.
  unfold _extract_session_id_from_smartflow in H. cbn [get Py.bind] in H.
  destruct (dict_get d "message" (PStr "")) as [| | |s|l|m] eqn:M; cbn [Py.bind] in H;
    try (injection H as <-; split; [reflexivity | split; intros ? [=]]).
  - assert (Direct : forall found, Re.search Pat.session_id s = found ->
              match found with
              | Some f => Ok (PStr (Re.m_text f))
              | None => Ok (PStr "unknown")
              end = Ok sid ->
              truthy sid = true /\
              (sid = PStr "unknown" \/
               exists t, sid = PStr t /\ (22 <= String.length t)%nat /\ session_text jl s t)).
    { intros [f|] Hf E; injection E as <-; [|split; [reflexivity | now left]].
      destruct (search_in_text _ _ _ Hf) as (C & L). rewrite L22 in L.
      split; [now apply long_truthy|]. right. exists (Re.m_text f).
      split; [reflexivity|]. split; [exact L | now left]. }
    assert (Goal' : truthy sid = true /\
              (sid = PStr "unknown" \/
               exists t, sid = PStr t /\ (22 <= String.length t)%nat /\ session_text jl s t)).
    { destruct (startswith (strip s) "{"); [|exact (Direct _ eq_refl H)].
      destruct (jl s) as [nested|] eqn:J; [|exact (Direct _ eq_refl H)].
      destruct (get nested "message" (PStr "")) as [nm|] eqn:N; cbn [Py.bind] in H;
        [|discriminate H].
      destruct (truthy nm); [|exact (Direct _ eq_refl H)].
      destruct nm as [| | |inner| |]; cbn [re_search Py.bind] in H; try discriminate H.
      destruct (Re.search Pat.session_id inner) as [f|] eqn:Hf; cbn [option_map] in H;
        [|exact (Direct _ eq_refl H)].
      injection H as <-. destruct (search_in_text _ _ _ Hf) as (C & L). rewrite L22 in L.
      split; [now apply long_truthy|]. right. exists (Re.m_text f).
      split; [reflexivity|]. split; [exact L|]. right. now exists nested, inner. }
    destruct Goal' as (G1 & G2). split; [exact G1|]. split.
    + intros s0 E. injection E as <-. exact G2.
    + intros ? [=].
  - destruct (truthy (dict_get m "SESSION_ID" (PStr ""))) eqn:T; injection H as <-.
    + split; [exact T|]. split; [intros ? [=]|]. intros m0 E. injection E as <-. now right.
    + split; [reflexivity|]. split; [intros ? [=]|]. intros m0 E. now left.
Qed.
Lemma X9_session_id_is_from_the_message_witness :
  truthy flow_session = true /\
  (forall s,
     dict_get [("message", PStr "late 1760571668-000000000001105328-SR-000-000000000000DEN130-44144A80")]
       "message" (PStr "") = PStr s ->
     flow_session = PStr "unknown" \/
     exists t, flow_session = PStr t /\ (22 <= String.length t)%nat /\
               session_text Json.loads s t) /\
  (forall m,
     dict_get [("message", PStr "late 1760571668-000000000001105328-SR-000-000000000000DEN130-44144A80")]
       "message" (PStr "") = PDict m ->
     flow_session = PStr "unknown" \/ flow_session = dict_get m "SESSION_ID" (PStr "")).
Proof.
  apply (X9_session_id_is_from_the_message Json.loads
           [("message", PStr "late 1760571668-000000000001105328-SR-000-000000000000DEN130-44144A80")]).
  vm_compute. reflexivity.
Defined.

Lemma mapM_raises {A B} (f : A -> res B) l x :
  In x l -> (exists e, f x = Raise e) -> exists e, mapM f l = Raise e.
Proof.
  induction l as [|a t IH]; intros Hin Hx; [destruct Hin|]. cbn [mapM].
  destruct Hin as [->|Hin].
  - destruct Hx as (e & ->). now exists e.
  - destruct (f a) as [b|e]; cbn [Py.bind]; [|now exists e].
    destruct (IH Hin Hx) as (e & ->). now exists e.
Qed.

Lemma smartflow_entry_mapping jl jd x :
  is_mapping x = false -> smartflow_entry jl jd x = Raise AttributeError.
Proof. destruct x; intros H; try reflexivity; discriminate H. Qed.

Lemma blockagent_entry_mapping jl sid an av x :
  is_mapping x = false -> blockagent_entry jl sid an av x = Raise AttributeError.
Proof. destruct x; intros H; try reflexivity; discriminate H. Qed.

Lemma blockagent_entry_raises jl sid an av x e :
  blockagent_entry jl sid an av x = Raise e -> e = AttributeError.
Proof.
  destruct x; intros [=]; congruence.
Qed.

Lemma mapM_raises_with {A B} (f : A -> res B) (P : exn -> Prop) l :
  (forall a e, f a = Raise e -> P e) -> forall e, mapM f l = Raise e -> P e.
Proof.
  intros Hf. induction l as [|a t IH]; cbn [mapM]; intros e H; [discriminate H|].
  destruct (f a) as [b|e'] eqn:E; cbn [Py.bind] in H.
  - destruct (mapM f t) as [bs|e'']; cbn [Py.bind] in H; [discriminate H|].
    injection H as <-. now apply IH.
  - injection H as <-. exact (Hf _ _ E).
Qed.

(** X8.  Neither adapter returns entries from a log that is not made of
    mappings.  The flow-engine adapter raises when one element of the array
    is not a mapping ([AttributeError] when it is the first element), and
    raises [TypeError] on a log that is [null], a boolean or a number.  The
    agent adapter raises [AttributeError] on a document that is not a
    mapping and on a transaction that is not a mapping, and whatever it
    raises is an [AttributeError] or a [TypeError]. *)
Theorem X8_adapters_reject_non_mappings :
  forall json_loads json_dumps,
    (forall records x, In x records -> is_mapping x = false ->
       exists e, load_smartflow_logs json_loads json_dumps (PList records) = Raise e) /\
    (forall x rest, is_mapping x = false ->
       load_smartflow_logs json_loads json_dumps (PList (x :: rest)) = Raise AttributeError) /\
    (forall data, is_dict_or_list data = false -> (forall s, data <> PStr s) ->
       load_smartflow_logs json_loads json_dumps data = Raise TypeError) /\
    (forall data, is_mapping data = false ->
       load_blockagent_logs json_loads data = Raise AttributeError) /\
    (forall d txns x, dict_get d "transactions" (PList []) = PList txns ->
       In x txns -> is_mapping x = false ->
       load_blockagent_logs json_loads (PDict d) = Raise AttributeError) /\
    (forall data e, load_blockagent_logs json_loads data = Raise e ->
       e = AttributeError \/ e = TypeError).
Proof.
  intros jl jd. repeat split.
  - intros records x Hin Hx. unfold load_smartflow_logs. cbn [iter Py.bind].
    apply (mapM_raises _ records x Hin). exists AttributeError.
    now apply smartflow_entry_mapping.
  - intros x rest Hx. unfold load_smartflow_logs. cbn [iter Py.bind mapM].
    now rewrite (smartflow_entry_mapping jl jd x Hx).
  - intros data Hd Hs. destruct data; try reflexivity; try discriminate Hd.
    now destruct (Hs s).
  - intros data Hd. destruct data; try reflexivity; discriminate Hd.
  - intros d txns x Ht Hin Hx. unfold load_blockagent_logs. cbn [get Py.bind].
    rewrite Ht.
    match goal with |- Py.bind ?u _ = _ => destruct u as [[an av]|e] eqn:U end;
      cbn [Py.bind iter].
    + destruct (mapM_raises (blockagent_entry jl (dict_get d "session_id" (PStr "unknown")) an av)
                  txns x Hin) as (e & He).
      { exists AttributeError. now apply blockagent_entry_mapping. }
      rewrite He. f_equal.
      exact (mapM_raises_with _ (fun e => e = AttributeError) txns
               (blockagent_entry_raises jl _ an av) e He).
    + f_equal. destruct (truthy (dict_get d "agents" (PDict []))); [|discriminate U].
      destruct (dict_get d "agents" (PDict [])) as [| | | | |[|[k a] rest]];
        try (injection U as <-; reflexivity).
      destruct a; cbn [get Py.bind] in U; try (injection U as <-; reflexivity).
      discriminate U.
  - intros data e H. destruct data as [| | | | |d]; try (injection H as <-; now left).
    unfold load_blockagent_logs in H. cbn [get Py.bind] in H.
    match type of H with Py.bind ?u _ = _ => destruct u as [[an av]|e'] eqn:U end;
      cbn [Py.bind] in H.
    + destruct (iter (dict_get d "transactions" (PList []))) as [txns|e'] eqn:I;
        cbn [Py.bind] in H.
      * left. exact (mapM_raises_with _ (fun e => e = AttributeError) txns
                       (blockagent_entry_raises jl _ an av) e H).
      * injection H as <-. right.
        destruct (dict_get d "transactions" (PList [])); try discriminate I;
          injection I as <-; reflexivity.
    + injection H as <-. left. destruct (truthy (dict_get d "agents" (PDict []))); [|discriminate U].
      destruct (dict_get d "agents" (PDict [])) as [| | | | |[|[k a] rest]];
        try (injection U as <-; reflexivity).
      destruct a; cbn [get Py.bind] in U; try (injection U as <-; reflexivity).
      discriminate U.
Qed.

Lemma X8_adapters_reject_non_mappings_witness :
  (exists e, load_smartflow_logs Json.loads (fun _ => "")
               (PList [PDict [("message", PStr "ok")]; PStr "a line of text"]) = Raise e) /\
  load_blockagent_logs Json.loads
    (PDict [("session_id", PStr "s1"); ("transactions", PList [PDict []; PInt 3])])
    = Raise AttributeError.
Proof.
  split.
  - apply (proj1 (X8_adapters_reject_non_mappings Json.loads (fun _ => ""))
             [PDict [("message", PStr "ok")]; PStr "a line of text"] (PStr "a line of text")).
    + right. left. reflexivity.
    + reflexivity.
  - apply (proj1 (proj2 (proj2 (proj2 (proj2
             (X8_adapters_reject_non_mappings Json.loads (fun _ => ""))))))
             [("session_id", PStr "s1"); ("transactions", PList [PDict []; PInt 3])]
             [PDict []; PInt 3] (PInt 3)).
    + reflexivity.
    + right. left. reflexivity.
    + reflexivity.
Defined.

Lemma blockagent_entry_shape jl sid an av x e :
  blockagent_entry jl sid an av x = Ok e ->
  exists t, x = PDict t /\ agent_entry_of sid an av t e.
Proof.
  intros H. destruct x as [| | | | |t]; try discriminate H.
  exists t. split; [reflexivity|].
  unfold blockagent_entry in H. cbn [get Py.bind] in H. injection H as <-.
  match goal with |- agent_entry_of _ _ _ _ (new_LogEntry ?j ?ts ?src ?sd ?l ?cc ?b ?tt ?tr ?rr ?mt ?md) =>
    pose proof (new_LogEntry_fields j ts src sd l cc b tt tr rr mt md) as F;
    pose proof (new_LogEntry_metadata j ts src sd l cc b tt tr rr mt md) as M
  end.
  cbv zeta in F. destruct F as (F1 & F2 & F3 & F4 & F5 & F6 & F7 & F8 & F9 & F10).
  unfold agent_entry_of. rewrite F1, F2, F3, F4, F5, F6, F7, F8, F9, F10, M.
  repeat split.
  eexists. split; [reflexivity|]. split; [reflexivity|].
  repeat split; repeat constructor.
Qed.

(** X10.  When the agent adapter returns, the document is a mapping and the
    adapter gives one entry per transaction, in the order of the
    transactions, each of them a mapping.  Every entry has the source
    [blockagent], the log type [conversation], no message type and the
    session id of the document ([unknown] when it has none); its timestamp,
    content, role and block, turn and transaction ids are those of its
    transaction; its metadata has exactly the nine keys of the adapter, with
    the name and the version of the first agent of the document. *)
Theorem X10_agent_entries_shape :
  forall json_loads data es,
    load_blockagent_logs json_loads data = Ok es ->
    exists d txns agent_name agent_version,
      data = PDict d /\
      iter (dict_get d "transactions" (PList [])) = Ok txns /\
      first_agent (dict_get d "agents" (PDict [])) agent_name agent_version /\
      Forall2 (fun x e => exists t, x = PDict t /\
                 agent_entry_of (dict_get d "session_id" (PStr "unknown"))
                   agent_name agent_version t e) txns es.
Proof.
  intros jl data es H. destruct data as [| | | | |d]; try discriminate H.
  unfold load_blockagent_logs in H. cbn [get Py.bind] in H.
  match type of H with Py.bind ?u _ = _ => destruct u as [[an av]|] eqn:U end;
    cbn [Py.bind] in H; [|discriminate H].
  destruct (iter (dict_get d "transactions" (PList []))) as [txns|] eqn:I;
    cbn [Py.bind] in H; [|discriminate H].
  exists d, txns, an, av. split; [reflexivity|]. split; [exact I|]. split.
  - destruct (truthy (dict_get d "agents" (PDict []))) eqn:T.
    + right. destruct (dict_get d "agents" (PDict [])) as [| | | | |[|[k a] rest]];
        try discriminate U.
      destruct a as [| | | | |data]; cbn [get Py.bind] in U; try discriminate U.
      injection U as <- <-. now exists k, data, rest.
    + left. injection U as <- <-. split; [exact T | split; reflexivity].
  - pose proof (mapM_Forall2 _ _ _ H) as F. clear H I.
    induction F as [|x e l l' Hx _ IH]; constructor; [|exact IH].
    exact (blockagent_entry_shape jl _ an av x e Hx).
Qed.

Lemma X10_agent_entries_shape_witness :
  exists es,
    load_blockagent_logs Json.loads two_source_agent = Ok es /\
    List.length es = 2%nat /\
    exists d txns agent_name agent_version,
      two_source_agent = PDict d /\
      iter (dict_get d "transactions" (PList [])) = Ok txns /\
      first_agent (dict_get d "agents" (PDict [])) agent_name agent_version /\
      Forall2 (fun x e => exists t, x = PDict t /\
                 agent_entry_of (dict_get d "session_id" (PStr "unknown"))
                   agent_name agent_version t e) txns es.
Proof.
  eexists. split; [vm_compute; reflexivity|]. split; [reflexivity|].
  eapply (X10_agent_entries_shape Json.loads two_source_agent).
  vm_compute. reflexivity.
Defined.

Lemma load_blockagent_logs_session jl d es e :
  load_blockagent_logs jl (PDict d) = Ok es -> In e es ->
  session_id e = dict_get d "session_id" (PStr "unknown").
Proof.
  unfold load_blockagent_logs. cbn [get Py.bind]. intros H Hin.
  match type of H with Py.bind ?u _ = _ => destruct u as [[an av]|] end;
    cbn [Py.bind] in H; [|discriminate H].
  destruct (iter (dict_get d "transactions" (PList []))) as [txns|];
    cbn [Py.bind] in H; [|discriminate H].
  destruct (mapM_In _ _ _ H _ Hin) as (x & _ & Hx).
  destruct (blockagent_entry_shape _ _ _ _ _ _ Hx) as (t & _ & _ & Hsid & _).
  exact Hsid.
Qed.

Lemma timeline_agent_session jl jd sf_data d xml infra dbg e :
  load_all jl jd sf_data (PDict d) xml infra = Ok dbg ->
  In e (unified_timeline dbg) -> source e = blockagent ->
  session_id e = dict_get d "session_id" (PStr "unknown").
Proof.
  intros H Hin Hs.
  destruct (load_all_grouped _ _ _ _ _ _ _ H) as (_ & Hsf & Hba & Ht & _).
  rewrite Ht in Hin. unfold build_unified_timeline in Hin.
  apply (Permutation_in _ (sorted_by_perm sort_key _)) in Hin.
  apply in_app_or in Hin. destruct Hin as [Hin|Hin].
  - unfold load_smartflow_logs in Hsf.
    destruct (iter sf_data) as [records|]; cbn [Py.bind] in Hsf; [|discriminate Hsf].
    destruct (mapM_In _ _ _ Hsf _ Hin) as (x & _ & Hx).
    destruct (smartflow_entry_shape _ _ _ _ Hx) as (r & _ & Hsrc & _).
    rewrite Hsrc in Hs. discriminate Hs.
  - exact (load_blockagent_logs_session jl d _ e Hba Hin).
Qed.

Lemma filter_nonempty {A} (f : A -> bool) l :
  filter f l <> [] -> exists x, In x l /\ f x = true.
Proof.
  induction l as [|a t IH]; cbn [filter]; [now intros []|].
  destruct (f a) eqn:E.
  - intros _. exists a. split; [now left | exact E].
  - intros H. destruct (IH H) as (x & Hx & Hf). exists x. split; [now right | exact Hf].
Qed.

(** X11.  In a loaded dataset only one session can show a conversation:
    when the summary of a session id has a conversation item, or counts an
    entry of the agent, the id is the session id of the agent document, and
    this id is not the sentinel.  In particular an agent document without a
    [session_id] gives no conversation and no agent entry to any session. *)
Theorem X11_conversation_only_in_agent_session :
  forall json_loads json_dumps smartflow_data d xml infra dbg sid s,
    load_all json_loads json_dumps smartflow_data (PDict d) xml infra = Ok dbg ->
    get_conversation_summary dbg sid = Ok s ->
    conversation s <> [] \/ blockagent_entries s <> 0%nat ->
    key_eqb (dict_get d "session_id" (PStr "unknown")) sid = true /\
    eq_str (dict_get d "session_id" (PStr "unknown")) "unknown" = false.
Proof.
  intros jl jd sfd d xml infra dbg sid s H G N.
  unfold get_conversation_summary in G.
  destruct (get_session_timeline dbg sid) as [es|] eqn:T; cbn [Py.bind] in G;
    [|discriminate G].
  injection G as <-. cbn [conversation blockagent_entries] in N.
  assert (Hh : hashable sid = true).
  { unfold get_session_timeline in T. destruct (hashable sid); [reflexivity | discriminate T]. }
  rewrite (session_timeline_filter jl jd sfd (PDict d) xml infra dbg sid H Hh) in T.
  injection T as <-.
  assert (E : exists e, In e (filter (in_session sid) (unified_timeline dbg)) /\
                        source e = blockagent).
  { destruct N as [N|N].
    - destruct (filter_nonempty in_conversation
                  (filter (in_session sid) (unified_timeline dbg))) as (e & He & Hc).
      { intros Z. apply N. now rewrite Z. }
      exists e. split; [exact He|]. unfold in_conversation in Hc.
      destruct (source e); [discriminate Hc | reflexivity].
    - destruct (filter_nonempty (fun e => Source_eqb (source e) blockagent)
                  (filter (in_session sid) (unified_timeline dbg))) as (e & He & Hc).
      { intros Z. apply N. now rewrite Z. }
      exists e. split; [exact He|]. destruct (source e); [discriminate Hc | reflexivity]. }
  destruct E as (e & He & Hsrc). apply filter_In in He. destruct He as (Hin & Hs).
  rewrite <- (timeline_agent_session jl jd sfd d xml infra dbg e H Hin Hsrc).
  unfold in_session, unknown_session in Hs. apply andb_true_iff in Hs.
  destruct Hs as (U & K). split; [exact K|]. now apply negb_true_iff in U.
Qed.

Lemma X11_conversation_only_in_agent_session_witness :
  exists dbg s,
    load_all Json.loads (fun _ => "") two_source_flow two_source_agent None (PList [])
      = Ok dbg /\
    get_conversation_summary dbg (PStr "agent-session") = Ok s /\
    List.length (conversation s) = 2%nat /\
    key_eqb (PStr "agent-session") (PStr "agent-session") = true /\
    eq_str (PStr "agent-session") "unknown" = false.
Proof.
  do 2 eexists. split; [vm_compute; reflexivity|]. split; [vm_compute; reflexivity|].
  split; [reflexivity|].
  eapply (X11_conversation_only_in_agent_session Json.loads (fun _ => "") two_source_flow
            [("session_id", PStr "agent-session");
             ("agents", PDict [("a1", PDict [("agent_name", PStr "helper"); ("version", PStr "7")])]);
             ("transactions",
              PList [PDict [("created_date", PStr "2025-01-01T00:00:03.000Z");
                            ("role", PStr "user"); ("content", PStr "hello")];
                     PDict [("created_date", PStr "2025-01-01T00:00:00.500000");
                            ("role", PStr "assistant"); ("content", PStr "welcome")]])]
            None (PList []) _ (PStr "agent-session")).
  - vm_compute. reflexivity.
  - vm_compute. reflexivity.
  - left. vm_compute. discriminate.
Defined.

(** ** The search and the removal of session data *)

Lemma without_session_data_dict kvs :
  without_session_data (PDict kvs) =
  PDict (map (fun kv => (fst kv, without_session_data (snd kv))) (visible true kvs)).
Proof.
  cbn [without_session_data]. f_equal. unfold visible.
  induction kvs as [|[k v] t IH]; [reflexivity|]. cbn [filter fst andb].
  destruct (k =? "SessionData"); cbn [negb]; [exact IH|].
  cbn [map fst snd]. now rewrite IH.
Qed.

Lemma without_session_data_None v : without_session_data v = PNone -> v = PNone.
Proof. destruct v; cbn [without_session_data]; try discriminate; reflexivity. Qed.

Lemma first_found_without l :
  without_session_data (first_found l) = first_found (map without_session_data l).
Proof.
  induction l as [|v t IH]; [reflexivity|].
  destruct v; try reflexivity. exact IH.
Qed.

Lemma visible_without kvs :
  visible false (map (fun kv => (fst kv, without_session_data (snd kv))) kvs) =
  map (fun kv => (fst kv, without_session_data (snd kv))) kvs.
Proof.
  unfold visible. cbn [andb negb]. induction kvs as [|kv t IH]; [reflexivity|].
  cbn [map filter]. now rewrite IH.
Qed.

Lemma scan_keys_without kvs sk :
  scan_keys (map (fun kv => (fst kv, without_session_data (snd kv))) (visible true kvs))
            sk false =
  option_map without_session_data (scan_keys kvs sk true).
Proof.
  unfold visible. induction kvs as [|[k v] t IH]; [reflexivity|].
  cbn [filter fst andb scan_keys].
  destruct (k =? "SessionData"); cbn [negb]; [exact IH|].
  cbn [map scan_keys fst snd andb].
  destruct (contains (lower k) sk); [reflexivity | exact IH].
Qed.

(** X12.  Searching with the exclusion on is searching the value from which
    every [SessionData] entry has been removed: the two searches find the
    same thing, up to the [SessionData] entries inside what is found. *)
Theorem X12_exclusion_is_removal :
  forall obj search_key max_depth current_depth,
    without_session_data (recursive_search obj search_key max_depth current_depth true) =
    recursive_search (without_session_data obj) search_key max_depth current_depth false.
Proof.
  intros obj sk md. induction obj as [| | | |items IH|kvs IH] using pyval_ind; intros cur;
    try reflexivity.
  - cbn [without_session_data recursive_search]; destruct (md <=? cur)%nat; reflexivity.
  - cbn [without_session_data recursive_search]; destruct (md <=? cur)%nat; reflexivity.
  - cbn [without_session_data recursive_search]; destruct (md <=? cur)%nat; reflexivity.
  - cbn [without_session_data recursive_search]; destruct (md <=? cur)%nat; reflexivity.
  - destruct (Nat.le_gt_cases md cur) as [D|D].
    + now rewrite !recursive_search_deep.
    + change (without_session_data (PList items)) with (PList (map without_session_data items)).
      rewrite !recursive_search_list by exact D.
      rewrite first_found_without, !map_map. f_equal.
      apply map_ext_in. intros v Hv. rewrite Forall_forall in IH. exact (IH v Hv (S cur)).
  - destruct (Nat.le_gt_cases md cur) as [D|D].
    + now rewrite !recursive_search_deep.
    + rewrite without_session_data_dict, !recursive_search_dict by exact D.
      rewrite scan_keys_without, visible_without.
      destruct (scan_keys kvs sk true) as [v|]; cbn [option_map]; [reflexivity|].
      rewrite first_found_without, !map_map. f_equal.
      apply map_ext_in. intros kv Hkv. cbn [snd].
      rewrite Forall_forall in IH. unfold visible in Hkv. apply filter_In in Hkv.
      exact (IH kv (proj1 Hkv) (S cur)).
Qed.

(** ** The flow diagram, block by block *)

Lemma edge_of_returns turn_id e :
  is_mapping e = true -> exists es, edge_of turn_id e = Ok es.
Proof.
  destruct e as [| | | | |d]; try discriminate. intros _.
  unfold edge_of. cbn [get Py.bind].
  destruct (dict_get d "connect_to" PNone) as [| | | | |ct]; try (now eexists).
  destruct (truthy (PDict ct)); [|now eexists].
  destruct (truthy (dict_get ct "turn_id" (PStr ""))); now eexists.
Qed.

Lemma forallb_Forall {A} (f : A -> bool) l : forallb f l = true -> Forall (fun x => f x = true) l.
Proof. intros H. apply Forall_forall. now apply forallb_forall. Qed.

Lemma turn_of_returns t : wf_turn t = true -> exists r, turn_of t = Ok r.
Proof.
  destruct t as [| | | | |d]; try discriminate. cbn [wf_turn]. intros W.
  unfold turn_of. cbn [get has_key getitem Py.bind]. unfold dict_has.
  destruct (dict_lookup d "edges") as [v|]; cbn [Py.bind]; [|now eexists].
  destruct v as [| | | |es|]; try discriminate W. cbn [iter Py.bind].
  destruct (mapM_returns (edge_of (dict_get d "turn_id" (PStr ""))) es) as (per & ->).
  { apply forallb_Forall in W. apply Forall_forall. intros e He.
    rewrite Forall_forall in W. apply edge_of_returns. now apply W. }
  cbn [Py.bind]. now eexists.
Qed.

Lemma block_of_returns idx b : wf_block b = true -> exists r, block_of idx b = Ok r.
Proof.
  destruct b as [| | | | |d]; try discriminate. cbn [wf_block]. intros W.
  unfold block_of. cbn [get has_key getitem Py.bind]. unfold dict_has.
  destruct (dict_lookup d "turns") as [v|]; cbn [Py.bind]; [|now eexists].
  destruct v as [| | | |ts|]; try discriminate W. cbn [iter Py.bind].
  destruct (mapM_returns turn_of ts) as (per & ->).
  { apply forallb_Forall in W. apply Forall_forall. intros t Ht.
    rewrite Forall_forall in W. apply turn_of_returns. now apply W. }
  cbn [Py.bind]. now eexists.
Qed.

Lemma blocks_from_returns blocks :
  forallb wf_block blocks = true -> forall idx, exists r, blocks_from idx blocks = Ok r.
Proof.
  induction blocks as [|b t IH]; cbn [forallb blocks_from]; intros W idx; [now eexists|].
  apply andb_true_iff in W. destruct W as (Wb & Wt).
  destruct (block_of_returns idx b Wb) as (r & ->). cbn [Py.bind].
  destruct (IH Wt (S idx)) as (rs & ->). cbn [Py.bind]. now eexists.
Qed.

(** X13.  The flow diagram is built without raising from every
    infrastructure that is not a list (no agent node then), and from every
    list of blocks that are mappings whose turns are a list of mappings
    whose edges are a list of mappings, with any XML text or none.  The
    nodes of a diagram are its agent nodes followed by its flow-engine
    nodes, and there are no flow-engine nodes and no flow-engine edges
    without an XML text. *)
Theorem X13_flow_diagram_returns :
  forall infra xml,
    (forall blocks, infra = PList blocks -> forallb wf_block blocks = true) ->
    exists flow,
      extract_flow_diagram infra xml = Ok flow /\
      nodes flow = (blockagent_nodes flow ++ smartflow_nodes flow)%list /\
      (is_dict_or_list infra = false \/ is_mapping infra = true ->
       blockagent_nodes flow = []) /\
      (xml = None ->
       smartflow_nodes flow = [] /\
       Forall (fun e => e_type e = blockagent) (edges flow)).
Proof.
  intros infra xml W. unfold extract_flow_diagram.
  assert (B : exists bs, match infra with PList bl => blocks_from 0 bl | _ => Ok [] end = Ok bs /\
                         (is_dict_or_list infra = false \/ is_mapping infra = true -> bs = []) /\
                         Forall (fun e => e_type e = blockagent) (concat (map snd bs))).
  { destruct infra as [| | | |bl|];
      try (exists []; split; [reflexivity | split; [reflexivity | constructor]]).
    destruct (blocks_from_returns bl (W bl eq_refl) 0) as (bs & E).
    exists bs. split; [exact E|]. split.
    - intros [H|H]; discriminate H.
    - exact (blocks_from_type bl 0 bs E). }
  destruct B as (bs & -> & Hn & He). cbn [Py.bind].
  eexists. split; [reflexivity|].
  cbn [nodes blockagent_nodes smartflow_nodes edges]. split; [reflexivity|]. split.
  - intros H. now rewrite (Hn H).
  - intros ->. split; [reflexivity|]. now rewrite app_nil_r.
Qed.

Lemma turn_of_listed t tn es : turn_of t = Ok (tn, es) -> turn_listed t tn.
Proof.
  intros H. destruct t as [| | | | |td]; try discriminate H.
  unfold turn_of in H. cbn [get has_key Py.bind] in H.
  match type of H with Py.bind ?u _ = _ => destruct u as [es'|] end;
    cbn [Py.bind] in H; [|discriminate H].
  injection H as <- _. exists td. repeat split.
Qed.

Lemma block_of_node idx b n es :
  block_of idx b = Ok (n, es) -> exists d, b = PDict d /\ node_of_block idx d n.
Proof.
  intros H. destruct b as [| | | | |d]; try discriminate H.
  exists d. split; [reflexivity|].
  unfold block_of in H. cbn [get has_key getitem Py.bind] in H. unfold dict_has in H.
  unfold node_of_block.
  destruct (dict_lookup d "turns") as [v|]; cbn [Py.bind] in H.
  - destruct (iter v) as [items|]; cbn [Py.bind] in H; [|discriminate H].
    destruct (mapM turn_of items) as [ts|] eqn:M; cbn [Py.bind] in H; [|discriminate H].
    injection H as <- _. eexists. split; [reflexivity|].
    exists items. split; [reflexivity|].
    pose proof (mapM_Forall2 _ _ _ M) as F. clear M.
    induction F as [|t [tn tes] l l' Ht _ IH]; cbn [map fst]; constructor; [|exact IH].
    exact (turn_of_listed _ _ _ Ht).
  - injection H as <- _. eexists. split; reflexivity.
Qed.

Lemma blocks_from_nodes blocks :
  forall idx bs, blocks_from idx blocks = Ok bs ->
  List.length bs = List.length blocks /\
  forall i b, nth_error blocks i = Some b ->
    exists d n, b = PDict d /\ nth_error (map fst bs) i = Some n /\
                node_of_block (idx + i) d n.
Proof.
  induction blocks as [|b t IH]; cbn [blocks_from]; intros idx bs H.
  - injection H as <-. split; [reflexivity|]. intros [|i] b0 E; discriminate E.
  - destruct (block_of idx b) as [[n es]|] eqn:B; cbn [Py.bind] in H; [|discriminate H].
    destruct (blocks_from (S idx) t) as [rest|] eqn:R; cbn [Py.bind] in H; [|discriminate H].
    injection H as <-. destruct (IH _ _ R) as (L & N). split; [cbn; now rewrite L|].
    intros [|i] b0 E; cbn [nth_error] in E.
    + injection E as <-. destruct (block_of_node _ _ _ _ B) as (d & -> & Hn).
      exists d, n. rewrite Nat.add_0_r. repeat split. exact Hn.
    + destruct (N i b0 E) as (d & n0 & -> & Hn & Ho). exists d, n0.
      split; [reflexivity|]. split; [exact Hn|].
      now replace (idx + S i)%nat with (S idx + i)%nat by lia.
Qed.

(** X14.  A diagram built from a list of blocks has one agent node per
    block, in the order of the list, and every block is a mapping.  The id
    of the node of block number [i] (from 0) is the [block_id] of the block,
    or the text [block_i] when the block has none; its label is the name of
    the block, or [Unknown Block]; and it lists one turn per element of the
    [turns] of the block, in order, with the id and the name of that turn
    (empty when absent). *)
Theorem X14_one_node_per_block :
  forall blocks xml flow,
    extract_flow_diagram (PList blocks) xml = Ok flow ->
    List.length (blockagent_nodes flow) = List.length blocks /\
    forall i b, nth_error blocks i = Some b ->
      exists d n, b = PDict d /\ nth_error (blockagent_nodes flow) i = Some n /\
                  node_of_block i d n.
Proof.
  intros blocks xml flow H. unfold extract_flow_diagram in H.
  destruct (blocks_from 0 blocks) as [bs|] eqn:B; cbn [Py.bind] in H; [|discriminate H].
  injection H as <-. cbn [blockagent_nodes].
  destruct (blocks_from_nodes blocks 0 bs B) as (L & N).
  split; [now rewrite length_map|]. exact N.
Qed.

Lemma X14_one_node_per_block_witness :
  exists flow,
    extract_flow_diagram (PList [PDict [("name", PStr "Greeting")]; PDict [("block_id", PStr "b7")]])
      None = Ok flow /\
    blockagent_nodes flow = [BlockNode (PStr "block_0") (PStr "Greeting") [];
                             BlockNode (PStr "b7") (PStr "Unknown Block") []] /\
    List.length (blockagent_nodes flow) = 2%nat.
Proof.
  eexists. split; [vm_compute; reflexivity|]. split; [reflexivity|].
  eapply (X14_one_node_per_block
            [PDict [("name", PStr "Greeting")]; PDict [("block_id", PStr "b7")]] None).
  vm_compute. reflexivity.
Defined.

Lemma X13_flow_diagram_returns_witness :
  exists flow,
    extract_flow_diagram infra_example (Some end_call_chain) = Ok flow /\
    nodes flow = (blockagent_nodes flow ++ smartflow_nodes flow)%list.
Proof.
  destruct (X13_flow_diagram_returns infra_example (Some end_call_chain)) as (flow & H & N & _).
  - intros blocks E. injection E as <-. reflexivity.
  - exists flow. split; [exact H | exact N].
Defined.

Lemma edge_of_turn_edge tid edge es :
  edge_of tid edge = Ok es -> Forall (turn_edge tid) es.
Proof.
  unfold edge_of.
  destruct (get edge "connect_to" PNone) as [ct|]; cbn [Py.bind]; [|discriminate].
  destruct ct as [| | | | |kvs]; try (intros H; injection H as <-; constructor).
  destruct (truthy (PDict kvs)); [|intros H; injection H as <-; constructor].
  destruct (truthy (dict_get kvs "turn_id" (PStr ""))) eqn:T;
    [|intros H; injection H as <-; constructor].
  destruct (get edge "name" (PStr "")) as [label|]; cbn [Py.bind]; [|discriminate].
  intros H. injection H as <-. constructor; [|constructor].
  unfold turn_edge. cbn. repeat split; [exact T | now eexists].
Qed.

Lemma turn_of_edges turn t es :
  turn_of turn = Ok (t, es) -> Forall (turn_edge (t_id t)) es.
Proof.
  unfold turn_of.
  destruct (get turn "turn_id" (PStr "")) as [tid|]; cbn [Py.bind]; [|discriminate].
  destruct (get turn "name" (PStr "")) as [tname|]; cbn [Py.bind]; [|discriminate].
  destruct (has_key turn "edges") as [[|]|]; cbn [Py.bind]; try discriminate.
  - destruct (getitem turn "edges") as [el|]; cbn [Py.bind]; [|discriminate].
    destruct (iter el) as [items|]; cbn [Py.bind]; [|discriminate].
    destruct (mapM (edge_of tid) items) as [per_edge|] eqn:M; cbn [Py.bind]; [|discriminate].
    intros H. injection H as <- <-. cbn [t_id].
    apply Forall_concat. eapply mapM_Forall; [|exact M].
    intros a b. apply edge_of_turn_edge.
  - intros H. injection H as _ <-. constructor.
Qed.

Lemma block_of_edges idx block n es e :
  block_of idx block = Ok (n, es) -> In e es ->
  exists id label turns tn,
    n = BlockNode id label turns /\ In tn turns /\ turn_edge (t_id tn) e.
Proof.
  unfold block_of.
  destruct (get block "block_id" _) as [bid|]; cbn [Py.bind]; [|discriminate].
  destruct (get block "name" _) as [bname|]; cbn [Py.bind]; [|discriminate].
  destruct (has_key block "turns") as [[|]|]; cbn [Py.bind]; try discriminate.
  - destruct (getitem block "turns") as [tl|]; cbn [Py.bind]; [|discriminate].
    destruct (iter tl) as [items|]; cbn [Py.bind]; [|discriminate].
    destruct (mapM turn_of items) as [ts|] eqn:M; cbn [Py.bind]; [|discriminate].
    intros H Hin. injection H as <- <-.
    apply in_concat in Hin. destruct Hin as (l & Hl & He).
    apply in_map_iff in Hl. destruct Hl as ([tn tes] & <- & Ht).
    destruct (mapM_In _ _ _ M _ Ht) as (t & _ & Hof).
    pose proof (turn_of_edges _ _ _ Hof) as F. rewrite Forall_forall in F.
    exists bid, bname, (map fst ts), tn. split; [reflexivity|]. split.
    + exact (in_map fst ts (tn, tes) Ht).
    + exact (F e He).
  - intros H Hin. injection H as _ <-. destruct Hin.
Qed.

Lemma blocks_from_edges blocks :
  forall idx bs e, blocks_from idx blocks = Ok bs -> In e (concat (map snd bs)) ->
  exists tid, turn_edge tid e /\ turn_in_nodes tid (map fst bs).
Proof.
  induction blocks as [|b t IH]; cbn [blocks_from]; intros idx bs e.
  - intros H. injection H as <-. intros [].
  - destruct (block_of idx b) as [[n es]|] eqn:B; cbn [Py.bind]; [|discriminate].
    destruct (blocks_from (S idx) t) as [rest|] eqn:R; cbn [Py.bind]; [|discriminate].
    intros H. injection H as <-. cbn [map concat snd fst]. intros Hin.
    apply in_app_or in Hin. destruct Hin as [Hin|Hin].
    + destruct (block_of_edges _ _ _ _ _ B Hin) as (id & label & turns & tn & -> & Ht & He).
      exists (t_id tn). split; [exact He|].
      exists id, label, turns, tn. split; [now left | now split].
    + destruct (IH _ _ _ R Hin) as (tid & He & (id & label & turns & tn & Hn & Ht & Hid)).
      exists tid. split; [exact He|].
      exists id, label, turns, tn. split; [now right | now split].
Qed.

Lemma chain_edge_ends left right e :
  In e (chain_edge left right) ->
  e_type e = smartflow /\ e_label e = None /\
  e_from e = PStr left /\ e_to e = PStr right /\ left <> "" /\ right <> "".
Proof.
  unfold chain_edge.
  destruct (left =? "") eqn:L; cbn [negb andb]; [intros []|].
  destruct (right =? "") eqn:R; cbn [negb andb]; [intros []|].
  destruct (negb (right =? "END_CALL")); [|intros []].
  intros [<-|[]]. cbn. repeat split.
  - intros ->. discriminate L.
  - intros ->. discriminate R.
Qed.

(** X15.  Every edge of a diagram is of one of two kinds.  An edge between
    turns of the agent has a label and a target that is not empty, and it
    leaves a turn that one of the agent nodes of the diagram lists.  An edge
    of the flow engine has no label and joins two names that are not
    empty. *)
Theorem X15_edges_of_the_diagram :
  forall infra xml flow e,
    extract_flow_diagram infra xml = Ok flow -> In e (edges flow) ->
    (turn_edge (e_from e) e /\ turn_in_nodes (e_from e) (blockagent_nodes flow)) \/
    (e_type e = smartflow /\ e_label e = None /\
     exists left right, e_from e = PStr left /\ e_to e = PStr right /\
                        left <> "" /\ right <> "").
Proof.
  intros infra xml flow e H Hin. unfold extract_flow_diagram in H.
  destruct (match infra with PList bl => blocks_from 0 bl | _ => Ok [] end)
    as [blocks|] eqn:E; cbn [Py.bind] in H; [|discriminate H].
  injection H as <-. cbn [edges blockagent_nodes] in *.
  apply in_app_or in Hin. destruct Hin as [Hin|Hin].
  - left. destruct infra as [| | | |bl|]; try (injection E as <-; destruct Hin).
    destruct (blocks_from_edges bl 0 blocks e E Hin) as (tid & He & Hn).
    destruct He as (H1 & <- & H3 & H4). split; [repeat split; assumption | exact Hn].
  - right. destruct xml as [x|]; [|destruct Hin].
    apply in_concat in Hin. destruct Hin as (l & Hl & He).
    apply in_map_iff in Hl. destruct Hl as ([lt rt] & <- & _).
    destruct (chain_edge_ends _ _ _ He) as (H1 & H2 & H3 & H4 & H5 & H6).
    split; [exact H1|]. split; [exact H2|]. now exists lt, rt.
Qed.

Lemma X15_edges_of_the_diagram_witness :
  exists flow,
    extract_flow_diagram infra_example None = Ok flow /\
    In edge_t1_t2 (edges flow) /\
    ((turn_edge (e_from edge_t1_t2) edge_t1_t2 /\
      turn_in_nodes (e_from edge_t1_t2) (blockagent_nodes flow)) \/
     (e_type edge_t1_t2 = smartflow /\ e_label edge_t1_t2 = None /\
      exists left right, e_from edge_t1_t2 = PStr left /\ e_to edge_t1_t2 = PStr right /\
                         left <> "" /\ right <> "")).
Proof.
  eexists. split; [vm_compute; reflexivity|]. split; [left; reflexivity|].
  eapply (X15_edges_of_the_diagram infra_example None).
  - vm_compute. reflexivity.
  - left. reflexivity.
Defined.

(** ** Block lookup *)

Lemma find_block_some blocks id b :
  find_block blocks id = Ok (Some b) ->
  exists pre post d,
    blocks = (pre ++ b :: post)%list /\ b = PDict d /\
    dict_get d "block_id" PNone = PStr id /\ Forall (other_block id) pre.
Proof.
  induction blocks as [|x t IH]; cbn [find_block]; [discriminate|].
  destruct x as [| | | | |d]; try discriminate. cbn [get Py.bind].
  destruct (eq_str (dict_get d "block_id" PNone) id) eqn:E.
  - intros H. injection H as <-. exists [], t, d. repeat split; [|constructor].
    destruct (dict_get d "block_id" PNone); try discriminate E.
    cbn [eq_str] in E. apply String.eqb_eq in E. now subst.
  - intros H. destruct (IH H) as (pre & post & d' & -> & -> & Hid & Hpre).
    exists (PDict d :: pre), post, d'. repeat split; [exact Hid|].
    constructor; [now exists d | exact Hpre].
Qed.

Lemma find_block_none blocks id :
  find_block blocks id = Ok None -> Forall (other_block id) blocks.
Proof.
  induction blocks as [|x t IH]; cbn [find_block]; [constructor|].
  destruct x as [| | | | |d]; try discriminate. cbn [get Py.bind].
  destruct (eq_str (dict_get d "block_id" PNone) id) eqn:E; [discriminate|].
  intros H. constructor; [now exists d | exact (IH H)].
Qed.

Lemma find_block_mappings blocks id :
  Forall (fun b => is_mapping b = true) blocks ->
  (exists d, find_block blocks id = Ok (Some (PDict d)) /\
             dict_get d "block_id" PNone = PStr id) \/
  find_block blocks id = Ok None.
Proof.
  induction 1 as [|x t Hx _ IH]; cbn [find_block]; [now right|].
  destruct x as [| | | | |d]; try discriminate Hx. cbn [get Py.bind].
  destruct (eq_str (dict_get d "block_id" PNone) id) eqn:E; [|exact IH].
  left. exists d. split; [reflexivity|].
  destruct (dict_get d "block_id" PNone); try discriminate E.
  cbn [eq_str] in E. apply String.eqb_eq in E. now subst.
Qed.

(** X16.  Block lookup gives the first block of the infrastructure that
    carries the id: a block it returns is a mapping of the infrastructure
    whose [block_id] is the id asked for, and no block in front of it
    carries this id.  It gives [None] on an empty infrastructure, and
    otherwise only when every block is a mapping without this id. *)
Theorem X16_block_lookup_finds_first :
  forall infra id,
    (truthy infra = false -> get_block_info infra id = Ok None) /\
    (forall b, get_block_info infra id = Ok (Some b) ->
       exists blocks pre post d,
         iter infra = Ok blocks /\ blocks = (pre ++ b :: post)%list /\ b = PDict d /\
         dict_get d "block_id" PNone = PStr id /\ Forall (other_block id) pre) /\
    (get_block_info infra id = Ok None ->
       truthy infra = false \/
       exists blocks, iter infra = Ok blocks /\ Forall (other_block id) blocks).
Proof.
  intros infra id. unfold get_block_info. repeat split.
  - intros ->. reflexivity.
  - intros b H. destruct (truthy infra); cbn [negb] in H; [|discriminate H].
    destruct (iter infra) as [blocks|]; cbn [Py.bind] in H; [|discriminate H].
    destruct (find_block_some _ _ _ H) as (pre & post & d & H1 & H2 & H3 & H4).
    now exists blocks, pre, post, d.
  - intros H. destruct (truthy infra); cbn [negb] in H; [|now left]. right.
    destruct (iter infra) as [blocks|]; cbn [Py.bind] in H; [|discriminate H].
    exists blocks. split; [reflexivity | exact (find_block_none _ _ H)].
Qed.

Lemma X16_block_lookup_finds_first_witness :
  get_block_info (PList [PDict [("block_id", PStr "a")];
                         PDict [("block_id", PStr "b"); ("name", PStr "first")];
                         PDict [("block_id", PStr "b"); ("name", PStr "second")]]) "b"
    = Ok (Some (PDict [("block_id", PStr "b"); ("name", PStr "first")])) /\
  exists blocks pre post d,
    iter (PList [PDict [("block_id", PStr "a")];
                 PDict [("block_id", PStr "b"); ("name", PStr "first")];
                 PDict [("block_id", PStr "b"); ("name", PStr "second")]]) = Ok blocks /\
    blocks = (pre ++ PDict [("block_id", PStr "b"); ("name", PStr "first")] :: post)%list /\
    PDict [("block_id", PStr "b"); ("name", PStr "first")] = PDict d /\
    dict_get d "block_id" PNone = PStr "b" /\ Forall (other_block "b") pre.
Proof.
  split; [reflexivity|].
  apply (proj1 (proj2 (X16_block_lookup_finds_first
           (PList [PDict [("block_id", PStr "a")];
                   PDict [("block_id", PStr "b"); ("name", PStr "first")];
                   PDict [("block_id", PStr "b"); ("name", PStr "second")]]) "b"))).
  reflexivity.
Defined.

Lemma blocks_from_mappings blocks :
  forall idx bs, blocks_from idx blocks = Ok bs ->
  Forall (fun b => is_mapping b = true) blocks.
Proof.
  induction blocks as [|b t IH]; cbn [blocks_from]; intros idx bs H; [constructor|].
  destruct (block_of idx b) as [r|] eqn:B; cbn [Py.bind] in H; [|discriminate H].
  destruct (blocks_from (S idx) t) as [rest|] eqn:R; cbn [Py.bind] in H; [|discriminate H].
  constructor; [|exact (IH _ _ R)].
  destruct b; try discriminate B. reflexivity.
Qed.

(** X17.  When the diagram can be built from a list of blocks, block lookup
    in the same list never raises.  For an agent node of the diagram whose
    id is a text, the lookup of this id either gives a block that carries
    it, or gives [None]; the latter only for a node whose block has no
    [block_id], that is when the id is the text [block_i] made from the
    position of the block. *)
Theorem X17_lookup_of_diagram_nodes :
  forall blocks xml flow,
    extract_flow_diagram (PList blocks) xml = Ok flow ->
    (forall id, exists r, get_block_info (PList blocks) id = Ok r) /\
    (forall id label turns,
       In (BlockNode (PStr id) label turns) (blockagent_nodes flow) ->
       (exists d, get_block_info (PList blocks) id = Ok (Some (PDict d)) /\
                  dict_get d "block_id" PNone = PStr id) \/
       (get_block_info (PList blocks) id = Ok None /\
        exists i d, nth_error blocks i = Some (PDict d) /\
                    dict_lookup d "block_id" = None /\
                    id = "block_" ++ str_of_Z (Z.of_nat i))).
Proof.
  intros blocks xml flow H. unfold extract_flow_diagram in H.
  destruct (blocks_from 0 blocks) as [bs|] eqn:B; cbn [Py.bind] in H; [|discriminate H].
  injection H as <-. cbn [blockagent_nodes].
  pose proof (blocks_from_mappings _ _ _ B) as M.
  assert (G : forall id, get_block_info (PList blocks) id = find_block blocks id).
  { intros id. unfold get_block_info. destruct blocks; reflexivity. }
  split.
  - intros id. rewrite G. destruct (find_block_mappings blocks id M) as [(d & -> & _)| ->];
      now eexists.
  - intros id label turns Hin. rewrite !G.
    destruct (find_block_mappings blocks id M) as [(d & Hf & Hd)|Hf].
    + left. now exists d.
    + right. split; [exact Hf|].
      destruct (blocks_from_nodes blocks 0 bs B) as (L & N).
      apply In_nth_error in Hin. destruct Hin as (i & Hi).
      assert (Hlt : (i < List.length blocks)%nat).
      { rewrite <- L, <- (length_map fst). apply nth_error_Some. now rewrite Hi. }
      destruct (nth_error blocks i) as [b|] eqn:Eb;
        [|apply nth_error_None in Eb; lia].
      destruct (N i b Eb) as (d & n & -> & Hn & (turns' & Hnode & _)).
      rewrite Hi in Hn. injection Hn as <-. injection Hnode as Hid _ _.
      exists i, d. split; [exact Eb|]. cbn [Nat.add] in Hid.
      unfold dict_get in Hid. destruct (dict_lookup d "block_id") as [v|] eqn:Lk.
      * exfalso. subst v. pose proof (find_block_none _ _ Hf) as F.
        rewrite Forall_forall in F.
        destruct (F _ (nth_error_In _ _ Eb)) as (d' & Ed & Hne).
        injection Ed as <-. unfold dict_get in Hne. rewrite Lk in Hne.
        cbn [eq_str] in Hne. now rewrite String.eqb_refl in Hne.
      * split; [reflexivity|]. now injection Hid as ->.
Qed.

Lemma X17_lookup_of_diagram_nodes_witness :
  exists flow,
    extract_flow_diagram (PList [PDict [("name", PStr "Greeting")]; PDict [("block_id", PStr "b7")]])
      None = Ok flow /\
    In (BlockNode (PStr "block_0") (PStr "Greeting") []) (blockagent_nodes flow) /\
    get_block_info (PList [PDict [("name", PStr "Greeting")]; PDict [("block_id", PStr "b7")]])
      "block_0" = Ok None /\
    forall id, exists r,
      get_block_info (PList [PDict [("name", PStr "Greeting")]; PDict [("block_id", PStr "b7")]])
        id = Ok r.
Proof.
  eexists. split; [vm_compute; reflexivity|]. split; [left; reflexivity|].
  split; [reflexivity|].
  eapply (X17_lookup_of_diagram_nodes
            [PDict [("name", PStr "Greeting")]; PDict [("block_id", PStr "b7")]] None).
  vm_compute. reflexivity.
Defined.

(** ** Loading the infrastructure *)

Lemma m_lit {A} p : forall s c (k : string -> Re.caps -> option A),
  Re.m (Re.lit p) s c k =
  if String.prefix p s then k (drop (String.length p) s) c else None.
Proof.
  induction p as [|a p IH]; intros s c k; cbn [Re.lit Re.m].
  - destruct s; reflexivity.
  - destruct s as [|b s]; [reflexivity|]. unfold Re.chr. cbn [Re.m String.prefix String.length drop].
    destruct (ascii_dec a b) as [->|N].
    + rewrite Ascii.eqb_refl. apply IH.
    + apply Ascii.eqb_neq in N. now rewrite N.
Qed.

Lemma prefix_drop p : forall s,
  String.prefix p s = true -> s = p ++ drop (String.length p) s.
Proof.
  induction p as [|a p IH]; intros s H; [now destruct s|].
  destruct s as [|b s]; [discriminate H|]. cbn in H.
  destruct (ascii_dec a b) as [->|]; [|discriminate H].
  cbn. f_equal. now apply IH.
Qed.

Lemma prefix_app_same p r : String.prefix p (p ++ r) = true.
Proof. apply prefix_app, prefix_refl. Qed.

Lemma drop_app p r : drop (String.length p) (p ++ r) = r.
Proof. induction p as [|a p IH]; cbn; [now destruct r | exact IH]. Qed.

Lemma lazy_any_first {A} (k : string -> option A) : forall s x,
  lazy_any s k = Some x ->
  exists a b, s = a ++ b /\ k b = Some x /\
              forall a1 a2, a = a1 ++ a2 -> a2 <> "" -> k (a2 ++ b) = None.
Proof.
  induction s as [|c t IH]; intros x H; cbn [lazy_any] in H.
  - exists "", "". destruct (k ""); [|discriminate H]. repeat split; [exact H|].
    intros a1 a2 E N. destruct a1; destruct a2; try discriminate E. now destruct N.
  - destruct (k (String c t)) as [y|] eqn:K.
    + exists "", (String c t). rewrite K. repeat split; [exact H|].
      intros a1 a2 E N. destruct a1; destruct a2; try discriminate E. now destruct N.
    + destruct (IH x H) as (a & b & -> & Kb & F).
      exists (String c a), b. repeat split; [exact Kb|].
      intros a1 a2 E N. destruct a1 as [|c1 a1].
      * cbn in E. subst a2. exact K.
      * cbn in E. injection E as _ E. exact (F a1 a2 E N).
Qed.

Lemma lazy_any_finds {A} (k : string -> option A) a : forall b,
  k b <> None -> lazy_any (a ++ b) k <> None.
Proof.
  induction a as [|c a IH]; intros b H; cbn [append lazy_any].
  - destruct b; cbn [lazy_any]; destruct (k _); congruence.
  - destruct (k (String c (a ++ b))); [discriminate|]. now apply IH.
Qed.

Lemma contains_none mid sub tail :
  (forall a1 a2, mid = a1 ++ a2 -> a2 <> "" -> String.prefix sub (a2 ++ tail) = false) ->
  contains tail sub = false -> contains (mid ++ tail) sub = false.
Proof.
  induction mid as [|c m IH]; intros F T; [exact T|].
  cbn [append contains]. apply orb_false_iff. split.
  - apply (F "" (String c m) eq_refl). discriminate.
  - apply IH; [|exact T]. intros a1 a2 E N. apply (F (String c a1) a2); [|exact N].
    cbn. now rewrite E.
Qed.

Lemma take_length n : forall s, (String.length (take n s) <= n)%nat.
Proof.
  induction n as [|n IH]; intros s; [destruct s; cbn; lia|].
  destruct s as [|c s]; cbn; [lia|]. specialize (IH s). lia.
Qed.

Lemma startswith_take p : forall n r t,
  (String.length p <= n)%nat -> startswith (take n (p ++ r) ++ t) p = true.
Proof.
  unfold startswith. induction p as [|a p IH]; intros n r t L; [apply prefix_nil|].
  destruct n as [|n]; [cbn in L; lia|]. cbn [append take String.prefix].
  destruct (ascii_dec a a); [|congruence]. apply IH. cbn in L. lia.
Qed.

Lemma xml_match_here_shape s doc :
  xml_match_here s = Some doc ->
  exists mid post,
    s = doc ++ post /\ doc = "<?xml" ++ mid ++ "</chain>" /\
    contains (mid ++ "</chain") "</chain>" = false.
Proof.
  unfold xml_match_here. rewrite m_lit.
  destruct (String.prefix "<?xml" s) eqn:P; [|discriminate].
  apply prefix_drop in P. set (rest := drop (String.length "<?xml") s) in *.
  intros H. apply lazy_any_first in H. destruct H as (mid & b & Hr & Hk & F).
  rewrite m_lit in Hk. destruct (String.prefix "</chain>" b) eqn:Pb; [|discriminate Hk].
  apply prefix_drop in Pb. set (post := drop (String.length "</chain>") b) in *.
  injection Hk as <-. exists mid, post.
  assert (Es : s = ("<?xml" ++ mid ++ "</chain>") ++ post).
  { rewrite P, Hr, Pb. now rewrite !str_app_assoc. }
  assert (Ec : Re.consumed s post = "<?xml" ++ mid ++ "</chain>")
    by (rewrite Es; apply consumed_app).
  rewrite Ec. split; [exact Es|]. split; [reflexivity|].
  apply contains_none; [|reflexivity].
  intros a1 a2 E N. specialize (F a1 a2 E N). rewrite m_lit in F.
  destruct (String.prefix "</chain>" (a2 ++ b)) eqn:Q; [discriminate F|].
  destruct (String.prefix "</chain>" (a2 ++ "</chain")) eqn:Q'; [|reflexivity].
  rewrite <- Q. symmetry. rewrite Pb.
  replace (a2 ++ "</chain>" ++ post) with ((a2 ++ "</chain") ++ (">" ++ post))
    by (now rewrite str_app_assoc).
  now apply prefix_app.
Qed.

Lemma xml_search_shape : forall content doc,
  xml_search content = Some doc ->
  exists pre mid post,
    content = pre ++ doc ++ post /\ doc = "<?xml" ++ mid ++ "</chain>" /\
    contains (mid ++ "</chain") "</chain>" = false.
Proof.
  intros s. induction s as [|c t IH]; intros doc H; cbn [xml_search] in H.
  - destruct (xml_match_here "") as [d|] eqn:E; [|discriminate H]. injection H as ->.
    destruct (xml_match_here_shape _ _ E) as (mid & post & H1 & H2 & H3).
    now exists "", mid, post.
  - destruct (xml_match_here (String c t)) as [d|] eqn:E.
    + injection H as ->.
      destruct (xml_match_here_shape _ _ E) as (mid & post & H1 & H2 & H3).
      now exists "", mid, post.
    + destruct (IH _ H) as (pre & mid & post & -> & H2 & H3).
      now exists (String c pre), mid, post.
Qed.

Lemma xml_search_finds pre : forall mid post,
  xml_search (pre ++ "<?xml" ++ mid ++ "</chain>" ++ post) <> None.
Proof.
  assert (Here : forall mid post,
            xml_match_here ("<?xml" ++ mid ++ "</chain>" ++ post) <> None).
  { intros mid post. unfold xml_match_here. rewrite m_lit, prefix_app_same, drop_app.
    apply lazy_any_finds. rewrite m_lit, prefix_app_same. discriminate. }
  induction pre as [|c pre IH]; intros mid post.
  - specialize (Here mid post). cbn [append] in *.
    cbn [xml_search]. destruct (xml_match_here _); [discriminate | now destruct Here].
  - cbn [append xml_search]. destruct (xml_match_here _); [discriminate | apply IH].
Qed.

(** X18.  What loading the infrastructure keeps of the XML file.  It keeps
    something exactly when the file holds the text [<?xml] with the closing
    tag of a chain somewhere after it.  What it keeps then is cut from the
    document that starts at such a [<?xml] and ends with the first closing
    tag of a chain after it: the first 1000 characters of this document
    followed by three dots, so a text of at most 1003 characters that starts
    with [<?xml] and is never the document itself. *)
Theorem X18_stored_xml_snippet :
  forall content infra_file,
    match fst (load_infrastructure (Some content) infra_file) with
    | Some raw_xml =>
        exists pre mid post,
          content = pre ++ "<?xml" ++ mid ++ "</chain>" ++ post /\
          contains (mid ++ "</chain") "</chain>" = false /\
          raw_xml = take 1000 ("<?xml" ++ mid ++ "</chain>") ++ "..." /\
          (String.length raw_xml <= 1003)%nat /\
          startswith raw_xml "<?xml" = true
    | None =>
        forall pre mid post, content <> pre ++ "<?xml" ++ mid ++ "</chain>" ++ post
    end.
Proof.
  intros content infra_file. unfold load_infrastructure. cbn [fst].
  destruct (xml_search content) as [doc|] eqn:S.
  - destruct (xml_search_shape _ _ S) as (pre & mid & post & Hc & -> & Hm).
    exists pre, mid, post. split; [now rewrite Hc, !str_app_assoc|].
    split; [exact Hm|]. split; [reflexivity|]. split.
    + rewrite str_app_length. pose proof (take_length 1000 ("<?xml" ++ mid ++ "</chain>")).
      change (String.length "...") with 3%nat. lia.
    + apply startswith_take. cbn. lia.
  - intros pre mid post E. apply (xml_search_finds pre mid post). now rewrite <- E.
Qed.

Lemma prefix_length p : forall s, String.prefix p s = true -> (String.length p <= String.length s)%nat.
Proof.
  induction p as [|a p IH]; intros s H; [cbn; lia|].
  destruct s as [|b s]; [discriminate H|]. cbn in H.
  destruct (ascii_dec a b); [|discriminate H]. specialize (IH s H). cbn. lia.
Qed.

Lemma prefix_app_long p : forall r t,
  (String.length p <= String.length r)%nat -> String.prefix p (r ++ t) = String.prefix p r.
Proof.
  induction p as [|a p IH]; intros r t L; [now rewrite !prefix_nil|].
  destruct r as [|b r]; [cbn in L; lia|]. cbn [append String.prefix].
  destruct (ascii_dec a b); [|reflexivity]. apply IH. cbn in L. lia.
Qed.

Lemma take_app_le n : forall s t, (n <= String.length s)%nat -> take n (s ++ t) = take n s.
Proof.
  induction n as [|n IH]; intros s t L; [now destruct s, t|].
  destruct s as [|c s]; [cbn in L; lia|]. cbn. f_equal. apply IH. cbn in L. lia.
Qed.

Lemma drop_app_le n : forall s t, (n <= String.length s)%nat -> drop n (s ++ t) = drop n s ++ t.
Proof.
  induction n as [|n IH]; intros s t L; [reflexivity|].
  destruct s as [|c s]; [cbn in L; lia|]. cbn. apply IH. cbn in L. lia.
Qed.

Lemma drop_length n : forall s, String.length (drop n s) = (String.length s - n)%nat.
Proof.
  induction n as [|n IH]; intros s; [cbn; lia|].
  destruct s as [|c s]; [reflexivity|]. cbn. apply IH.
Qed.

Lemma consumed_same_tail x r t :
  (String.length r <= String.length x)%nat ->
  Re.consumed (x ++ t) (r ++ t) = Re.consumed x r.
Proof.
  intros L. unfold Re.consumed. rewrite !str_app_length.
  replace (String.length x + String.length t - (String.length r + String.length t))%nat
    with (String.length x - String.length r)%nat by lia.
  apply take_app_le. lia.
Qed.

Lemma lazy_chain_app x t doc : forall r,
  (String.length r <= String.length x)%nat ->
  lazy_any r (fun s2 => Re.m (Re.lit "</chain>") s2 [] (fun s3 _ => Some (Re.consumed x s3)))
    = Some doc ->
  lazy_any (r ++ t)
    (fun s2 => Re.m (Re.lit "</chain>") s2 [] (fun s3 _ => Some (Re.consumed (x ++ t) s3)))
    = Some doc.
Proof.
  induction r as [|c r IH]; intros L H.
  - cbn [lazy_any] in H. rewrite m_lit in H. discriminate H.
  - cbn [lazy_any] in H. rewrite m_lit in H.
    destruct (String.prefix "</chain>" (String c r)) eqn:P.
    + change (String.length "</chain>") with 8%nat in H.
      remember (drop 8 (String c r)) as r' eqn:Er. injection H as <-.
      pose proof (prefix_length _ _ P) as Lp.
      assert (E : lazy_any (String c r ++ t)
                    (fun s2 => Re.m (Re.lit "</chain>") s2 []
                                 (fun s3 _ => Some (Re.consumed (x ++ t) s3)))
                  = Some (Re.consumed (x ++ t) (drop 8 (String c r ++ t)))).
      { destruct (String c r ++ t) eqn:Eq; [discriminate Eq|]. rewrite <- Eq.
        assert (Q : String.prefix "</chain>" (String c r ++ t) = true)
          by (now apply prefix_app).
        rewrite Eq in *. cbn [lazy_any]. rewrite m_lit, Q. reflexivity. }
      rewrite E. f_equal. change (String.length "</chain>") with 8%nat in *.
      rewrite (drop_app_le 8 (String c r) t Lp), <- Er. apply consumed_same_tail.
      rewrite Er, drop_length. lia.
    + assert (L8 : (8 <= String.length r)%nat).
      { apply lazy_any_first in H. destruct H as (a & b & -> & Hk & _).
        rewrite m_lit in Hk. destruct (String.prefix "</chain>" b) eqn:Pb; [|discriminate Hk].
        apply prefix_length in Pb. rewrite str_app_length. cbn in Pb. lia. }
      cbn [append lazy_any]. rewrite m_lit.
      change (String c (r ++ t)) with (String c r ++ t).
      rewrite prefix_app_long, P by (cbn; lia).
      apply IH; [cbn in L; lia | exact H].
Qed.

Lemma xml_match_here_app x t doc :
  xml_match_here x = Some doc -> xml_match_here (x ++ t) = Some doc.
Proof.
  unfold xml_match_here. rewrite !m_lit.
  destruct (String.prefix "<?xml" x) eqn:P; [|discriminate].
  rewrite (prefix_app _ _ t P). pose proof (prefix_length _ _ P) as L.
  change (String.length "<?xml") with 5%nat in *.
  rewrite (drop_app_le 5 x t L). apply lazy_chain_app.
  rewrite drop_length. lia.
Qed.

Lemma xml_search_app t : forall x doc,
  xml_search x = Some doc -> xml_search (x ++ t) = Some doc.
Proof.
  induction x as [|c x IH]; intros doc H; cbn [xml_search] in H.
  - destruct (xml_match_here "") eqn:E; [|discriminate H]. discriminate E.
  - destruct (xml_match_here (String c x)) as [d|] eqn:E.
    + injection H as ->. apply (xml_match_here_app _ t) in E.
      cbn [append] in *. cbn [xml_search]. now rewrite E.
    + cbn [append xml_search].
      assert (N : xml_match_here (String c (x ++ t)) = None).
      { change (String c (x ++ t)) with (String c x ++ t).
        destruct (xml_search_shape _ _ H) as (pre & mid & post & Hx & -> & _).
        assert (L13 : (13 <= String.length x)%nat).
        { rewrite Hx, !str_app_length. cbn. lia. }
        unfold xml_match_here in *. rewrite m_lit in *.
        rewrite prefix_app_long by (cbn; lia).
        destruct (String.prefix "<?xml" (String c x)) eqn:P; [|reflexivity].
        exfalso. revert E. change (String.length "<?xml") with 5%nat.
        change (drop 5 (String c x)) with (drop 4 x). rewrite Hx.
        replace (pre ++ ("<?xml" ++ mid ++ "</chain>") ++ post)
          with ((pre ++ "<?xml") ++ mid ++ "</chain>" ++ post)
          by (now rewrite !str_app_assoc).
        rewrite drop_app_le by (rewrite str_app_length; cbn; lia).
        rewrite str_app_assoc.
        replace (drop 4 (pre ++ "<?xml") ++ mid ++ "</chain>" ++ post)
          with ((drop 4 (pre ++ "<?xml") ++ mid) ++ "</chain>" ++ post)
          by (now rewrite !str_app_assoc).
        apply lazy_any_finds. rewrite m_lit, prefix_app_same. discriminate. }
      rewrite N. exact (IH _ H).
Qed.

(** X19.  Nothing that follows the first closing tag of a chain reaches the
    debugger: when loading keeps something of an XML file, it keeps the same
    text from every file that continues this one, and the diagram built from
    it is the same, whatever plugins and chains the continuation holds. *)
Theorem X19_nothing_after_first_chain :
  forall content infra_file raw_xml more,
    fst (load_infrastructure (Some content) infra_file) = Some raw_xml ->
    load_infrastructure (Some (content ++ more)) infra_file =
      load_infrastructure (Some content) infra_file /\
    extract_flow_diagram (snd (load_infrastructure (Some (content ++ more)) infra_file))
                         (fst (load_infrastructure (Some (content ++ more)) infra_file)) =
    extract_flow_diagram (snd (load_infrastructure (Some content) infra_file))
                         (Some raw_xml).
Proof.
  intros content infra_file raw more H.
  assert (E : load_infrastructure (Some (content ++ more)) infra_file =
              load_infrastructure (Some content) infra_file).
  { unfold load_infrastructure in *. cbn [fst] in H.
    destruct (xml_search content) as [doc|] eqn:S; [|discriminate H].
    now rewrite (xml_search_app more content doc S). }
  split; [exact E|]. rewrite E, H. reflexivity.
Qed.

Lemma X18_stored_xml_snippet_witness :
  fst (load_infrastructure (Some xml_one_chain) None) =
    Some (qq "<?xml version=1?><chain left='A' right='B'></chain>...") /\
  match fst (load_infrastructure (Some xml_one_chain) None) with
  | Some raw_xml =>
      exists pre mid post,
        xml_one_chain = pre ++ "<?xml" ++ mid ++ "</chain>" ++ post /\
        contains (mid ++ "</chain") "</chain>" = false /\
        raw_xml = take 1000 ("<?xml" ++ mid ++ "</chain>") ++ "..." /\
        (String.length raw_xml <= 1003)%nat /\
        startswith raw_xml "<?xml" = true
  | None =>
      forall pre mid post, xml_one_chain <> pre ++ "<?xml" ++ mid ++ "</chain>" ++ post
  end.
Proof.
  split; [vm_compute; reflexivity|].
  exact (X18_stored_xml_snippet xml_one_chain None).
Defined.

Lemma X19_nothing_after_first_chain_witness :
  exists flow,
    extract_flow_diagram
      (snd (load_infrastructure (Some (xml_one_chain ++ xml_more_chains)) None))
      (fst (load_infrastructure (Some (xml_one_chain ++ xml_more_chains)) None)) = Ok flow /\
    nodes flow = [] /\
    edges flow = [{| e_from := PStr "A"; e_to := PStr "B"; e_label := None;
                     e_type := smartflow |}] /\
    load_infrastructure (Some (xml_one_chain ++ xml_more_chains)) None =
      load_infrastructure (Some xml_one_chain) None.
Proof.
  eexists. split; [vm_compute; reflexivity|]. split; [reflexivity|].
  split; [reflexivity|].
  eapply (X19_nothing_after_first_chain xml_one_chain None).
  vm_compute. reflexivity.
Defined.

(** ** The sessions the web application serves *)

Lemma registry_get_set ds k d k' :
  registry_get (registry_set ds k d) k' =
  if key_eqb k k' then Some d else registry_get ds k'.
Proof.
  induction ds as [|[k0 d0] t IH]; cbn [registry_set registry_get]; [reflexivity|].
  destruct (key_eqb k0 k) eqn:E0; cbn [registry_get].
  - destruct (key_eqb k k') eqn:E.
    + now rewrite (key_eqb_trans k0 k k' E0 E).
    + now rewrite (key_eqb_apart k0 k k' E0 E).
  - destruct (key_eqb k0 k') eqn:E1; [|exact IH].
    destruct (key_eqb k k') eqn:E; [|reflexivity].
    exfalso. rewrite (key_eqb_trans k0 k' k E1) in E0; [discriminate E0|].
    now rewrite key_eqb_sym.
Qed.

Lemma registry_get_fold d l : forall ds k,
  registry_get (fold_left (fun ds sid => registry_set ds sid d) l ds) k =
  if existsb (fun sid => key_eqb sid k) l then Some d else registry_get ds k.
Proof.
  induction l as [|sid t IH]; intros ds k; cbn [fold_left existsb]; [reflexivity|].
  rewrite IH, registry_get_set.
  destruct (key_eqb sid k); cbn [orb]; [|reflexivity].
  destruct (existsb _ t); reflexivity.
Qed.

Lemma loaded_index jl jd sf ba xml infra dbg :
  load_all jl jd sf ba xml infra = Ok dbg ->
  distinct_keys (get_all_sessions dbg) /\
  forall sid, In sid (get_all_sessions dbg) -> holds_session (sid, dbg).
Proof.
  intros H.
  destruct (load_all_grouped _ _ _ _ _ _ _ H) as (G & _).
  destruct (load_all_sessions_ok _ _ _ _ _ _ _ H) as (Hok & _).
  assert (D : distinct_keys (map fst (sessions dbg)))
    by exact (group_by_sessions_distinct _ [] _ I G).
  split; [exact D|]. intros sid Hin. unfold get_all_sessions in Hin.
  apply in_map_iff in Hin. destruct Hin as ([k es] & <- & Hk). cbn [fst].
  assert (Hh : hashable k = true).
  { unfold sessions_ok in Hok. rewrite Forall_forall in Hok. exact (proj1 (Hok _ Hk)). }
  split; [exact Hh|]. cbn [fst snd].
  pose proof (distinct_lookup _ k es D Hh Hk) as L. rewrite L.
  rewrite (group_by_sessions_lookup _ _ _ G k) in L. cbn [sessions_lookup app] in L.
  destruct (filter (in_session k) (unified_timeline dbg)) as [|e f]; [discriminate L|].
  injection L as <-. now exists e, f.
Qed.

(** X20.  Registering a debugger makes every session of its index point to
    it and leaves every other session of the registry where it was: after
    the loop a key gives the new debugger when it is the same dict key as a
    session id of the new debugger, and what it gave before otherwise.  So
    the sessions of a new upload replace those of an earlier one, and after
    the sessions are cleared the registry holds the sessions of the default
    debugger and nothing else. *)
Theorem X20_registering_replaces_sessions :
  forall debuggers dbg,
    (forall k,
       registry_get (register_sessions debuggers dbg) k =
       if existsb (fun sid => key_eqb sid k) (get_all_sessions dbg)
       then Some dbg else registry_get debuggers k) /\
    (forall k,
       registry_get (clear_sessions (Some dbg)) k =
       if existsb (fun sid => key_eqb sid k) (get_all_sessions dbg)
       then Some dbg else None) /\
    (forall json_loads json_dumps smartflow_data blockagent_data xml infra sid,
       load_all json_loads json_dumps smartflow_data blockagent_data xml infra = Ok dbg ->
       In sid (get_all_sessions dbg) ->
       registry_get (register_sessions debuggers dbg) sid = Some dbg).
Proof.
  intros ds dbg. split; [|split].
  - intros k. unfold register_sessions. apply registry_get_fold.
  - intros k. unfold clear_sessions, register_sessions. apply registry_get_fold.
  - intros jl jd sf ba xml infra sid H Hin. unfold register_sessions.
    rewrite registry_get_fold.
    destruct (loaded_index _ _ _ _ _ _ _ H) as (_ & Hs).
    destruct (Hs sid Hin) as (Hh & _). cbn [fst] in Hh.
    assert (E : existsb (fun s => key_eqb s sid) (get_all_sessions dbg) = true).
    { apply existsb_exists. exists sid. split; [exact Hin | now apply key_eqb_refl]. }
    now rewrite E.
Qed.

Lemma X20_registering_replaces_sessions_witness :
  exists dbg,
    load_all Json.loads (fun _ => "") two_source_flow two_source_agent None (PList [])
      = Ok dbg /\
    registry_get (register_sessions [] dbg) (PStr "agent-session") = Some dbg.
Proof.
  eexists. split; [vm_compute; reflexivity|].
  eapply (proj2 (proj2 (X20_registering_replaces_sessions [] _))
            Json.loads (fun _ => "") two_source_flow two_source_agent None (PList [])).
  - vm_compute. reflexivity.
  - left. reflexivity.
Defined.

Lemma sessions_lookup_eqb ss a b :
  key_eqb a b = true -> sessions_lookup ss a = sessions_lookup ss b.
Proof.
  intros H. induction ss as [|[k es] t IH]; cbn [sessions_lookup]; [reflexivity|].
  destruct (key_eqb k a) eqn:E.
  - now rewrite (key_eqb_trans k a b E H).
  - assert (E' : key_eqb k b = false).
    { rewrite key_eqb_sym. apply (key_eqb_apart b a k).
      - now rewrite key_eqb_sym.
      - now rewrite key_eqb_sym. }
    rewrite E'. exact IH.
Qed.

Lemma registry_set_keys ds k d k' :
  In k' (map fst (registry_set ds k d)) -> In k' (map fst ds) \/ k' = k.
Proof.
  induction ds as [|[k0 d0] t IH]; cbn [registry_set map fst In].
  - intros [<-|[]]. now right.
  - destruct (key_eqb k0 k); cbn [map fst In]; [tauto|].
    intros [H|H]; [tauto|]. destruct (IH H); tauto.
Qed.

Lemma registry_set_distinct ds k d :
  distinct_keys (map fst ds) -> distinct_keys (map fst (registry_set ds k d)).
Proof.
  induction ds as [|[k0 d0] t IH]; cbn [registry_set map fst distinct_keys].
  - intros _. split; [constructor | exact I].
  - intros [H0 Ht]. destruct (key_eqb k0 k) eqn:E; cbn [map fst distinct_keys].
    + split; assumption.
    + split; [|now apply IH].
      rewrite Forall_forall in *. intros k' Hk'.
      destruct (registry_set_keys t k d k' Hk') as [H| ->]; [now apply H0 | exact E].
Qed.

Lemma registry_set_holds ds k d :
  Forall holds_session ds -> holds_session (k, d) ->
  Forall holds_session (registry_set ds k d).
Proof.
  intros F H. induction F as [|[k0 d0] t H0 Ft IH]; cbn [registry_set].
  - constructor; [exact H | constructor].
  - destruct (key_eqb k0 k) eqn:E.
    + constructor; [|exact Ft]. destruct H as (Hh & e & es & L). cbn [fst snd] in *.
      split; [exact (proj1 (key_eqb_hashable _ _ E))|].
      exists e, es. now rewrite (sessions_lookup_eqb _ k0 k E).
    + constructor; [exact H0 | exact IH].
Qed.

Lemma served_holds ds :
  served ds -> Forall holds_session ds /\ distinct_keys (map fst ds).
Proof.
  induction 1 as [|ds jl jd sf ba xml infra dbg _ (IH1 & IH2) L];
    [split; [constructor | exact I]|].
  destruct (loaded_index _ _ _ _ _ _ _ L) as (_ & Hs).
  unfold register_sessions. revert ds IH1 IH2.
  induction (get_all_sessions dbg) as [|sid l IHl]; intros ds IH1 IH2; cbn [fold_left].
  - now split.
  - apply IHl.
    + intros s Hin. apply Hs. now right.
    + apply registry_set_holds; [exact IH1 | apply Hs; now left].
    + now apply registry_set_distinct.
Qed.

Lemma filter_length_le {A} (f g : A -> bool) l :
  (forall x, f x = true -> g x = true) ->
  (List.length (filter f l) <= List.length (filter g l))%nat.
Proof.
  intros H. induction l as [|a t IH]; [cbn; lia|]. cbn [filter].
  destruct (f a) eqn:E.
  - rewrite (H a E). cbn. lia.
  - destruct (g a); cbn; lia.
Qed.

(** X21.  The list of sessions of the application never fails and never
    shows an empty session: in every state that the application reaches it
    has one row per registered session id, in the order of registration and
    without a repeated id, and every row counts at least one entry, as many
    entries as its two counts by source together, and no more conversation
    turns than entries of the agent. *)
Theorem X21_listed_sessions_have_entries :
  forall debuggers,
    served debuggers ->
    exists rows,
      get_sessions debuggers = Ok rows /\
      map row_session_id rows = map fst debuggers /\
      distinct_keys (map fst debuggers) /\
      Forall (fun r => (1 <= row_total_entries r)%nat /\
                       (row_smartflow_entries r + row_blockagent_entries r)%nat
                         = row_total_entries r /\
                       (row_conversation_turns r <= row_blockagent_entries r)%nat) rows.
Proof.
  intros ds S. destruct (served_holds ds S) as (F & D).
  assert (R : exists rows, get_sessions ds = Ok rows /\
                map row_session_id rows = map fst ds /\
                Forall (fun r => (1 <= row_total_entries r)%nat /\
                                 (row_smartflow_entries r + row_blockagent_entries r)%nat
                                   = row_total_entries r /\
                                 (row_conversation_turns r <= row_blockagent_entries r)%nat)
                       rows).
  { clear S D. unfold get_sessions.
    induction F as [|[k d] t (Hh & e & es & L) _ (rows & Hrows & Hm & Hr)]; cbn [mapM].
    - exists []. repeat split. constructor.
    - cbn [fst snd] in *. unfold get_conversation_summary at 1, get_session_timeline.
      rewrite Hh, L. cbn [Py.bind]. rewrite Hrows. cbn [Py.bind].
      eexists. split; [reflexivity|].
      cbn [map row_session_id]. split; [now rewrite Hm|].
      constructor; [|exact Hr].
      cbn [row_total_entries row_smartflow_entries row_blockagent_entries
           row_conversation_turns total_entries smartflow_entries blockagent_entries
           conversation].
      split; [cbn; lia|]. split; [apply count_by_source|].
      rewrite length_map. apply filter_length_le.
      intros x Hx. unfold in_conversation in Hx. now apply andb_true_iff in Hx. }
  destruct R as (rows & H1 & H2 & H3). exists rows. repeat split; assumption.
Qed.

Lemma X21_listed_sessions_have_entries_witness :
  exists dbg,
    load_all Json.loads (fun _ => "") two_source_flow two_source_agent None (PList [])
      = Ok dbg /\
    exists rows,
      get_sessions (register_sessions [] dbg) = Ok rows /\
      map row_session_id rows = map fst (register_sessions [] dbg) /\
      distinct_keys (map fst (register_sessions [] dbg)) /\
      Forall (fun r => (1 <= row_total_entries r)%nat /\
                       (row_smartflow_entries r + row_blockagent_entries r)%nat
                         = row_total_entries r /\
                       (row_conversation_turns r <= row_blockagent_entries r)%nat) rows.
Proof.
  eexists. split; [vm_compute; reflexivity|].
  apply X21_listed_sessions_have_entries.
  eapply (served_loaded [] Json.loads (fun _ => "") two_source_flow two_source_agent
            None (PList [])); [apply served_empty|].
  vm_compute. reflexivity.
Defined.

Lemma registry_get_In ds k d :
  registry_get ds k = Some d -> exists k', In (k', d) ds /\ key_eqb k' k = true.
Proof.
  induction ds as [|[k0 d0] t IH]; cbn [registry_get]; [discriminate|].
  destruct (key_eqb k0 k) eqn:E.
  - intros H. injection H as <-. exists k0. split; [now left | exact E].
  - intros H. destruct (IH H) as (k' & Hin & Hk). exists k'. split; [now right | exact Hk].
Qed.

Lemma registry_get_None ds k :
  registry_get ds k = None -> Forall (fun k' => key_eqb k' k = false) (map fst ds).
Proof.
  induction ds as [|[k0 d0] t IH]; cbn [registry_get map fst]; [constructor|].
  destruct (key_eqb k0 k) eqn:E; [discriminate|]. intros H. constructor; [exact E | exact (IH H)].
Qed.

(** X22.  Opening a session by the text of its id never fails either: the
    answer is 404 exactly when no registered id is this text, and otherwise
    it is the timeline of the session in the debugger registered for it,
    which is never empty. *)
Theorem X22_registered_sessions_open :
  forall debuggers session_id,
    served debuggers ->
    (registry_get debuggers (PStr session_id) = None /\
     get_session_details debuggers session_id = Ok None /\
     Forall (fun k => key_eqb k (PStr session_id) = false) (map fst debuggers)) \/
    (exists debugger e es,
       registry_get debuggers (PStr session_id) = Some debugger /\
       get_session_details debuggers session_id = Ok (Some (e :: es)) /\
       get_session_timeline debugger (PStr session_id) = Ok (e :: es)).
Proof.
  intros ds sid S. destruct (served_holds ds S) as (F & _).
  unfold get_session_details.
  destruct (registry_get ds (PStr sid)) as [d|] eqn:G.
  - right. destruct (registry_get_In _ _ _ G) as (k' & Hin & Hk).
    rewrite Forall_forall in F. destruct (F _ Hin) as (_ & e & es & L).
    cbn [fst snd] in L. rewrite (sessions_lookup_eqb _ k' (PStr sid) Hk) in L.
    exists d, e, es. unfold get_session_timeline. cbn [hashable]. rewrite L.
    cbn [Py.bind]. repeat split.
  - left. repeat split. exact (registry_get_None _ _ G).
Qed.

Lemma X22_registered_sessions_open_witness :
  exists dbg,
    load_all Json.loads (fun _ => "") two_source_flow two_source_agent None (PList [])
      = Ok dbg /\
    ((registry_get (register_sessions [] dbg) (PStr "agent-session") = None /\
      get_session_details (register_sessions [] dbg) "agent-session" = Ok None /\
      Forall (fun k => key_eqb k (PStr "agent-session") = false)
             (map fst (register_sessions [] dbg))) \/
     (exists debugger e es,
        registry_get (register_sessions [] dbg) (PStr "agent-session") = Some debugger /\
        get_session_details (register_sessions [] dbg) "agent-session" = Ok (Some (e :: es)) /\
        get_session_timeline debugger (PStr "agent-session") = Ok (e :: es))).
Proof.
  eexists. split; [vm_compute; reflexivity|].
  apply X22_registered_sessions_open.
  eapply (served_loaded [] Json.loads (fun _ => "") two_source_flow two_source_agent
            None (PList [])); [apply served_empty|].
  vm_compute. reflexivity.
Defined.

(** ** Messages that hold JSON *)

Lemma decode_message_nested jl jd s nd ts0 dm :
  startswith (strip s) "{" = true -> jl s = Some (PDict nd) ->
  decode_message jl jd (PStr s) ts0 = Ok dm ->
  actual_timestamp dm = dict_get nd "timestamp" ts0 /\
  message_content dm =
    match dict_lookup nd "message" with
    | Some inner => inner
    | None => PStr (jd (PDict nd))
    end.
Proof.
  intros P J H. unfold decode_message in H. rewrite P, J in H.
  cbn [has_key getitem Py.bind] in H. unfold dict_has in H.
  assert (T : (if match dict_lookup nd "timestamp" with Some _ => true | None => false end
               then match dict_lookup nd "timestamp" with
                    | Some x => Ok x
                    | None => Raise KeyError
                    end
               else Ok ts0) = Ok (dict_get nd "timestamp" ts0)).
  { unfold dict_get. destruct (dict_lookup nd "timestamp"); reflexivity. }
  rewrite T in H. cbn [Py.bind] in H. clear T.
  destruct (dict_lookup nd "message") as [inner|] eqn:M; cbn [Py.bind] in H.
  - match type of H with Py.bind ?u _ = _ => destruct u as [[[[c1 i1] p1] l1]|] eqn:U end;
      cbn [Py.bind] in H; [|discriminate H].
    match type of H with Py.bind ?u _ = _ => destruct u as [p2|] end;
      cbn [Py.bind] in H; [|discriminate H].
    match type of H with Py.bind ?u _ = _ => destruct u as [l2|] end;
      cbn [Py.bind] in H; [|discriminate H].
    assert (C : c1 = inner \/ c1 = PStr s).
    { destruct inner; try (injection U as <- _ _ _; now right).
      destruct (decode_inner jl s0) as [[[a b] c]|]; cbn [Py.bind] in U; [|discriminate U].
      injection U as <- _ _ _. now left. }
    destruct (negb (truthy c1) || eq_str c1 s) eqn:B; cbn [Py.bind] in H;
      injection H as <-; cbn [actual_timestamp message_content]; split; try reflexivity.
    destruct C as [->| ->]; [reflexivity|].
    cbn [eq_str] in B. rewrite String.eqb_refl, orb_true_r in B. discriminate B.
  - match type of H with Py.bind ?u _ = _ => destruct u as [p2|] end;
      cbn [Py.bind] in H; [|discriminate H].
    match type of H with Py.bind ?u _ = _ => destruct u as [l2|] end;
      cbn [Py.bind] in H; [|discriminate H].
    cbn [eq_str] in H. rewrite String.eqb_refl, orb_true_r in H. cbn [Py.bind] in H.
    injection H as <-. split; reflexivity.
Qed.

(** X23.  A message that holds a JSON object is unwrapped.  The entry takes
    the timestamp of the object when it has one, and that of the record
    otherwise; and unless the entry is given a role, its content is the
    [message] of the object when it has one, and the text that [json.dumps]
    gives for the object otherwise. *)
Theorem X23_json_message_is_unwrapped :
  forall json_loads json_dumps d s nested e,
    dict_get d "message" (PStr "") = PStr s ->
    startswith (strip s) "{" = true ->
    json_loads s = Some (PDict nested) ->
    smartflow_entry json_loads json_dumps (PDict d) = Ok e ->
    timestamp e = dict_get nested "timestamp" (dict_get d "timestamp" (PStr "")) /\
    (role e = PNone ->
     content e = match dict_lookup nested "message" with
                 | Some inner => inner
                 | None => PStr (json_dumps (PDict nested))
                 end).
Proof.
  intros jl jd d s nd e M P J H. unfold smartflow_entry in H.
  destruct (_extract_session_id_from_smartflow jl (PDict d)) as [sid|];
    cbn [Py.bind] in H; [|discriminate H].
  cbn [get Py.bind] in H. rewrite M in H.
  destruct (decode_message jl jd (PStr s) (dict_get d "timestamp" (PStr ""))) as [dm|] eqn:D;
    cbn [Py.bind] in H; [|discriminate H].
  destruct (decode_message_nested jl jd s nd _ dm P J D) as (Ht & Hc).
  match type of H with Py.bind ?u _ = _ => destruct u as [pid|] end;
    cbn [Py.bind] in H; [|discriminate H].
  match type of H with Py.bind ?u _ = _ => destruct u as [lt|] end;
    cbn [Py.bind] in H; [|discriminate H].
  match type of H with Py.bind ?u _ = _ => destruct u as [in_inner|] end;
    cbn [Py.bind] in H; [|discriminate H].
  match type of H with Py.bind ?u _ = _ => destruct u as [in_outer|] end;
    cbn [Py.bind] in H; [|discriminate H].
  destruct (detect_gpt pid lt (inner_parsed_data dm)) as [[r c]|] eqn:G;
    cbn [Py.bind] in H; [|discriminate H].
  injection H as <-.
  match goal with |- context[new_LogEntry ?j ?ts ?src ?sd ?l ?cc ?b ?t ?tr ?rr ?mt ?md] =>
    pose proof (new_LogEntry_fields j ts src sd l cc b t tr rr mt md) as F
  end.
  cbv zeta in F. destruct F as (F1 & _ & _ & _ & F5 & _ & _ & _ & F9 & _).
  rewrite F1, F5, F9. split; [exact Ht|].
  intros ->. destruct (detect_gpt_roles _ _ _ _ _ G) as [(_ & ->)|[R|(R & _)]];
    try discriminate R.
  cbn [truthy]. exact Hc.
Qed.

Lemma X23_json_message_is_unwrapped_witness :
  exists e,
    smartflow_entry Json.loads (fun _ => "")
      (PDict [("message", PStr (qq "{'timestamp': 't1', 'message': 'inner text'}"));
              ("timestamp", PStr "t0")]) = Ok e /\
    timestamp e = PStr "t1" /\
    (role e = PNone -> content e = PStr "inner text").
Proof.
  eexists. split; [vm_compute; reflexivity|].
  eapply (X23_json_message_is_unwrapped Json.loads (fun _ => "")
            [("message", PStr (qq "{'timestamp': 't1', 'message': 'inner text'}"));
             ("timestamp", PStr "t0")]
            (qq "{'timestamp': 't1', 'message': 'inner text'}")
            [("timestamp", PStr "t1"); ("message", PStr "inner text")]).
  - reflexivity.
  - vm_compute. reflexivity.
  - vm_compute. reflexivity.
  - vm_compute. reflexivity.
Defined.

(** ** Messages nested twice and the answers of the GPT agent *)

Lemma decode_message_inner jl jd s nd mc inner ts0 dm :
  startswith (strip s) "{" = true -> jl s = Some (PDict nd) ->
  dict_lookup nd "message" = Some (PStr mc) ->
  startswith (strip mc) "{" = true -> jl mc = Some (PDict inner) ->
  decode_message jl jd (PStr s) ts0 = Ok dm ->
  parsed_data dm = PDict nd /\ inner_parsed_data dm = PDict inner /\
  message_content dm = PStr mc /\
  plugin_id dm =
    (if truthy (top_level inner "PluginId" "pluginId" "plugin_id")
     then top_level inner "PluginId" "pluginId" "plugin_id"
     else top_level nd "PluginId" "pluginId" "plugin_id") /\
  d_log_type dm =
    (if truthy (dict_get inner "LogType" (dict_get inner "logType" (PStr "")))
     then dict_get inner "LogType" (dict_get inner "logType" (PStr ""))
     else top_level nd "LogType" "logType" "level").
Proof.
  intros P J M P' J' H. unfold decode_message in H. rewrite P, J in H.
  cbn [has_key getitem Py.bind] in H. unfold dict_has in H. rewrite M in H.
  match type of H with Py.bind ?u _ = _ => destruct u as [ts|] end;
    cbn [Py.bind] in H; [|discriminate H].
  unfold decode_inner in H. rewrite P', J' in H.
  unfold get3, get2 in H. cbn [get Py.bind] in H.
  fold (top_level inner "PluginId" "pluginId" "plugin_id") in H.
  fold (top_level nd "PluginId" "pluginId" "plugin_id") in H.
  fold (top_level nd "LogType" "logType" "level") in H.
  assert (Hp : (if truthy (top_level inner "PluginId" "pluginId" "plugin_id")
                then Ok (top_level inner "PluginId" "pluginId" "plugin_id")
                else Ok (top_level nd "PluginId" "pluginId" "plugin_id")) =
               Ok (if truthy (top_level inner "PluginId" "pluginId" "plugin_id")
                   then top_level inner "PluginId" "pluginId" "plugin_id"
                   else top_level nd "PluginId" "pluginId" "plugin_id"))
    by (destruct (truthy (top_level inner "PluginId" "pluginId" "plugin_id")); reflexivity).
  rewrite Hp in H. cbn [Py.bind] in H. clear Hp.
  assert (Hl : (if truthy (dict_get inner "LogType" (dict_get inner "logType" (PStr "")))
                then Ok (dict_get inner "LogType" (dict_get inner "logType" (PStr "")))
                else Ok (top_level nd "LogType" "logType" "level")) =
               Ok (if truthy (dict_get inner "LogType" (dict_get inner "logType" (PStr "")))
                   then dict_get inner "LogType" (dict_get inner "logType" (PStr ""))
                   else top_level nd "LogType" "logType" "level"))
    by (destruct (truthy (dict_get inner "LogType" (dict_get inner "logType" (PStr ""))));
        reflexivity).
  rewrite Hl in H. cbn [Py.bind] in H. clear Hl.
  destruct (negb (truthy (PStr mc)) || eq_str (PStr mc) s); cbn [Py.bind] in H;
    injection H as <-; cbn; repeat split.
Qed.

Lemma dict_has_truthy d k : dict_has d k = true -> truthy (PDict d) = true.
Proof. destruct d; [discriminate | reflexivity]. Qed.

Lemma smartflow_entry_inner jl jd d nd inner e :
  twice_nested jl d nd inner ->
  smartflow_entry jl jd (PDict d) = Ok e ->
  exists sid ts mc pid lt r c,
    let pid0 := if truthy (top_level inner "PluginId" "pluginId" "plugin_id")
                then top_level inner "PluginId" "pluginId" "plugin_id"
                else top_level nd "PluginId" "pluginId" "plugin_id" in
    let lt0 := if truthy (dict_get inner "LogType" (dict_get inner "logType" (PStr "")))
               then dict_get inner "LogType" (dict_get inner "logType" (PStr ""))
               else top_level nd "LogType" "logType" "level" in
    pid = (if truthy pid0 then pid0 else top_level d "PluginId" "pluginId" "plugin_id") /\
    lt = (if truthy lt0 then lt0 else top_level d "LogType" "logType" "log_type") /\
    detect_gpt pid lt (PDict inner) = Ok (r, c) /\
    e = new_LogEntry jl ts smartflow sid
          (if truthy lt then lt else PStr "system_log")
          (if truthy c then c else PStr mc)
          PNone PNone PNone r (dict_get d "message_type" (PStr "unknown"))
          (PDict [("host", dict_get d "host" (PStr ""));
                  ("role", dict_get d "role" (PStr ""));
                  ("log_file_path", dict_get d "log_file_path" (PStr ""));
                  ("id", dict_get d "id" (PStr ""));
                  ("ANI", dict_get d "ANI" (PStr ""));
                  ("DNIS", dict_get d "DNIS" (PStr ""));
                  ("PluginId", pid); ("logType", lt);
                  ("has_session_data",
                   PBool (dict_has inner "SessionData" || dict_has nd "SessionData"));
                  ("agent_type", if truthy r then PStr "gpt" else PNone)]).
Proof.
  intros (s & mc & M & P & J & Mn & P' & J') H. unfold smartflow_entry in H.
  destruct (_extract_session_id_from_smartflow jl (PDict d)) as [sid|];
    cbn [Py.bind] in H; [|discriminate H].
  cbn [get Py.bind] in H. rewrite M in H.
  destruct (decode_message jl jd (PStr s) (dict_get d "timestamp" (PStr ""))) as [dm|] eqn:D;
    cbn [Py.bind] in H; [|discriminate H].
  destruct (decode_message_inner jl jd s nd mc inner _ dm P J Mn P' J' D)
    as (D1 & D2 & D3 & D4 & D5).
  rewrite D1, D2, D3, D4, D5 in H. unfold get3 in H. cbn [get has_key Py.bind] in H.
  fold (top_level d "PluginId" "pluginId" "plugin_id") in H.
  fold (top_level d "LogType" "logType" "log_type") in H.
  match type of H with Py.bind (if ?b then Ok ?x else Ok ?y) _ = _ =>
    replace (if b then Ok x else Ok y) with (Ok (if b then x else y)) in H
      by (destruct b; reflexivity)
  end.
  cbn [Py.bind] in H.
  match type of H with Py.bind (if ?b then Ok ?x else Ok ?y) _ = _ =>
    replace (if b then Ok x else Ok y) with (Ok (if b then x else y)) in H
      by (destruct b; reflexivity)
  end.
  cbn [Py.bind] in H.
  assert (S1 : (if truthy (PDict inner) then Ok (dict_has inner "SessionData") else Ok false)
               = Ok (dict_has inner "SessionData")).
  { destruct (dict_has inner "SessionData") eqn:Hs.
    - now rewrite (dict_has_truthy _ _ Hs).
    - destruct (truthy (PDict inner)); reflexivity. }
  rewrite S1 in H. cbn [Py.bind] in H. clear S1.
  assert (S2 : (if dict_has inner "SessionData" then Ok false
                else if truthy (PDict nd) then Ok (dict_has nd "SessionData") else Ok false)
               = Ok (negb (dict_has inner "SessionData") && dict_has nd "SessionData")).
  { destruct (dict_has inner "SessionData"); [reflexivity|]. cbn [negb andb].
    destruct (dict_has nd "SessionData") eqn:Hs.
    - now rewrite (dict_has_truthy _ _ Hs).
    - destruct (truthy (PDict nd)); reflexivity. }
  rewrite S2 in H. cbn [Py.bind] in H. clear S2.
  match type of H with Py.bind (detect_gpt ?p ?l ?i) _ = _ =>
    destruct (detect_gpt p l i) as [[r c]|] eqn:G
  end; cbn [Py.bind] in H; [|discriminate H].
  injection H as <-.
  do 7 eexists. cbv zeta. split; [reflexivity|]. split; [reflexivity|].
  split; [exact G|].
  replace (dict_has inner "SessionData" ||
           negb (dict_has inner "SessionData") && dict_has nd "SessionData")
    with (dict_has inner "SessionData" || dict_has nd "SessionData")
    by (destruct (dict_has inner "SessionData"), (dict_has nd "SessionData"); reflexivity).
  reflexivity.
Qed.

(** X24.  The inner object wins.  For a record whose message is the JSON
    text of an object whose own message is again the JSON text of an object,
    the log type of the entry is the [LogType] (or [logType]) of the inner
    object whenever that is not empty, whatever the outer object and the
    record say; the same holds for the plugin id kept in the metadata; and
    the metadata flag [has_session_data] is set exactly when the inner or
    the outer object has a [SessionData] key. *)
Theorem X24_inner_object_wins :
  forall json_loads json_dumps d nested inner e,
    twice_nested json_loads d nested inner ->
    smartflow_entry json_loads json_dumps (PDict d) = Ok e ->
    exists md,
      metadata e = PDict md /\
      dict_get md "has_session_data" PNone =
        PBool (dict_has inner "SessionData" || dict_has nested "SessionData") /\
      (truthy (dict_get inner "LogType" (dict_get inner "logType" (PStr ""))) = true ->
       log_type e = dict_get inner "LogType" (dict_get inner "logType" (PStr "")) /\
       dict_get md "logType" PNone =
         dict_get inner "LogType" (dict_get inner "logType" (PStr ""))) /\
      (truthy (top_level inner "PluginId" "pluginId" "plugin_id") = true ->
       dict_get md "PluginId" PNone = top_level inner "PluginId" "pluginId" "plugin_id").
Proof.
  intros jl jd d nd inner e N H.
  destruct (smartflow_entry_inner jl jd d nd inner e N H)
    as (sid & ts & mc & pid & lt & r & c & Hp & Hl & _ & ->).
  cbv zeta in Hp, Hl.
  rewrite new_LogEntry_metadata.
  match goal with |- context[new_LogEntry ?j ?t ?src ?sd ?l ?cc ?b ?tt ?tr ?rr ?mt ?md] =>
    pose proof (new_LogEntry_fields j t src sd l cc b tt tr rr mt md) as F
  end.
  cbv zeta in F. destruct F as (_ & _ & _ & F4 & _). rewrite F4.
  eexists. split; [reflexivity|]. split; [reflexivity|]. split.
  - intros T. rewrite T in Hl. rewrite T in Hl. subst lt. rewrite T.
    split; reflexivity.
  - intros T. rewrite T in Hp. rewrite T in Hp. subst pid. reflexivity.
Qed.

Lemma X24_inner_object_wins_witness :
  exists e md,
    smartflow_entry Json.loads (fun _ => "") (PDict gpt_answer_record) = Ok e /\
    metadata e = PDict md /\
    dict_get md "has_session_data" PNone = PBool false /\
    (truthy (PStr "IpdIn") = true ->
     log_type e = PStr "IpdIn" /\ dict_get md "logType" PNone = PStr "IpdIn") /\
    (truthy (PStr "EXTCALL_3") = true -> dict_get md "PluginId" PNone = PStr "EXTCALL_3").
Proof.
  eexists.
  assert (N : twice_nested Json.loads gpt_answer_record gpt_answer_outer gpt_answer_inner).
  { do 2 eexists. split; [reflexivity|]. repeat split; vm_compute; reflexivity. }
  destruct (X24_inner_object_wins Json.loads (fun _ => "") gpt_answer_record gpt_answer_outer
              gpt_answer_inner _ N ltac:(vm_compute; reflexivity)) as (md & H1 & H2 & H3 & H4).
  exists md. split; [reflexivity|]. split; [exact H1|]. split; [exact H2|].
  split; [exact H3 | exact H4].
Defined.

Lemma extcall_truthy p : startswith p "EXTCALL_" = true -> truthy (PStr p) = true.
Proof. destruct p; [discriminate | reflexivity]. Qed.

Lemma dict_get_truthy d k : truthy (dict_get d k (PStr "")) = true -> truthy (PDict d) = true.
Proof. destruct d; [discriminate | reflexivity]. Qed.

(** X25.  The answer of a GPT agent.  For a record nested as above whose
    inner object names a plugin [EXTCALL_...], has the log type [IpdIn] or
    [PluginTran] and carries an [ai_response] that is not empty, the entry
    has the role [assistant], the answer for its content, and [gpt] for the
    agent type in its metadata. *)
Theorem X25_assistant_answer :
  forall json_loads json_dumps d nested inner e p,
    twice_nested json_loads d nested inner ->
    smartflow_entry json_loads json_dumps (PDict d) = Ok e ->
    top_level inner "PluginId" "pluginId" "plugin_id" = PStr p ->
    startswith p "EXTCALL_" = true ->
    dict_get inner "LogType" (dict_get inner "logType" (PStr "")) = PStr "IpdIn" \/
    dict_get inner "LogType" (dict_get inner "logType" (PStr "")) = PStr "PluginTran" ->
    truthy (dict_get inner "ai_response" (PStr "")) = true ->
    role e = PStr "assistant" /\
    content e = dict_get inner "ai_response" (PStr "") /\
    exists md, metadata e = PDict md /\ dict_get md "agent_type" PNone = PStr "gpt".
Proof.
  intros jl jd d nd inner e p N H Hp Hx Hl Ha.
  destruct (smartflow_entry_inner jl jd d nd inner e N H)
    as (sid & ts & mc & pid & lt & r & c & Ep & El & G & ->).
  cbv zeta in Ep, El. rewrite Hp, (extcall_truthy p Hx) in Ep.
  rewrite (extcall_truthy p Hx) in Ep. subst pid.
  assert (R : r = PStr "assistant" /\ c = dict_get inner "ai_response" (PStr "")).
  { unfold detect_gpt in G. rewrite (extcall_truthy p Hx), Hx in G.
    rewrite (dict_get_truthy _ _ Ha) in G.
    destruct Hl as [Hl|Hl]; rewrite Hl in El; cbn [truthy String.eqb negb] in El; subst lt;
      cbn [eq_str String.eqb Ascii.eqb Bool.eqb andb orb Py.bind truthy negb get] in G;
      rewrite Ha in G; cbn [Py.bind] in G; rewrite Ha in G; injection G as <- <-;
      split; reflexivity. }
  destruct R as (-> & ->).
  rewrite new_LogEntry_metadata.
  match goal with |- context[new_LogEntry ?j ?t ?src ?sd ?l ?cc ?b ?tt ?tr ?rr ?mt ?md] =>
    pose proof (new_LogEntry_fields j t src sd l cc b tt tr rr mt md) as F
  end.
  cbv zeta in F. destruct F as (_ & _ & _ & _ & F5 & _ & _ & _ & F9 & _).
  rewrite F5, F9, Ha. split; [reflexivity|]. split; [reflexivity|].
  eexists. split; reflexivity.
Qed.

Lemma X25_assistant_answer_witness :
  exists e,
    smartflow_entry Json.loads (fun _ => "") (PDict gpt_answer_record) = Ok e /\
    role e = PStr "assistant" /\
    content e = PStr "hello" /\
    exists md, metadata e = PDict md /\ dict_get md "agent_type" PNone = PStr "gpt".
Proof.
  eexists. split; [vm_compute; reflexivity|].
  eapply (X25_assistant_answer Json.loads (fun _ => "") gpt_answer_record gpt_answer_outer
            gpt_answer_inner _ "EXTCALL_3").
  - do 2 eexists. split; [reflexivity|]. repeat split; vm_compute; reflexivity.
  - vm_compute. reflexivity.
  - reflexivity.
  - reflexivity.
  - left. reflexivity.
  - reflexivity.
Defined.

(** ** The plugins of the diagram *)

Lemma m_captures {A} (r : Re.regex) :
  forall s c (k : string -> Re.caps -> option A) x,
    Re.m r s c k = Some x ->
    exists s' new,
      k s' (new ++ c)%list = Some x /\ Forall (fun kv => In (fst kv) (groups r)) new.
Proof.
  induction r as [|p|a IHa b IHb|a IHa b IHb|a IHa|n a IHa]; intros s c k x H;
    cbn [Re.m groups] in *.
  - exists s, []. split; [exact H | constructor].
  - destruct s as [|ch t]; [discriminate H|].
    destruct (p ch); [|discriminate H].
    exists t, []. split; [exact H | constructor].
  - destruct (IHa _ _ _ _ H) as (s1 & n1 & H1 & F1).
    destruct (IHb _ _ _ _ H1) as (s2 & n2 & H2 & F2).
    exists s2, (n2 ++ n1)%list. rewrite <- app_assoc. split; [exact H2|].
    apply Forall_app. split.
    + eapply Forall_impl; [|exact F2]. intros kv Hk. apply in_or_app. now right.
    + eapply Forall_impl; [|exact F1]. intros kv Hk. apply in_or_app. now left.
  - destruct (Re.m a s c k) as [y|] eqn:E.
    + injection H as ->. destruct (IHa _ _ _ _ E) as (s1 & n1 & H1 & F1).
      exists s1, n1. split; [exact H1|].
      eapply Forall_impl; [|exact F1]. intros kv Hk. apply in_or_app. now left.
    + destruct (IHb _ _ _ _ H) as (s1 & n1 & H1 & F1).
      exists s1, n1. split; [exact H1|].
      eapply Forall_impl; [|exact F1]. intros kv Hk. apply in_or_app. now right.
  - revert H. generalize (String.length s). intros n. revert s c.
    induction n as [|n IHn]; intros s c H.
    + exists s, []. split; [exact H | constructor].
    + match type of H with match ?t with _ => _ end = _ => destruct t as [y|] eqn:E end.
      * injection H as ->.
        destruct (IHa _ _ _ _ E) as (s1 & n1 & H1 & F1).
        destruct (String.length s1 <? String.length s)%nat; [|discriminate H1].
        destruct (IHn _ _ H1) as (s2 & n2 & H2 & F2).
        exists s2, (n2 ++ n1)%list. rewrite <- app_assoc. split; [exact H2|].
        apply Forall_app. now split.
      * exists s, []. split; [exact H | constructor].
  - destruct (IHa _ _ _ _ H) as (s1 & n1 & H1 & F1).
    exists s1, ((n, Re.consumed s s1) :: n1). split; [exact H1|].
    constructor; [now left|].
    eapply Forall_impl; [|exact F1]. intros kv Hk. now right.
Qed.

Lemma lookup_group_skip new n t c :
  Forall (fun kv : nat * string => fst kv <> n) new ->
  Re.lookup_group (new ++ (n, t) :: c)%list n = Some t.
Proof.
  induction 1 as [|[i u] l Hi _ IH]; cbn [app Re.lookup_group].
  - now rewrite Nat.eqb_refl.
  - cbn [fst] in Hi. apply Nat.eqb_neq in Hi. now rewrite Hi.
Qed.

Lemma group_captured {A} n a rest s c (k : string -> Re.caps -> option A) x :
  ~ In n (groups rest) ->
  Re.m (Re.Seq (Re.Group n a) rest) s c k = Some x ->
  exists s' c' t,
    k s' c' = Some x /\ Re.lookup_group c' n = Some t /\
    (min_len a <= String.length t)%nat.
Proof.
  intros N H. cbn [Re.m] in H.
  destruct (m_consumes a _ _ _ _ H) as (p & s1 & c1 & -> & L & H1).
  rewrite consumed_app in H1.
  destruct (m_captures rest _ _ _ _ H1) as (s' & new & H2 & F).
  exists s', (new ++ (n, p) :: c1)%list, p. split; [exact H2|]. split; [|exact L].
  apply lookup_group_skip. eapply Forall_impl; [|exact F].
  intros kv Hk E. apply N. now rewrite <- E.
Qed.

Lemma search_from_match r : forall s pos mo,
  Re.search_from r s pos = Some mo -> exists s0 pos0, Re.match_here r s0 pos0 = Some mo.
Proof.
  induction s as [|ch t IH]; intros pos mo H; cbn [Re.search_from] in H.
  - destruct (Re.match_here r "" pos) as [mo'|] eqn:E; [|discriminate H].
    injection H as <-. now exists "", pos.
  - destruct (Re.match_here r (String ch t) pos) as [mo'|] eqn:E.
    + injection H as <-. now exists (String ch t), pos.
    + exact (IH _ _ H).
Qed.

Lemma findall_match r mo : forall fuel s,
  In mo (Re.findall_fuel fuel r s) -> exists s0 pos0, Re.match_here r s0 pos0 = Some mo.
Proof.
  induction fuel as [|f IH]; intros s H; cbn [Re.findall_fuel] in H; [destruct H|].
  destruct (Re.search r s) as [mo'|] eqn:E; [|destruct H].
  destruct H as [<-|H]; [exact (search_from_match r s 0 mo' E)|].
  destruct (Re.m_text mo'); [destruct (Re.m_rest mo'); [destruct H|]|]; exact (IH _ H).
Qed.

Lemma m_seq {A} a b s c (k : string -> Re.caps -> option A) :
  Re.m (Re.Seq a b) s c k = Re.m a s c (fun s' c' => Re.m b s' c' k).
Proof. reflexivity. Qed.

Lemma plugin_name_captured s pos mo :
  Re.match_here Pat.plugin_pattern s pos = Some mo -> Re.group mo 1 <> "".
Proof.
  unfold Re.match_here, Pat.plugin_pattern. cbn [Re.seq]. intros H.
  rewrite m_seq in H. apply m_consumes in H. destruct H as (p1 & s1 & c1 & _ & _ & H).
  rewrite m_seq in H. apply m_consumes in H. destruct H as (p2 & s2 & c2 & _ & _ & H).
  rewrite m_seq in H. apply m_consumes in H. destruct H as (p3 & s3 & c3 & _ & _ & H).
  rewrite m_seq in H. apply m_consumes in H. destruct H as (p4 & s4 & c4 & _ & _ & H).
  apply group_captured in H.
  - destruct H as (s' & c' & t & Hk & Hl & Ht). cbv beta in Hk. injection Hk as <-.
    unfold Re.group. cbn [Re.m_caps]. rewrite Hl.
    intros ->. cbn in Ht. lia.
  - cbn. intros [E|[E|[]]]; discriminate E.
Qed.

(** X26.  Every flow-engine node of a diagram is a plugin of the stored XML
    text with a name that is not empty: its id is this name, its label is
    not empty either (the name stands in for an empty label), and it is
    among the nodes of the diagram. *)
Theorem X26_plugin_nodes_are_named :
  forall infra xml flow n,
    extract_flow_diagram infra xml = Ok flow ->
    In n (smartflow_nodes flow) ->
    In n (nodes flow) /\
    exists id label plugin_type,
      n = PluginNode id label plugin_type /\ id <> "" /\ label <> "".
Proof.
  intros infra xml flow n H Hin. unfold extract_flow_diagram in H.
  destruct (match infra with PList bl => blocks_from 0 bl | _ => Ok [] end)
    as [blocks|]; cbn [Py.bind] in H; [|discriminate H].
  injection H as <-. cbn [smartflow_nodes nodes] in *.
  split; [apply in_or_app; now right|].
  destruct xml as [x|]; [|destruct Hin].
  apply in_map_iff in Hin. destruct Hin as (mo & <- & Hmo).
  destruct (findall_match _ _ _ _ Hmo) as (s0 & pos0 & Hm).
  pose proof (plugin_name_captured _ _ _ Hm) as Hn.
  unfold plugin_node. do 3 eexists. split; [reflexivity|]. split; [exact Hn|].
  destruct (Re.group mo 2 =? "") eqn:E; cbn [negb]; [exact Hn|].
  intros Z. rewrite Z in E. discriminate E.
Qed.

Lemma X26_plugin_nodes_are_named_witness :
  exists flow,
    extract_flow_diagram PNone (Some (qq "<plugin name='P1' label='' type='menu'>")) = Ok flow /\
    smartflow_nodes flow = [PluginNode "P1" "P1" "menu"] /\
    In (PluginNode "P1" "P1" "menu") (nodes flow).
Proof.
  eexists. split; [vm_compute; reflexivity|]. split; [reflexivity|].
  eapply (X26_plugin_nodes_are_named PNone
            (Some (qq "<plugin name='P1' label='' type='menu'>"))).
  - vm_compute. reflexivity.
  - left. reflexivity.
Defined.

(** ** The block route *)

Lemma get_block_info_found infra id b :
  get_block_info infra id = Ok (Some b) ->
  exists d, b = PDict d /\ dict_get d "block_id" PNone = PStr id /\ truthy b = true.
Proof.
  unfold get_block_info. destruct (truthy infra); cbn [negb]; [|discriminate].
  destruct (iter infra) as [blocks|]; cbn [Py.bind]; [|discriminate].
  intros H. destruct (find_block_some _ _ _ H) as (pre & post & d & _ & -> & Hd & _).
  exists d. split; [reflexivity|]. split; [exact Hd|].
  destruct d; [discriminate Hd | reflexivity].
Qed.

(** X27.  The block route answers with the block that the first registered
    debugger that has a block with the id asked for finds: every debugger in
    front of it finds nothing, and the block is a mapping of its
    infrastructure that carries the id.  Conversely, when the debuggers in
    front of one find nothing and this one finds a block, the route answers
    with that block.  The route answers 404 exactly when the lookup finds
    nothing in any registered debugger, since a block that is found is never
    empty. *)
Theorem X27_block_route_finds_registered_block :
  forall debuggers id,
    (forall b, get_block_info_route debuggers id = Ok (Some b) ->
       exists before k debugger after d,
         debuggers = (before ++ (k, debugger) :: after)%list /\
         Forall (fun kv => get_block_info (blockagent_structure (snd kv)) id = Ok None)
                before /\
         get_block_info (blockagent_structure debugger) id = Ok (Some b) /\
         b = PDict d /\ dict_get d "block_id" PNone = PStr id) /\
    (forall before k debugger after b,
       debuggers = (before ++ (k, debugger) :: after)%list ->
       Forall (fun kv => get_block_info (blockagent_structure (snd kv)) id = Ok None)
              before ->
       get_block_info (blockagent_structure debugger) id = Ok (Some b) ->
       get_block_info_route debuggers id = Ok (Some b)) /\
    (get_block_info_route debuggers id = Ok None <->
     Forall (fun kv => get_block_info (blockagent_structure (snd kv)) id = Ok None)
            debuggers).
Proof.
  intros ds id. split; [|split].
  - induction ds as [|[k dbg] t IH]; cbn [get_block_info_route]; intros b H;
      [discriminate H|].
    destruct (get_block_info (blockagent_structure dbg) id) as [[b0|]|e] eqn:G;
      cbn [Py.bind] in H; [| |discriminate H].
    + destruct (get_block_info_found _ _ _ G) as (d & -> & Hd & T). rewrite T in H.
      injection H as <-. exists [], k, dbg, t, d.
      split; [reflexivity|]. split; [constructor|]. split; [exact G|].
      split; [reflexivity | exact Hd].
    + destruct (IH b H) as (pre & k' & dbg' & post & d & -> & Hpre & H1 & H2 & H3).
      exists ((k, dbg) :: pre), k', dbg', post, d.
      split; [reflexivity|]. split; [constructor; [exact G | exact Hpre]|].
      split; [exact H1|]. split; assumption.
  - intros pre k dbg post b -> F G. induction F as [|[k0 d0] l H0 _ IH];
      cbn [app get_block_info_route].
    + rewrite G. cbn [Py.bind].
      destruct (get_block_info_found _ _ _ G) as (d & _ & _ & T). now rewrite T.
    + cbn [snd] in H0. rewrite H0. cbn [Py.bind]. exact IH.
  - induction ds as [|[k dbg] t IH]; cbn [get_block_info_route].
    + split; [constructor | reflexivity].
    + destruct (get_block_info (blockagent_structure dbg) id) as [[b|]|e] eqn:G;
        cbn [Py.bind].
      * destruct (get_block_info_found _ _ _ G) as (d & _ & _ & T). rewrite T.
        split; [discriminate|]. intros F. inversion F as [|? ? H0 _]; subst.
        cbn [snd] in H0. rewrite G in H0. discriminate H0.
      * split.
        -- intros H. constructor; [exact G | now apply IH].
        -- intros F. inversion F; subst. now apply IH.
      * split; [discriminate|].
        intros F. inversion F as [|? ? H0 _]; subst. cbn [snd] in H0.
        rewrite G in H0. discriminate H0.
Qed.

Lemma X27_block_route_finds_registered_block_witness :
  exists dbg1 dbg2,
    load_all Json.loads (fun _ => "") two_source_flow no_transactions None
      (PList [PDict [("block_id", PStr "a")]]) = Ok dbg1 /\
    load_all Json.loads (fun _ => "") (PList []) two_source_agent None
      (PList [PDict [("block_id", PStr "b7"); ("name", PStr "Greeting")]]) = Ok dbg2 /\
    map fst (register_sessions (register_sessions [] dbg1) dbg2) =
      [flow_session; PStr "agent-session"] /\
    get_block_info (blockagent_structure dbg1) "b7" = Ok None /\
    get_block_info_route (register_sessions (register_sessions [] dbg1) dbg2) "b7" =
      Ok (Some (PDict [("block_id", PStr "b7"); ("name", PStr "Greeting")])) /\
    exists before k debugger after d,
      register_sessions (register_sessions [] dbg1) dbg2 =
        (before ++ (k, debugger) :: after)%list /\
      Forall (fun kv => get_block_info (blockagent_structure (snd kv)) "b7" = Ok None)
             before /\
      get_block_info (blockagent_structure debugger) "b7" =
        Ok (Some (PDict [("block_id", PStr "b7"); ("name", PStr "Greeting")])) /\
      PDict [("block_id", PStr "b7"); ("name", PStr "Greeting")] = PDict d /\
      dict_get d "block_id" PNone = PStr "b7".
Proof.
  do 2 eexists. split; [vm_compute; reflexivity|]. split; [vm_compute; reflexivity|].
  split; [vm_compute; reflexivity|]. split; [reflexivity|].
  split; [vm_compute; reflexivity|].
  eapply (proj1 (X27_block_route_finds_registered_block _ "b7")).
  vm_compute. reflexivity.
Defined.

(** ** Timestamps without a fraction *)

Lemma m_seq_contains {A} r rest sub s c (k : string -> Re.caps -> option A) x :
  (forall s' c', Re.m rest s' c' k = Some x -> contains s' sub = true) ->
  Re.m (Re.Seq r rest) s c k = Some x -> contains s sub = true.
Proof.
  intros Hrest H. rewrite m_seq in H.
  destruct (m_consumes r _ _ _ _ H) as (p & s1 & c1 & -> & _ & H1).
  apply contains_app_r. exact (Hrest _ _ H1).
Qed.

Lemma m_chr_contains {A} ch rest s c (k : string -> Re.caps -> option A) x :
  Re.m (Re.Seq (Re.chr ch) rest) s c k = Some x -> contains s (String ch "") = true.
Proof.
  rewrite m_seq. unfold Re.chr. cbn [Re.m]. destruct s as [|a t]; [discriminate|].
  destruct (Ascii.eqb ch a) eqn:E; [|discriminate]. intros _.
  apply Ascii.eqb_eq in E. subst a. apply contains_prefix. cbn.
  destruct (ascii_dec ch ch); [apply prefix_nil | congruence].
Qed.

Lemma strptime_needs_dot s fmt :
  fmt = Strptime.fmt_iso_z \/ fmt = Strptime.fmt_blank \/ fmt = Strptime.fmt_iso ->
  contains s "." = false -> Strptime.strptime s fmt = None.
Proof.
  intros F N. unfold Strptime.strptime.
  destruct (Re.match_here fmt s 0) as [mo|] eqn:E; [|reflexivity].
  exfalso. unfold Re.match_here in E.
  assert (C : contains s "." = true); [|rewrite C in N; discriminate N].
  destruct F as [->|[->| ->]];
    unfold Strptime.fmt_iso_z, Strptime.fmt_blank, Strptime.fmt_iso in E; cbn [Re.seq] in E;
    revert E; do 11 (apply m_seq_contains; intros ? ?); apply m_chr_contains.
Qed.

(** X28.  A timestamp without a fraction of a second is not read: every
    value that is not a text, and every text without a dot, such as
    [2025-01-01T00:00:01Z], gets the time [datetime.min], so that its entry
    sorts with the entries without a timestamp. *)
Theorem X28_whole_seconds_are_not_parsed :
  forall e,
    (forall s, timestamp e = PStr s -> contains s "." = false) ->
    _parse_timestamp (timestamp e) = Strptime.datetime_min /\
    sort_key e = Strptime.ordinal Strptime.datetime_min.
Proof.
  intros e H.
  assert (P : _parse_timestamp (timestamp e) = Strptime.datetime_min).
  { unfold _parse_timestamp. destruct (negb (truthy (timestamp e))); [reflexivity|].
    destruct (timestamp e) as [| | |s| |]; try reflexivity.
    specialize (H s eq_refl).
    rewrite !(strptime_needs_dot s) by (auto; tauto). reflexivity. }
  split; [exact P|]. unfold sort_key. now rewrite P.
Qed.

Lemma X28_whole_seconds_are_not_parsed_witness :
  _parse_timestamp (timestamp (stamped "2025-01-01T00:00:01Z")) = Strptime.datetime_min /\
  sort_key (stamped "2025-01-01T00:00:01Z") = Strptime.ordinal Strptime.datetime_min.
Proof.
  apply X28_whole_seconds_are_not_parsed.
  intros s E. injection E as <-. reflexivity.
Defined.
